(** * The tune-scan study generator and its base job, embedded in Rocq

    The repository holds two Python scripts:

    - [master_study/001_make_folders.py], which assembles the tree of job
      configurations as nested dictionaries (one base node, one leaf per
      kept point of the scan grid) and hands it to tree_maker;
    - [master_study/master_jobs/1_build_distr_and_collider/1_build_distr_and_collider.py],
      the job of the base node, which writes the particle distribution and
      the collider.

    Both are embedded shallowly.  Python dictionaries are objects of a heap
    (a list indexed by location), each an insertion-ordered association
    list, so that aliasing and mutation are those of the scripts.  Numbers
    that the scripts compute in binary64 are primitive floats.  Exceptions
    are the error side of a state-and-error monad. *)

Set Warnings "-inexact-float,-register-all".
From Stdlib Require Import ZArith List String Ascii Bool Floats Lia Sorted.
From Stdlib Require Import Decimal DecimalString DecimalNat.
From stdpp Require Import base list strings.
Import ListNotations.

Local Open Scope string_scope.
Local Open Scope list_scope.

(** ** Python values, dictionaries and the object heap *)

Module Py.

(** Locations of the heap. *)
Abbreviation loc := nat (only parsing).

(** The values the scripts store in dictionaries.  [VRef] points to a
    dictionary of the heap; a list is never changed by the scripts and
    is kept as a value. *)
Inductive value : Type :=
| VNone
| VBool (b : bool)
| VInt (z : Z)
| VFloat (f : float)
| VStr (s : string)
| VList (l : list value)
| VRef (l : loc).

(** A dictionary keeps its keys in insertion order. *)
Abbreviation dict := (list (string * value)) (only parsing).

(** The heap: the dictionaries allocated so far, a location being an
    index. *)
Abbreviation heap := (list dict) (only parsing).

Inductive exn : Type :=
| KeyError (k : string)
| TypeError
| AttributeError
| ValueError (msg : string)
| EOFError
| NotImplementedError
| OSError (what : string)
| ExternalError (what : string).

(** [d[k]] read: the first (and only) entry under [k]. *)
Fixpoint dict_get (k : string) (d : dict) : option value :=
  match d with
  | [] => None
  | (k', v) :: d' => if String.eqb k k' then Some v else dict_get k d'
  end.

(** [d[k] = v]: an existing key keeps its place, a new key goes last. *)
Fixpoint dict_set (k : string) (v : value) (d : dict) : dict :=
  match d with
  | [] => [(k, v)]
  | (k', v') :: d' =>
      if String.eqb k k' then (k, v) :: d' else (k', v') :: dict_set k v d'
  end.

(** [k in d] *)
Definition dict_mem (k : string) (d : dict) : bool :=
  match dict_get k d with Some _ => true | None => false end.

(** [list(d.keys())] *)
Definition dict_keys (d : dict) : list string := map fst d.

(** A dictionary display [{k1: v1, ...}]: keys are set from left to right. *)
Definition dict_of (kvs : list (string * value)) : dict :=
  fold_left (fun d kv => dict_set (fst kv) (snd kv) d) kvs [].

(** Following a chain of keys from a value through the heap:
    [v[k1][k2]...]. *)
Fixpoint heap_path (h : heap) (v : value) (p : list string) : option value :=
  match p with
  | [] => Some v
  | k :: p' =>
      match v with
      | VRef l =>
          match h !! l with
          | Some d =>
              match dict_get k d with
              | Some v' => heap_path h v' p'
              | None => None
              end
          | None => None
          end
      | _ => None
      end
  end.

(** *** YAML documents *)

(** What [yaml.safe_load] reads.  The keys of a mapping are kept as their
    text. *)
Inductive yaml : Type :=
| YNull
| YBool (b : bool)
| YInt (z : Z)
| YFloat (f : float)
| YStr (s : string)
| YSeq (l : list yaml)
| YMap (m : list (string * yaml)).

(** [yaml.safe_load]: every mapping of the document becomes a new
    dictionary of the heap, the nested ones first.  [load_seq] and
    [load_map] read the elements of a sequence and the entries of a
    mapping with the reader [ld] of one document. *)
Definition load_seq (ld : yaml -> heap -> value * heap)
  : list yaml -> heap -> list value * heap :=
  fix go (l : list yaml) (h : heap) : list value * heap :=
    match l with
    | [] => ([], h)
    | y :: l' =>
        let '(v, h1) := ld y h in
        let '(vs, h2) := go l' h1 in
        (v :: vs, h2)
    end.

Definition load_map (ld : yaml -> heap -> value * heap)
  : list (string * yaml) -> dict -> heap -> dict * heap :=
  fix go (m : list (string * yaml)) (d : dict) (h : heap) : dict * heap :=
    match m with
    | [] => (d, h)
    | (k, y) :: m' =>
        let '(v, h1) := ld y h in
        go m' (dict_set k v d) h1
    end.

Fixpoint load (y : yaml) (h : heap) : value * heap :=
  match y with
  | YNull => (VNone, h)
  | YBool b => (VBool b, h)
  | YInt z => (VInt z, h)
  | YFloat f => (VFloat f, h)
  | YStr s => (VStr s, h)
  | YSeq l =>
      let '(vs, h') := load_seq load l h in
      (VList vs, h')
  | YMap m =>
      let '(d, h') := load_map load m [] h in
      (VRef (length h'), h' ++ [d])
  end.

(** [m[k]] on a mapping of a document; of two entries under the same
    key, [yaml.safe_load] keeps the last. *)
Fixpoint yaml_get (k : string) (m : list (string * yaml)) : option yaml :=
  match m with
  | [] => None
  | (k', y) :: m' =>
      match yaml_get k m' with
      | Some y' => Some y'
      | None => if String.eqb k k' then Some y else None
      end
  end.

(** The mapping with [v] under [k], everything else as it is. *)
Fixpoint yaml_set (k : string) (v : yaml) (m : list (string * yaml)) : list (string * yaml) :=
  match m with
  | [] => [(k, v)]
  | (k', y) :: m' =>
      if String.eqb k k' then
        (k, v) :: List.filter (fun kv => negb (String.eqb k (fst kv))) m'
      else (k', y) :: yaml_set k v m'
  end.

(** The items of the dictionary [yaml.safe_load] builds from a mapping:
    a key stands where it first occurs, with its last value. *)
Fixpoint yaml_put (k : string) (v : yaml) (d : list (string * yaml)) : list (string * yaml) :=
  match d with
  | [] => [(k, v)]
  | (k', v') :: d' =>
      if String.eqb k k' then (k, v) :: d' else (k', v') :: yaml_put k v d'
  end.

Definition yaml_items (m : list (string * yaml)) : list (string * yaml) :=
  fold_left (fun d kv => yaml_put (fst kv) (snd kv) d) m [].

(** The truth value of an object in a condition. *)
Definition truthy (y : yaml) : bool :=
  match y with
  | YNull => false
  | YBool b => b
  | YInt z => negb (Z.eqb z 0)
  | YFloat f => negb (PrimFloat.eqb f 0%float)
  | YStr s => negb (String.eqb s "")
  | YSeq l => match l with [] => false | _ => true end
  | YMap m => match m with [] => false | _ => true end
  end.

(** *** Format specifications [:02] and [:04] of non-negative integers *)

Fixpoint zeros (n : nat) (d : uint) : uint :=
  match n with
  | O => d
  | S n' => D0 (zeros n' d)
  end.

(** [f"{n:0w}"]: the decimal digits of [n], padded on the left with zeros
    to at least [w] characters. *)
Definition zero_pad (w : nat) (d : uint) : uint := zeros (w - nb_digits d) d.

Definition format_0w (w n : nat) : string :=
  NilEmpty.string_of_uint (zero_pad w (Nat.to_uint n)).

(** Reading such a field back ([int(s)] on a string of digits). *)
Definition parse_nat (s : string) : option nat :=
  match NilEmpty.uint_of_string s with
  | Some d => Some (Nat.of_uint d)
  | None => None
  end.

(** [a == b] on strings. *)
Definition str_eq (a b : string) : bool := String.eqb a b.

(** [s.startswith(p)] returning the rest of [s]. *)
Fixpoint strip_prefix (p s : string) : option string :=
  match p with
  | EmptyString => Some s
  | String c p' =>
      match s with
      | EmptyString => None
      | String c' s' => if Ascii.eqb c c' then strip_prefix p' s' else None
      end
  end.

(** [s.endswith(suf)]: some suffix of [s] is [suf]. *)
Fixpoint endswith (s suf : string) : bool :=
  if String.eqb s suf then true
  else
    match s with
    | EmptyString => false
    | String _ s' => endswith s' suf
    end.

(** *** Paths *)

(** [s.split("/")] *)
Fixpoint split_slash (s : string) : list string :=
  match s with
  | EmptyString => [EmptyString]
  | String c s' =>
      if Ascii.eqb c "/" then EmptyString :: split_slash s'
      else
        match split_slash s' with
        | seg :: rest => String c seg :: rest
        | [] => [String c EmptyString]
        end
  end.

(** No [/] in a string. *)
Fixpoint no_slash (s : string) : bool :=
  match s with
  | EmptyString => true
  | String c s' => negb (Ascii.eqb c "/") && no_slash s'
  end.

(** Walking the segments of a relative path from a directory given by its
    segments from the root: [os.path.normpath(os.path.join(dir, rel))].
    Empty segments and [.] stay in place, [..] goes to the parent (the
    root is its own parent). *)
Fixpoint walk (dir : list string) (segs : list string) : list string :=
  match segs with
  | [] => dir
  | seg :: rest =>
      if String.eqb seg "" then walk dir rest
      else if String.eqb seg "." then walk dir rest
      else if String.eqb seg ".." then walk (removelast dir) rest
      else walk (dir ++ [seg]) rest
  end.

Definition resolve (dir : list string) (rel : string) : list string :=
  walk dir (split_slash rel).

(** The text of an absolute path. *)
Definition path_str (p : list string) : string :=
  match p with
  | [] => "/"
  | _ => fold_right (fun seg acc => "/" +:+ seg +:+ acc) "" p
  end.

End Py.

(** ** A state-and-error monad for scripts *)

Module Script.
Import Py.

Inductive outcome (S A : Type) : Type :=
| Ok (a : A) (s : S)
| Raise (e : exn) (s : S).
Arguments Ok {S A} a s.
Arguments Raise {S A} e s.

Definition M (S A : Type) : Type := S -> outcome S A.

Definition ret {S A} (a : A) : M S A := fun s => Ok a s.

Definition bind {S A B} (m : M S A) (k : A -> M S B) : M S B :=
  fun s =>
    match m s with
    | Ok a s' => k a s'
    | Raise e s' => Raise e s'
    end.

Definition raise {S A} (e : exn) : M S A := fun s => Raise e s.

(** [for x in l: body(x)] *)
Fixpoint for_each {S A} (l : list A) (body : A -> M S unit) : M S unit :=
  match l with
  | [] => ret tt
  | x :: l' => bind (body x) (fun _ => for_each l' body)
  end.

(** The state reached, with or without an exception. *)
Definition final {S A} (o : outcome S A) : S :=
  match o with
  | Ok _ s => s
  | Raise _ s => s
  end.

Definition raised {S A} (o : outcome S A) : option exn :=
  match o with
  | Ok _ _ => None
  | Raise e _ => Some e
  end.

End Script.

Declare Scope script_scope.
Delimit Scope script_scope with script.
Notation "x <- m ;; k" := (Script.bind m (fun x => k))
  (at level 99, m at next level, right associativity) : script_scope.
Notation "m ;;; k" := (Script.bind m (fun _ => k))
  (at level 99, right associativity) : script_scope.

(** ** [001_make_folders.py]: the generator of the configuration tree *)

Module Gen.
Import Py Script.
Local Open Scope script_scope.

(** *** What the user edits in the script *)

(** The scan section of the script: the number of splits of the particle
    distribution, the two tune arrays, the switch of the upper-triangle
    rule, and the tracking parameters. *)
Record scan_spec : Type := {
  n_split : nat;
  skip_leveling_base_collider : bool;
  array_qx : list float;
  array_qy : list float;
  only_keep_upper_triangle : bool;
  n_turns : Z;
  delta_max : float
}.

(** *** The world the script runs in *)

Definition path := list string.

Inductive kind : Type := File | Dir.

(** The filesystem, as the entries that exist, addressed by their
    segments from the root. *)
Definition fs := list (path * kind).

Fixpoint fs_lookup (p : path) (f : fs) : option kind :=
  match f with
  | [] => None
  | (q, k) :: f' => if decide (p = q) then Some k else fs_lookup p f'
  end.

Fixpoint fs_remove (p : path) (f : fs) : fs :=
  match f with
  | [] => []
  | (q, k) :: f' => if decide (p = q) then fs_remove p f' else (q, k) :: fs_remove p f'
  end.

Definition fs_add (p : path) (k : kind) (f : fs) : fs := (p, k) :: fs_remove p f.

(** Calls into tree_maker, in the order the script makes them. *)
Inductive call : Type :=
| Initialize (config : value)
| MakeFolders (cwd : path).

(** What is outside the script: the helper of [user_defined_functions],
    Python's [int] on a line of input, the content of [config.yaml]
    ([None] when it cannot be read), and what tree_maker does to the
    filesystem ([None] when it raises). *)
Record env : Type := {
  get_worst_bunch : string -> Z -> string -> Z;
  py_int : string -> option Z;
  config_yaml : option yaml;
  tm_initialize : heap -> value -> path -> fs -> option fs;
  tm_make_folders : heap -> value -> path -> fs -> option fs
}.

Record state : Type := {
  st_heap : heap;
  st_stdin : list string;
  st_cwd : path;
  st_fs : fs;
  st_calls : list call
}.

Definition with_heap (h : heap) (s : state) : state :=
  {| st_heap := h; st_stdin := st_stdin s; st_cwd := st_cwd s;
     st_fs := st_fs s; st_calls := st_calls s |}.

Definition G (A : Type) : Type := M state A.

(** *** Dictionary statements *)

(** A dictionary display allocates a new object. *)
Definition new_dict (d : dict) : G value :=
  fun s => Ok (VRef (length (st_heap s))) (with_heap (st_heap s ++ [d]) s).

(** [v[k]] *)
Definition getitem (v : value) (k : string) : G value :=
  fun s =>
    match v with
    | VRef l =>
        match st_heap s !! l with
        | Some d =>
            match dict_get k d with
            | Some x => Ok x s
            | None => Raise (KeyError k) s
            end
        | None => Raise TypeError s
        end
    | _ => Raise TypeError s
    end.

(** [v[k] = x] *)
Definition setitem (v : value) (k : string) (x : value) : G unit :=
  fun s =>
    match v with
    | VRef l =>
        match st_heap s !! l with
        | Some d => Ok tt (with_heap (<[l := dict_set k x d]> (st_heap s)) s)
        | None => Raise TypeError s
        end
    | _ => Raise TypeError s
    end.

Definition as_int (v : value) : G Z :=
  match v with
  | VInt z => ret z
  | VBool b => ret (if b then 1%Z else 0%Z)
  | _ => raise TypeError
  end.

(** [input()]: the next line of the standard input, [EOFError] at its end. *)
Definition input : G string :=
  fun s =>
    match st_stdin s with
    | [] => Raise EOFError s
    | a :: rest =>
        Ok a {| st_heap := st_heap s; st_stdin := rest; st_cwd := st_cwd s;
                st_fs := st_fs s; st_calls := st_calls s |}
    end.

Definition get_state : G state := fun s => Ok s s.

Definition put_fs (f : fs) : G unit :=
  fun s => Ok tt {| st_heap := st_heap s; st_stdin := st_stdin s; st_cwd := st_cwd s;
                    st_fs := f; st_calls := st_calls s |}.

Definition put_cwd (c : path) : G unit :=
  fun s => Ok tt {| st_heap := st_heap s; st_stdin := st_stdin s; st_cwd := c;
                    st_fs := st_fs s; st_calls := st_calls s |}.

Definition log_call (c : call) : G unit :=
  fun s => Ok tt {| st_heap := st_heap s; st_stdin := st_stdin s; st_cwd := st_cwd s;
                    st_fs := st_fs s; st_calls := st_calls s ++ [c] |}.

(** *** Filesystem statements *)

(** [os.path.abspath(rel)] *)
Definition abspath (rel : string) : G string :=
  s <- get_state ;; ret (path_str (resolve (st_cwd s) rel)).

(** [os.getcwd()] *)
Definition getcwd : G string :=
  s <- get_state ;; ret (path_str (st_cwd s)).

(** [os.path.exists(rel)] *)
Definition path_exists (rel : string) : G bool :=
  s <- get_state ;;
  ret (match fs_lookup (resolve (st_cwd s) rel) (st_fs s) with
       | Some _ => true
       | None => false
       end).

(** Creating the directories of [segs] below [dir], one after the other;
    the last one must not exist, the others may. *)
Fixpoint mkdirs (dir : path) (segs : list string) (f : fs) : exn + fs :=
  match segs with
  | [] => inr f
  | seg :: rest =>
      let p := dir ++ [seg] in
      match fs_lookup p f with
      | Some File =>
          inl (OSError (match rest with [] => "FileExistsError" | _ => "NotADirectoryError" end))
      | Some Dir =>
          match rest with
          | [] => inl (OSError "FileExistsError")
          | _ => mkdirs p rest f
          end
      | None => mkdirs p rest (fs_add p Dir f)
      end
  end.

(** [os.makedirs(rel)] for a relative path without [.] and [..]. *)
Definition makedirs (rel : string) : G unit :=
  s <- get_state ;;
  match mkdirs (st_cwd s) (split_slash rel) (st_fs s) with
  | inl e => raise e
  | inr f => put_fs f
  end.

(** [os.chdir(rel)] *)
Definition chdir (rel : string) : G unit :=
  s <- get_state ;;
  let p := resolve (st_cwd s) rel in
  match fs_lookup p (st_fs s) with
  | Some Dir => put_cwd p
  | Some File => raise (OSError "NotADirectoryError")
  | None => raise (OSError "FileNotFoundError")
  end.

(** [shutil.move(src, dst)] of a file: it is renamed to [dst], replacing
    a file that was there; when [dst] is a directory it goes inside, under
    its own name, which must be free. *)
Definition move (src dst : string) : G unit :=
  s <- get_state ;;
  let ps := resolve (st_cwd s) src in
  let pd := resolve (st_cwd s) dst in
  match fs_lookup ps (st_fs s) with
  | None => raise (OSError "FileNotFoundError")
  | Some k =>
      match fs_lookup pd (st_fs s) with
      | Some Dir =>
          let pd' := pd ++ [List.last ps ""] in
          match fs_lookup pd' (st_fs s) with
          | Some _ => raise (OSError "shutil.Error")
          | None => put_fs (fs_add pd' k (fs_remove ps (st_fs s)))
          end
      | _ => put_fs (fs_add pd k (fs_remove ps (st_fs s)))
      end
  end.

(** The script starts with no object allocated and no call made. *)
Definition init_state (stdin : list string) (cwd : path) (f : fs) : state :=
  {| st_heap := []; st_stdin := stdin; st_cwd := cwd; st_fs := f; st_calls := [] |}.

(** *** The script, section by section *)

Section Script.
Variable e : env.
Variable sp : scan_spec.

(** Lines 21-32: the initial particle distribution. *)
Definition particles_section : G value :=
  d_config_particles <- new_dict [] ;;
  setitem d_config_particles "r_min" (VInt 2) ;;;
  setitem d_config_particles "r_max" (VInt 10) ;;;
  r_max <- (v <- getitem d_config_particles "r_max" ;; as_int v) ;;
  r_min <- (v <- getitem d_config_particles "r_min" ;; as_int v) ;;
  setitem d_config_particles "n_r" (VInt (2 * 16 * (r_max - r_min))) ;;;
  setitem d_config_particles "n_angles" (VInt 5) ;;;
  setitem d_config_particles "n_split" (VInt (Z.of_nat (n_split sp))) ;;;
  ret d_config_particles.

(** Lines 47-55: the Mad configuration. *)
Definition mad_section : G value :=
  lhcb1 <- new_dict [] ;;
  lhcb2 <- new_dict [] ;;
  beam_config <- new_dict (dict_of [("lhcb1", lhcb1); ("lhcb2", lhcb2)]) ;;
  d_config_mad <- new_dict (dict_of [("beam_config", beam_config)]) ;;
  setitem d_config_mad "optics_file"
    (VStr "acc-models-lhc/flatcc/opt_flathv_75_180_1500_thin.madx") ;;;
  let beam_energy_tot := VInt 7000 in
  b <- getitem d_config_mad "beam_config" ;;
  b1 <- getitem b "lhcb1" ;;
  setitem b1 "beam_energy_tot" beam_energy_tot ;;;
  b <- getitem d_config_mad "beam_config" ;;
  b2 <- getitem b "lhcb2" ;;
  setitem b2 "beam_energy_tot" beam_energy_tot ;;;
  ret d_config_mad.

(** Lines 60-74: tunes and chromaticities, the same for both beams. *)
Definition tune_and_chroma_section : G value :=
  qx <- new_dict [] ;;
  qy <- new_dict [] ;;
  dqx <- new_dict [] ;;
  dqy <- new_dict [] ;;
  d_config_tune_and_chroma <-
    new_dict (dict_of [("qx", qx); ("qy", qy); ("dqx", dqx); ("dqy", dqy)]) ;;
  for_each ["lhcb1"; "lhcb2"] (fun beam =>
    d <- getitem d_config_tune_and_chroma "qx" ;;
    setitem d beam (VFloat 62.31) ;;;
    d <- getitem d_config_tune_and_chroma "qy" ;;
    setitem d beam (VFloat 60.32) ;;;
    d <- getitem d_config_tune_and_chroma "dqx" ;;
    setitem d beam (VFloat 5.0) ;;;
    d <- getitem d_config_tune_and_chroma "dqy" ;;
    setitem d beam (VFloat 5.0)) ;;;
  setitem d_config_tune_and_chroma "delta_cmr" (VFloat 0.001) ;;;
  setitem d_config_tune_and_chroma "delta_cmi" (VFloat 0.0) ;;;
  ret d_config_tune_and_chroma.

(** Lines 79-97: the knobs. *)
Definition knobs_section : G value :=
  d_config_knobs <- new_dict [] ;;
  setitem d_config_knobs "on_x1" (VInt 250) ;;;
  setitem d_config_knobs "on_sep1" (VInt 0) ;;;
  setitem d_config_knobs "on_x2" (VInt (-170)) ;;;
  setitem d_config_knobs "on_sep2" (VFloat 0.138) ;;;
  setitem d_config_knobs "on_x5" (VInt 250) ;;;
  setitem d_config_knobs "on_sep5" (VInt 0) ;;;
  setitem d_config_knobs "on_x8h" (VFloat 0.0) ;;;
  setitem d_config_knobs "on_x8v" (VInt 170) ;;;
  setitem d_config_knobs "on_crab1" (VInt (-190)) ;;;
  setitem d_config_knobs "on_crab5" (VInt (-190)) ;;;
  setitem d_config_knobs "i_oct_b1" (VFloat 60.0) ;;;
  setitem d_config_knobs "i_oct_b2" (VFloat 60.0) ;;;
  ret d_config_knobs.

(** Lines 102-125: leveling.  When the user chose to skip the leveling of
    the base collider, the script asks for a confirmation. *)
Definition leveling_section : G value :=
  ip2 <- new_dict [] ;;
  ip8 <- new_dict [] ;;
  d_config_leveling <- new_dict (dict_of [("ip2", ip2); ("ip8", ip8)]) ;;
  (if skip_leveling_base_collider sp then
     answer <- input ;;
     if str_eq answer "y" then ret tt
     else raise (ValueError "You did not confirm that you want to skip the leveling in the base collider. Aborting.")
   else ret tt) ;;;
  d <- getitem d_config_leveling "ip2" ;;
  setitem d "separation_in_sigmas" (VInt 5) ;;;
  d <- getitem d_config_leveling "ip8" ;;
  setitem d "luminosity" (VFloat 2.0e33) ;;;
  ret d_config_leveling.

(** Lines 167-179: the prompt for the bunch of beam 1 is repeated until
    the answer is [y] or [n].  Every round reads at least one line, so
    [fuel] rounds are enough when [fuel] exceeds the number of lines left
    on the standard input. *)
Fixpoint ask_bunch_b1 (fuel : nat) (mask : value) (worst_bunch_b1 : Z) : G unit :=
  match fuel with
  | O => raise EOFError
  | S fuel' =>
      cur <- getitem mask "i_bunch_b1" ;;
      match cur with
      | VNone =>
          bool_inp <- input ;;
          (if str_eq bool_inp "y" then
             setitem mask "i_bunch_b1" (VInt worst_bunch_b1)
           else if str_eq bool_inp "n" then
             line <- input ;;
             match py_int e line with
             | Some z => setitem mask "i_bunch_b1" (VInt z)
             | None => raise (ValueError "invalid literal for int()")
             end
           else ret tt) ;;;
          ask_bunch_b1 fuel' mask worst_bunch_b1
      | _ => ret tt
      end
  end.

Definition filling_scheme : string :=
  "master_jobs/filling_scheme/8b4e_1972b_1960_1178_1886_224bpi_12inj_800ns_bs200ns.json".

(** Lines 131-188: beam-beam settings and the choice of the bunches. *)
Definition beambeam_section : G value :=
  mask0 <- new_dict [] ;;
  d_config_beambeam <- new_dict (dict_of [("mask_with_filling_pattern", mask0)]) ;;
  setitem d_config_beambeam "num_particles_per_bunch" (VFloat 1.4e11) ;;;
  setitem d_config_beambeam "nemitt_x" (VFloat 2.5e-6) ;;;
  setitem d_config_beambeam "nemitt_y" (VFloat 2.5e-6) ;;;
  filling_scheme_path <- abspath filling_scheme ;;
  (if endswith filling_scheme_path ".csv" then raise NotImplementedError else ret tt) ;;;
  mask <- getitem d_config_beambeam "mask_with_filling_pattern" ;;
  setitem mask "pattern_fname" (VStr filling_scheme_path) ;;;
  mask <- getitem d_config_beambeam "mask_with_filling_pattern" ;;
  setitem mask "i_bunch_b1" VNone ;;;
  mask <- getitem d_config_beambeam "mask_with_filling_pattern" ;;
  setitem mask "i_bunch_b2" VNone ;;;
  mask <- getitem d_config_beambeam "mask_with_filling_pattern" ;;
  b1 <- getitem mask "i_bunch_b1" ;;
  match b1 with
  | VNone =>
      let worst_bunch_b1 := get_worst_bunch e filling_scheme_path 26 "beam_1" in
      s <- get_state ;;
      ask_bunch_b1 (S (length (st_stdin s))) mask worst_bunch_b1
  | _ => ret tt
  end ;;;
  mask <- getitem d_config_beambeam "mask_with_filling_pattern" ;;
  b2 <- getitem mask "i_bunch_b2" ;;
  match b2 with
  | VNone =>
      let worst_bunch_b2 := get_worst_bunch e filling_scheme_path 26 "beam_2" in
      mask <- getitem d_config_beambeam "mask_with_filling_pattern" ;;
      setitem mask "i_bunch_b2" (VInt worst_bunch_b2)
  | _ => ret tt
  end ;;;
  ret d_config_beambeam.

(** Lines 221-244: the first generation.  The dictionaries built above are
    stored in the tree as they are, not copied. *)
Definition base_tree (d_config_particles d_config_mad d_config_tune_and_chroma
                      d_config_knobs d_config_leveling d_config_beambeam : value) : G value :=
  cp0 <- new_dict [] ;;
  cc0 <- new_dict [] ;;
  ch0 <- new_dict [] ;;
  base <- new_dict (dict_of [("config_particles", cp0); ("config_collider", cc0);
                             ("children", ch0)]) ;;
  children <- new_dict (dict_of [("base_collider", base)]) ;;
  b <- getitem children "base_collider" ;;
  setitem b "config_particles" d_config_particles ;;;
  b <- getitem children "base_collider" ;;
  setitem b "config_collider" d_config_mad ;;;
  b <- getitem children "base_collider" ;;
  c <- getitem b "config_collider" ;;
  setitem c "config_knobs_and_tuning" d_config_tune_and_chroma ;;;
  b <- getitem children "base_collider" ;;
  c <- getitem b "config_collider" ;;
  k <- getitem c "config_knobs_and_tuning" ;;
  setitem k "knob_settings" d_config_knobs ;;;
  b <- getitem children "base_collider" ;;
  c <- getitem b "config_collider" ;;
  setitem c "skip_leveling_base_collider" (VBool (skip_leveling_base_collider sp)) ;;;
  b <- getitem children "base_collider" ;;
  c <- getitem b "config_collider" ;;
  setitem c "config_lumi_leveling" d_config_leveling ;;;
  b <- getitem children "base_collider" ;;
  c <- getitem b "config_collider" ;;
  setitem c "config_beambeam" d_config_beambeam ;;;
  ret children.

(** [itertools.product(a, b, c)]: the last axis varies fastest. *)
Definition product3 {A B C} (la : list A) (lb : list B) (lc : list C) : list (A * B * C) :=
  flat_map (fun a => flat_map (fun b => map (fun c => (a, b, c)) lc) lb) la.

(** [enumerate(l)] *)
Definition enumerate {A} (l : list A) : list (nat * A) :=
  combine (seq 0 (length l)) l.

(** Line 263: [qy < (qx - 2 + 0.0039)], in binary64. *)
Definition below_upper_diagonal (qx qy : float) : bool :=
  PrimFloat.ltb qy (PrimFloat.add (PrimFloat.sub qx 2%float) 0.0039%float).

(** The key of a leaf, [f"xtrack_{idx_job:04}"]. *)
Definition leaf_key (idx_job : nat) : string := "xtrack_" +:+ format_0w 4 idx_job.

Definition particle_file_of (track : nat) : string :=
  "../particles/" +:+ format_0w 2 track +:+ ".parquet".

(** Lines 260-272: one round of the loop. *)
Definition scan_body (children : value) (item : nat * (nat * float * float)) : G unit :=
  let '(idx_job, (track, qx, qy)) := item in
  if only_keep_upper_triangle sp && below_upper_diagonal qx qy then ret tt
  else
    group_2 <- new_dict (dict_of [("qx", VFloat qx); ("qy", VFloat qy)]) ;;
    parameters_scanned <- new_dict (dict_of [("group_2", group_2)]) ;;
    leaf <- new_dict (dict_of [("parameters_scanned", parameters_scanned);
                               ("particle_file", VStr (particle_file_of track));
                               ("collider_file", VStr "../collider/collider.json");
                               ("n_turns", VInt (n_turns sp));
                               ("delta_max", VFloat (delta_max sp));
                               ("log_file", VStr "tree_maker.log")]) ;;
    b <- getitem children "base_collider" ;;
    kids <- getitem b "children" ;;
    setitem kids (leaf_key idx_job) leaf.

(** Lines 259-272: the second generation. *)
Definition scan_loop (d_config_particles children : value) : G unit :=
  n <- (v <- getitem d_config_particles "n_split" ;; as_int v) ;;
  let track_array := seq 0 (Z.to_nat n) in
  for_each (enumerate (product3 track_array (array_qx sp) (array_qy sp)))
           (scan_body children).

(** Lines 21-244: the settings of the base node and the first generation. *)
Definition first_generation : G (value * value) :=
  d_config_particles <- particles_section ;;
  d_config_mad <- mad_section ;;
  d_config_tune_and_chroma <- tune_and_chroma_section ;;
  d_config_knobs <- knobs_section ;;
  d_config_leveling <- leveling_section ;;
  d_config_beambeam <- beambeam_section ;;
  children <- base_tree d_config_particles d_config_mad d_config_tune_and_chroma
                        d_config_knobs d_config_leveling d_config_beambeam ;;
  ret (d_config_particles, children).

(** Lines 21-272: the tree of dictionaries. *)
Definition build_children : G value :=
  pc <- first_generation ;;
  scan_loop (fst pc) (snd pc) ;;;
  ret (snd pc).

(** [yaml.safe_load(open("config.yaml"))] *)
Definition load_config : G value :=
  match config_yaml e with
  | None => raise (OSError "FileNotFoundError")
  | Some y =>
      fun s => let '(v, h) := load y (st_heap s) in Ok v (with_heap h s)
  end.

(** Lines 278-285: the tree goes under the root of the tree_maker
    configuration. *)
Definition config_section (children : value) : G value :=
  config <- load_config ;;
  r <- getitem config "root" ;;
  setitem r "children" children ;;;
  cwd <- getcwd ;;
  r <- getitem config "root" ;;
  setitem r "setup_env_script" (VStr (cwd +:+ "/../miniconda/bin/activate")) ;;;
  ret config.

Definition study_name : string := "example_HL_tunescan".

(** A call into tree_maker: it is recorded, then it acts on the
    filesystem or raises. *)
Definition tree_maker_call (c : call) (act : heap -> value -> path -> fs -> option fs)
    (config : value) : G unit :=
  log_call c ;;;
  s <- get_state ;;
  match act (st_heap s) config (st_cwd s) (st_fs s) with
  | Some f => put_fs f
  | None => raise (ExternalError "tree_maker")
  end.

(** Lines 291-314: the folder of the study, the tree object, the folders
    of the nodes, and the renaming of the two log files. *)
Definition materialize (config : value) : G unit :=
  ex <- path_exists ("scans/" +:+ study_name) ;;
  (if negb ex then makedirs ("scans/" +:+ study_name) else ret tt) ;;;
  chdir ("scans/" +:+ study_name) ;;;
  tree_maker_call (Initialize config) (tm_initialize e) config ;;;
  s <- get_state ;;
  tree_maker_call (MakeFolders (st_cwd s)) (tm_make_folders e) config ;;;
  move "tree_maker.json" ("tree_maker_" +:+ study_name +:+ ".json") ;;;
  move "tree_maker.log" ("tree_maker_" +:+ study_name +:+ ".log").

(** The whole script. *)
Definition make_folders : G unit :=
  children <- build_children ;;
  config <- config_section children ;;
  materialize config.

End Script.

End Gen.

(** ** The generator's result, as functions of its inputs *)

Module GenModel.
Import Py Script Gen.

(** *** The questions asked to the user *)

(** The confirmation asked when the leveling of the base collider is
    skipped: the exception raised, if any, and the lines left. *)
Definition confirm_skip (sp : scan_spec) (stdin : list string) : option exn * list string :=
  if skip_leveling_base_collider sp then
    match stdin with
    | [] => (Some EOFError, [])
    | a :: rest =>
        if str_eq a "y" then (None, rest)
        else (Some (ValueError "You did not confirm that you want to skip the leveling in the base collider. Aborting."), rest)
    end
  else (None, stdin).

(** The choice of the bunch of beam 1: the bunch chosen or the exception
    raised, and the lines left. *)
Fixpoint bunch_dialog (e : env) (worst : Z) (stdin : list string) : (exn + Z) * list string :=
  match stdin with
  | [] => (inl EOFError, [])
  | a :: rest =>
      if str_eq a "y" then (inr worst, rest)
      else if str_eq a "n" then
        match rest with
        | [] => (inl EOFError, [])
        | b :: rest' =>
            match py_int e b with
            | Some z => (inr z, rest')
            | None => (inl (ValueError "invalid literal for int()"), rest')
            end
        end
      else bunch_dialog e worst rest
  end.

(** [filling_scheme_path] *)
Definition pattern_fname (cwd : path) : string := path_str (resolve cwd filling_scheme).

(** Both questions, in the order of the script. *)
Definition dialog (e : env) (sp : scan_spec) (cwd : path) (stdin : list string)
  : (exn + Z) * list string :=
  match confirm_skip sp stdin with
  | (Some ex, rest) => (inl ex, rest)
  | (None, rest) => bunch_dialog e (get_worst_bunch e (pattern_fname cwd) 26 "beam_1") rest
  end.

(** The objects allocated by lines 21-244, in the order of their
    allocation, when the user chose bunch [b1] for beam 1. *)
Definition first_heap (e : env) (sp : scan_spec) (cwd : path) (b1 : Z) : heap :=
  [ (* 0: d_config_particles *)
    [("r_min", VInt 2); ("r_max", VInt 10); ("n_r", VInt 256); ("n_angles", VInt 5);
     ("n_split", VInt (Z.of_nat (n_split sp)))];
    (* 1, 2: the two beams of beam_config *)
    [("beam_energy_tot", VInt 7000)];
    [("beam_energy_tot", VInt 7000)];
    (* 3: beam_config *)
    [("lhcb1", VRef 1); ("lhcb2", VRef 2)];
    (* 4: d_config_mad, which becomes config_collider *)
    [("beam_config", VRef 3);
     ("optics_file", VStr "acc-models-lhc/flatcc/opt_flathv_75_180_1500_thin.madx");
     ("config_knobs_and_tuning", VRef 9);
     ("skip_leveling_base_collider", VBool (skip_leveling_base_collider sp));
     ("config_lumi_leveling", VRef 13);
     ("config_beambeam", VRef 15)];
    (* 5-8: qx, qy, dqx, dqy *)
    [("lhcb1", VFloat 62.31); ("lhcb2", VFloat 62.31)];
    [("lhcb1", VFloat 60.32); ("lhcb2", VFloat 60.32)];
    [("lhcb1", VFloat 5.0); ("lhcb2", VFloat 5.0)];
    [("lhcb1", VFloat 5.0); ("lhcb2", VFloat 5.0)];
    (* 9: d_config_tune_and_chroma *)
    [("qx", VRef 5); ("qy", VRef 6); ("dqx", VRef 7); ("dqy", VRef 8);
     ("delta_cmr", VFloat 0.001); ("delta_cmi", VFloat 0.0); ("knob_settings", VRef 10)];
    (* 10: d_config_knobs *)
    [("on_x1", VInt 250); ("on_sep1", VInt 0); ("on_x2", VInt (-170));
     ("on_sep2", VFloat 0.138); ("on_x5", VInt 250); ("on_sep5", VInt 0);
     ("on_x8h", VFloat 0.0); ("on_x8v", VInt 170); ("on_crab1", VInt (-190));
     ("on_crab5", VInt (-190)); ("i_oct_b1", VFloat 60.0); ("i_oct_b2", VFloat 60.0)];
    (* 11, 12: ip2, ip8 *)
    [("separation_in_sigmas", VInt 5)];
    [("luminosity", VFloat 2.0e33)];
    (* 13: d_config_leveling *)
    [("ip2", VRef 11); ("ip8", VRef 12)];
    (* 14: mask_with_filling_pattern *)
    [("pattern_fname", VStr (pattern_fname cwd)); ("i_bunch_b1", VInt b1);
     ("i_bunch_b2", VInt (get_worst_bunch e (pattern_fname cwd) 26 "beam_2"))];
    (* 15: d_config_beambeam *)
    [("mask_with_filling_pattern", VRef 14); ("num_particles_per_bunch", VFloat 1.4e11);
     ("nemitt_x", VFloat 2.5e-6); ("nemitt_y", VFloat 2.5e-6)];
    (* 16, 17: the two empty dictionaries replaced on lines 224 and 227 *)
    []; [];
    (* 18: the children of the base node *)
    [];
    (* 19: the base node *)
    [("config_particles", VRef 0); ("config_collider", VRef 4); ("children", VRef 18)];
    (* 20: children *)
    [("base_collider", VRef 19)] ].

(** A point of the grid with its number: [(idx_job, (track, qx, qy))]. *)
Definition item : Type := nat * (nat * float * float).

(** The points the loop of line 260 goes through, in its order. *)
Definition grid (sp : scan_spec) : list item :=
  enumerate (product3 (seq 0 (n_split sp)) (array_qx sp) (array_qy sp)).

(** Lines 261-264: the points that are not skipped. *)
Definition keep (sp : scan_spec) (it : item) : bool :=
  negb (only_keep_upper_triangle sp
        && below_upper_diagonal (snd (fst (snd it))) (snd (snd it))).

Definition kept (sp : scan_spec) : list item := List.filter (keep sp) (grid sp).

(** The dictionary of the leaf of a point (lines 265-272), its
    [parameters_scanned] being at [l]. *)
Definition leaf_dict (sp : scan_spec) (l : nat) (it : item) : dict :=
  [("parameters_scanned", VRef l);
   ("particle_file", VStr (particle_file_of (fst (fst (snd it)))));
   ("collider_file", VStr "../collider/collider.json");
   ("n_turns", VInt (n_turns sp));
   ("delta_max", VFloat (delta_max sp));
   ("log_file", VStr "tree_maker.log")].

(** The three dictionaries of the leaf of a point, the first of them
    allocated at [l0]: [group_2], [parameters_scanned], and the leaf. *)
Definition leaf_objects (sp : scan_spec) (l0 : nat) (it : item) : heap :=
  [ [("qx", VFloat (snd (fst (snd it)))); ("qy", VFloat (snd (snd it)))];
    [("group_2", VRef l0)];
    leaf_dict sp (l0 + 1) it ].

(** The objects allocated by the loop for the points [its], from [l0] on. *)
Fixpoint scan_objects (sp : scan_spec) (l0 : nat) (its : list item) : heap :=
  match its with
  | [] => []
  | it :: rest => leaf_objects sp l0 it ++ scan_objects sp (l0 + 3) rest
  end.

(** The entries the loop adds to the children of the base node. *)
Fixpoint scan_entries (l0 : nat) (its : list item) : dict :=
  match its with
  | [] => []
  | it :: rest => (leaf_key (fst it), VRef (l0 + 2)) :: scan_entries (l0 + 3) rest
  end.

(** The heap when the tree of dictionaries is built (line 272). *)
Definition tree_heap (e : env) (sp : scan_spec) (cwd : path) (b1 : Z) : heap :=
  <[18 := scan_entries 21 (kept sp)]> (first_heap e sp cwd b1)
  ++ scan_objects sp 21 (kept sp).

(** What a leaf holds, read from the heap: its key among the children of
    the base node, its scanned tunes, and its references to the files of
    the base node. *)
Record leaf_view : Type := {
  lv_key : string;
  lv_keys : list string;
  lv_qx : float;
  lv_qy : float;
  lv_particle_file : string;
  lv_collider_file : string
}.

Definition read_leaf (h : heap) (key : string) (leaf : value) : option leaf_view :=
  match leaf with
  | VRef l =>
      match h !! l,
            heap_path h leaf ["parameters_scanned"; "group_2"; "qx"],
            heap_path h leaf ["parameters_scanned"; "group_2"; "qy"],
            heap_path h leaf ["particle_file"],
            heap_path h leaf ["collider_file"] with
      | Some d, Some (VFloat qx), Some (VFloat qy), Some (VStr pf), Some (VStr cf) =>
          Some {| lv_key := key; lv_keys := dict_keys d; lv_qx := qx; lv_qy := qy;
                  lv_particle_file := pf; lv_collider_file := cf |}
      | _, _, _, _, _ => None
      end
  | _ => None
  end.

Fixpoint read_entries (h : heap) (d : dict) : option (list leaf_view) :=
  match d with
  | [] => Some []
  | (key, v) :: d' =>
      match read_leaf h key v, read_entries h d' with
      | Some x, Some xs => Some (x :: xs)
      | _, _ => None
      end
  end.

(** The leaves under the base node of [children], in the order of the
    dictionary. *)
Definition read_leaves (h : heap) (children : value) : option (list leaf_view) :=
  match heap_path h children ["base_collider"; "children"] with
  | Some (VRef k) =>
      match h !! k with
      | Some kids => read_entries h kids
      | None => None
      end
  | _ => None
  end.

(** The leaf of a point of the grid. *)
Definition leaf_of (it : item) : leaf_view :=
  {| lv_key := leaf_key (fst it);
     lv_keys := ["parameters_scanned"; "particle_file"; "collider_file"; "n_turns";
                 "delta_max"; "log_file"];
     lv_qx := snd (fst (snd it));
     lv_qy := snd (snd it);
     lv_particle_file := particle_file_of (fst (fst (snd it)));
     lv_collider_file := "../collider/collider.json" |}.

(** The leaves the script is to build for a scan: one per kept point, in
    the order of the grid. *)
Definition leaves (sp : scan_spec) : list leaf_view := map leaf_of (kept sp).

(** Modelled from the spec: the configuration of a node is the deep merge
    of the configuration of its ancestors with its own overrides.  The
    merge is done by tree_maker and by the job of the leaves, which are
    not among the sources of the repository at hand.  [resolved] reads the
    merged configuration of [node], child of [parent], at a path: the
    value of the node when it has one there, the value of its parent
    otherwise. *)
Definition resolved (h : heap) (parent node : value) (p : list string) : option value :=
  match heap_path h node p with
  | Some v => Some v
  | None => heap_path h parent p
  end.

(** The point of the grid with number [i], from the scan alone: the
    split is the quotient by the size of the tune grid, the tunes are
    indexed by the digits of [i] in the mixed base of the axes. *)
Definition point_of (sp : scan_spec) (i : nat) : option (nat * float * float) :=
  let nx := length (array_qx sp) in
  let ny := length (array_qy sp) in
  if (i <? n_split sp * (nx * ny))%nat then
    match nth_error (array_qx sp) ((i / ny) mod nx), nth_error (array_qy sp) (i mod ny) with
    | Some qx, Some qy => Some (i / (nx * ny), qx, qy)
    | _, _ => None
    end
  else None.

(** Reading a key [xtrack_NNNN] back. *)
Definition parse_key (key : string) : option nat :=
  match strip_prefix "xtrack_" key with
  | Some digits => parse_nat digits
  | None => None
  end.

End GenModel.

(** ** [1_build_distr_and_collider.py]: the job of the base node *)

Module Build.
Import Py Script.
Local Open Scope script_scope.

(** What the job does to the outside, in the order it does it.  The
    columns of amplitudes and angles of a chunk of particles are numpy's
    and are not modelled: a chunk is known by the numbers of its
    particles. *)
Inductive event : Type :=
| ReadConfig
| Tag (log_file : yaml) (tag : string)
| Makedirs (dir : string)
| WriteParquet (file : string) (particle_ids : list nat)
| WriteJson (file : string)
| Remove (file : string)
| Rmtree (dir : string)
| Unlink (file : string)
| Call (function : string) (args : list yaml)
| Print (text : string).

Definition trace := list event.

Definition B (A : Type) : Type := M trace A.

Section Job.

(** The world: the [n]-th effect of the run fails when [fails n]. *)
Variable fails : nat -> bool.

(** An effect: it raises, or it happens and is recorded. *)
Definition effect (ev : event) : B unit :=
  fun tr =>
    if fails (length tr) then Raise (ExternalError "effect") tr
    else Ok tt (tr ++ [ev]).

(** [y[k]] *)
Definition yget (y : yaml) (k : string) : B yaml :=
  match y with
  | YMap m =>
      match yaml_get k m with
      | Some v => ret v
      | None => raise (KeyError k)
      end
  | _ => raise TypeError
  end.

(** [k in y] for a mapping [y] *)
Definition ymem (k : string) (y : yaml) : bool :=
  match y with
  | YMap m => match yaml_get k m with Some _ => true | None => false end
  | _ => false
  end.

(** An integer argument of numpy.  The generator writes integers; what
    numpy does with a number of another type is outside the model, where
    it is a [TypeError]. *)
Definition yint (y : yaml) : B Z :=
  match y with
  | YInt z => ret z
  | YBool b => ret (if b then 1%Z else 0%Z)
  | _ => raise TypeError
  end.

(** A number. *)
Definition ynumber (y : yaml) : B unit :=
  match y with
  | YInt _ | YFloat _ | YBool _ => ret tt
  | _ => raise TypeError
  end.

(** [len(np.linspace(a, b, num, ...))]: [num] must not be negative. *)
Definition linspace_len (num : Z) : B nat :=
  if (num <? 0)%Z then raise (ValueError "Number of samples must be non-negative")
  else ret (Z.to_nat num).

Fixpoint chunks_of (sizes : list nat) (l : list nat) : list (list nat) :=
  match sizes with
  | [] => []
  | n :: sizes' => firstn n l :: chunks_of sizes' (skipn n l)
  end.

(** [np.array_split(l, n)] for an integer [n]: [n] chunks, the first
    [len(l) % n] of them one longer than the others. *)
Definition array_split (l : list nat) (n : Z) : B (list (list nat)) :=
  if (n <=? 0)%Z then raise (ValueError "number sections must be larger than 0.")
  else
    let k := Z.to_nat n in
    let q := (length l / k)%nat in
    let r := (length l mod k)%nat in
    ret (chunks_of (repeat (q + 1)%nat r ++ repeat q (k - r)%nat) l).

Definition distributions_folder : string := "particles".

Definition parquet_file (idx_chunk : nat) : string :=
  distributions_folder +:+ "/" +:+ format_0w 2 idx_chunk +:+ ".parquet".

(** Lines 37-63: the particle distribution, split and written. *)
Definition build_distribution (config_particles : yaml) : B unit :=
  r_min <- yget config_particles "r_min" ;;
  r_max <- yget config_particles "r_max" ;;
  n_r <- yget config_particles "n_r" ;;
  n_r <- yint n_r ;;
  n_radial <- linspace_len n_r ;;
  ynumber r_min ;;; ynumber r_max ;;;
  n_angles <- yget config_particles "n_angles" ;;
  n_angles <- yint n_angles ;;
  n_theta_2 <- linspace_len (n_angles + 2) ;;
  let n_theta := (n_theta_2 - 2)%nat in
  let particle_list := seq 0 (n_radial * n_theta) in
  n_split <- yget config_particles "n_split" ;;
  n_split <- yint n_split ;;
  particle_list <- array_split particle_list n_split ;;
  effect (Makedirs distributions_folder) ;;;
  for_each (combine (seq 0 (length particle_list)) particle_list)
    (fun '(idx_chunk, my_list) => effect (WriteParquet (parquet_file idx_chunk) my_list)).

(** Lines 68-72: the files of the orbit correction. *)
Definition write_correction : B unit :=
  effect (Call "generate_orbit_correction_setup" []) ;;;
  effect (Makedirs "correction") ;;;
  for_each ["lhcb1"; "lhcb2"]
    (fun nn => effect (WriteJson ("correction/corr_co_" +:+ nn +:+ ".json"))).

(** Lines 77-113: the collider from the mad model. *)
Definition build_collider (config_collider : yaml) : B unit :=
  config_mad_model <- yget config_collider "config_mad" ;;
  links <- yget config_mad_model "links" ;;
  effect (Call "xm.make_mad_environment" [links]) ;;;
  effect (Call "Madx" [YStr "mad_collider.log"]) ;;;
  effect (Call "Madx" [YStr "mad_b4.log"]) ;;;
  effect (Call "ost.build_sequence" [YInt 1]) ;;;
  effect (Call "ost.build_sequence" [YInt 4]) ;;;
  optics_file <- yget config_mad_model "optics_file" ;;
  effect (Call "ost.apply_optics" [optics_file]) ;;;
  effect (Call "mad_b1b2.sequence.lhcb1" []) ;;;
  effect (Call "mad_b1b2.sequence.lhcb2" []) ;;;
  effect (Call "mad_b4.sequence.lhcb2" []) ;;;
  beam_config <- yget config_mad_model "beam_config" ;;
  enable_imperfections <- yget config_mad_model "enable_imperfections" ;;
  enable_knob_synthesis <- yget config_mad_model "enable_knob_synthesis" ;;
  rename_coupling_knobs <- yget config_mad_model "rename_coupling_knobs" ;;
  pars_for_imperfections <- yget config_mad_model "pars_for_imperfections" ;;
  ver_lhc_run <- yget config_mad_model "ver_lhc_run" ;;
  ver_hllhc_optics <- yget config_mad_model "ver_hllhc_optics" ;;
  effect (Call "xlhc.build_xsuite_collider"
            [beam_config; enable_imperfections; enable_knob_synthesis;
             rename_coupling_knobs; pars_for_imperfections; ver_lhc_run;
             ver_hllhc_optics]) ;;;
  effect (Remove "mad_collider.log") ;;;
  effect (Remove "mad_b4.log") ;;;
  effect (Rmtree "temp") ;;;
  effect (Unlink "errors") ;;;
  effect (Unlink "acc-models-lhc").

(** Lines 118-131: the beam-beam lenses. *)
Definition install_beambeam (config_bb : yaml) : B unit :=
  num_long_range_encounters_per_side <- yget config_bb "num_long_range_encounters_per_side" ;;
  num_slices_head_on <- yget config_bb "num_slices_head_on" ;;
  bunch_spacing_buckets <- yget config_bb "bunch_spacing_buckets" ;;
  sigma_z <- yget config_bb "sigma_z" ;;
  effect (Call "collider.install_beambeam_interactions"
            [num_long_range_encounters_per_side; num_slices_head_on;
             bunch_spacing_buckets; sigma_z]).

(** The [targets] of a tuning: the four tunes and chromaticities of a
    line. *)
Definition tuning_targets (conf_knobs_and_tuning : yaml) (line_name : string)
  : B (list yaml) :=
  d <- yget conf_knobs_and_tuning "qx" ;; qx <- yget d line_name ;;
  d <- yget conf_knobs_and_tuning "qy" ;; qy <- yget d line_name ;;
  d <- yget conf_knobs_and_tuning "dqx" ;; dqx <- yget d line_name ;;
  d <- yget conf_knobs_and_tuning "dqy" ;; dqy <- yget d line_name ;;
  ret [qx; qy; dqx; dqy].

(** [for kk, vv in d.items()] *)
Definition yitems (y : yaml) : B (list (string * yaml)) :=
  match y with
  | YMap m => ret (yaml_items m)
  | _ => raise AttributeError
  end.

(** Lines 137-168: the knobs and the first tuning. *)
Definition knobs_and_tuning (conf_knobs_and_tuning : yaml) : B unit :=
  knob_settings <- yget conf_knobs_and_tuning "knob_settings" ;;
  items <- yitems knob_settings ;;
  for_each items (fun '(kk, vv) => effect (Call "collider.vars.__setitem__" [YStr kk; vv])) ;;;
  for_each ["lhcb1"; "lhcb2"] (fun line_name =>
    d <- yget conf_knobs_and_tuning "knob_names" ;;
    knob_names <- yget d line_name ;;
    targets <- tuning_targets conf_knobs_and_tuning line_name ;;
    effect (Call "collider.__getitem__" [YStr line_name]) ;;;
    effect (Call "collider.__getitem__" [YStr (line_name +:+ "_co_ref")]) ;;;
    d <- yget conf_knobs_and_tuning "closed_orbit_correction" ;;
    co_corr_config <- yget d line_name ;;
    effect (Call "xm.machine_tuning"
              ([YStr line_name; knob_names] ++ targets ++ [co_corr_config]))).

(** Line 173: [A and not B] reads [B] only when [A] holds. *)
Definition leveling_condition (config_collider : yaml) : B bool :=
  if ymem "config_lumi_leveling" config_collider then
    skip <- yget config_collider "skip_leveling" ;;
    ret (negb (truthy skip))
  else ret false.

(** Lines 173-203: the luminosity leveling and the second tuning. *)
Definition leveling (config_collider config_bb conf_knobs_and_tuning : yaml) : B unit :=
  do_leveling <- leveling_condition config_collider ;;
  if do_leveling then
    config_lumi_leveling <- yget config_collider "config_lumi_leveling" ;;
    effect (Call "xlhc.luminosity_leveling" [config_lumi_leveling; config_bb]) ;;;
    for_each ["lhcb1"; "lhcb2"] (fun line_name =>
      d <- yget conf_knobs_and_tuning "knob_names" ;;
      knob_names <- yget d line_name ;;
      targets <- tuning_targets conf_knobs_and_tuning line_name ;;
      effect (Call "collider.__getitem__" [YStr line_name]) ;;;
      effect (Call "xm.machine_tuning" ([YStr line_name; knob_names] ++ targets))) ;;;
    effect (Print "No leveling is done as skip_leveling is set to True.")
  else
    effect (Print "No leveling is done as no configuration has been provided, or skip_leveling is set to True.").

(** Lines 26-215: what the job does between its two tags. *)
Definition work (config_particles config_collider : yaml) : B unit :=
  build_distribution config_particles ;;;
  write_correction ;;;
  build_collider config_collider ;;;
  config_bb <- yget config_collider "config_beambeam" ;;
  install_beambeam config_bb ;;;
  effect (Call "collider.build_trackers" []) ;;;
  conf_knobs_and_tuning <- yget config_collider "config_knobs_and_tuning" ;;
  knobs_and_tuning conf_knobs_and_tuning ;;;
  leveling config_collider config_bb conf_knobs_and_tuning ;;;
  effect (Makedirs "collider") ;;;
  effect (WriteJson "collider/collider.json").

(** The whole script, on the content [configuration] of its
    [config.yaml]. *)
Definition build_job (configuration : yaml) : B unit :=
  effect ReadConfig ;;;
  config_particles <- yget configuration "config_particles" ;;
  config_collider <- yget configuration "config_collider" ;;
  (if ymem "log_file" configuration then
     log_file <- yget configuration "log_file" ;;
     effect (Tag log_file "started")
   else ret tt) ;;;
  work config_particles config_collider ;;;
  log_file <- yget configuration "log_file" ;;
  effect (Tag log_file "completed").

End Job.

(** The tags that end the life of a job. *)
Definition terminal_tag (ev : event) : bool :=
  match ev with
  | Tag _ tag => String.eqb tag "completed" || String.eqb tag "failed"
  | _ => false
  end.

(** The parquet files written, in the order of their writing. *)
Definition parquet_files (tr : trace) : list string :=
  flat_map (fun ev => match ev with WriteParquet file _ => [file] | _ => [] end) tr.

Definition json_files (tr : trace) : list string :=
  flat_map (fun ev => match ev with WriteJson file => [file] | _ => [] end) tr.

(** The chunks of particles written, each with the numbers of its
    particles, in the order of their writing. *)
Definition parquet_chunks (tr : trace) : list (list nat) :=
  flat_map (fun ev => match ev with WriteParquet _ ids => [ids] | _ => [] end) tr.

(** The arguments of the calls made to [function], in their order. *)
Definition calls_to (function : string) (tr : trace) : list (list yaml) :=
  flat_map (fun ev => match ev with
                      | Call g args => if String.eqb g function then [args] else []
                      | _ => []
                      end) tr.

(** The lines given to [xm.machine_tuning], in the order of the calls. *)
Definition tuned_lines (tr : trace) : list yaml :=
  map (hd YNull) (calls_to "xm.machine_tuning" tr).

(** Whether the luminosity leveling was done. *)
Definition leveling_done (tr : trace) : bool :=
  existsb (fun ev => match ev with
                     | Call function _ => String.eqb function "xlhc.luminosity_leveling"
                     | _ => false
                     end) tr.

(** The configuration with [v] under
    [config_collider.skip_leveling_base_collider]. *)
Definition with_skip_flag (v : yaml) (configuration : yaml) : yaml :=
  match configuration with
  | YMap m =>
      match yaml_get "config_collider" m with
      | Some (YMap cc) =>
          YMap (yaml_set "config_collider"
                  (YMap (yaml_set "skip_leveling_base_collider" v cc)) m)
      | _ => configuration
      end
  | _ => configuration
  end.

End Build.

(** ** The runs of the job, as properties of its trace *)

Module BuildModel.
Import Py Script Build.

(** A computation that only adds events satisfying [P] to the trace,
    however it ends. *)
Definition emits (P : event -> Prop) {A} (m : B A) : Prop :=
  forall tr, exists suffix, final (m tr) = tr ++ suffix /\ Forall P suffix.

(** A computation that ends the job: when it returns, its last event is
    the tag [completed] and nothing before is a terminal tag; when it
    raises, it has recorded no terminal tag at all. *)
Definition ends_job (m : B unit) : Prop :=
  forall tr, Forall (fun ev => terminal_tag ev = false) tr ->
    match m tr with
    | Ok _ tr' =>
        exists pre log_file,
          tr' = pre ++ [Tag log_file "completed"] /\
          Forall (fun ev => terminal_tag ev = false) pre
    | Raise _ tr' => Forall (fun ev => terminal_tag ev = false) tr'
    end.

(** The events that write no parquet file. *)
Definition no_parquet (ev : event) : Prop :=
  match ev with WriteParquet _ _ => False | _ => True end.

End BuildModel.

(** ** The script as it stands, and a world to run it in *)

Module Sample.
Import Py Script Gen.

(** The values written in [001_make_folders.py]; the two arrays are the
    first six elements of the rounded ranges of lines 197-198. *)
Definition default_spec : scan_spec :=
  {| n_split := 5;
     skip_leveling_base_collider := false;
     array_qx := [62.305; 62.306; 62.307; 62.308; 62.309; 62.31]%float;
     array_qy := [60.305; 60.306; 60.307; 60.308; 60.309; 60.31]%float;
     only_keep_upper_triangle := true;
     n_turns := 500;
     delta_max := 27.0e-5%float |}.

(** The same scan with an empty array of horizontal tunes. *)
Definition empty_axis_spec : scan_spec :=
  {| n_split := 5;
     skip_leveling_base_collider := false;
     array_qx := [];
     array_qy := [60.305; 60.306; 60.307; 60.308; 60.309; 60.31]%float;
     only_keep_upper_triangle := true;
     n_turns := 500;
     delta_max := 27.0e-5%float |}.

(** A world: the worst bunch is 411, [int] reads plain decimal digits,
    [config.yaml] holds a root, and tree_maker writes its two log files
    in the folder of the study. *)
Definition sample_env : env :=
  {| get_worst_bunch := fun _ _ _ => 411%Z;
     py_int := fun s =>
       if String.eqb s "" then None
       else match parse_nat s with Some n => Some (Z.of_nat n) | None => None end;
     config_yaml :=
       Some (YMap [("root", YMap [("setup_env_script", YStr "none");
                                  ("children", YNull)])]);
     tm_initialize := fun _ _ _ f => Some f;
     tm_make_folders := fun _ _ cwd f =>
       Some (fs_add (cwd ++ ["tree_maker.json"]) File
               (fs_add (cwd ++ ["tree_maker.log"]) File f)) |}.

(** A [config.yaml] of the base node: the entries written by the generator
    for the script as it stands, with the entries the job reads besides. *)
Definition sample_config_particles : list (string * yaml) :=
  [("r_min", YInt 2); ("r_max", YInt 10); ("n_r", YInt 256); ("n_angles", YInt 5);
   ("n_split", YInt 5)].

Definition sample_entries : list (string * yaml) :=
  let both (v : yaml) := YMap [("lhcb1", v); ("lhcb2", v)] in
    [("config_particles", YMap sample_config_particles);
     ("config_collider",
      YMap
        [("config_mad",
          YMap [("links", YMap [("acc-models-lhc", YStr "../../../../modules/hllhc15")]);
                ("optics_file",
                 YStr "acc-models-lhc/flatcc/opt_flathv_75_180_1500_thin.madx");
                ("beam_config", both (YMap [("beam_energy_tot", YInt 7000)]));
                ("enable_imperfections", YBool false);
                ("enable_knob_synthesis", YBool true);
                ("rename_coupling_knobs", YBool true);
                ("pars_for_imperfections", YMap []);
                ("ver_lhc_run", YNull);
                ("ver_hllhc_optics", YFloat 1.5)]);
         ("config_knobs_and_tuning",
          YMap [("knob_settings",
                 YMap [("on_x1", YInt 250); ("on_sep1", YInt 0); ("i_oct_b1", YFloat 60.0)]);
                ("knob_names", both (YMap [("q_knob_1", YStr "kqtf"); ("q_knob_2", YStr "kqtd")]));
                ("qx", both (YFloat 62.31)); ("qy", both (YFloat 60.32));
                ("dqx", both (YFloat 5.0)); ("dqy", both (YFloat 5.0));
                ("closed_orbit_correction", both (YStr "correction/corr_co.json"))]);
         ("config_beambeam",
          YMap [("num_long_range_encounters_per_side", YInt 25);
                ("num_slices_head_on", YInt 11);
                ("bunch_spacing_buckets", YInt 10);
                ("sigma_z", YFloat 0.0761)]);
         ("config_lumi_leveling",
          YMap [("ip2", YMap [("separation_in_sigmas", YInt 5)]);
                ("ip8", YMap [("luminosity", YFloat 2.0e33)])]);
         ("skip_leveling", YBool false);
         ("skip_leveling_base_collider", YBool false)]);
     ("log_file", YStr "tree_maker.log")].

Definition sample_configuration : yaml := YMap sample_entries.

(** The same configuration asking for no split at all, and the same
    without the name of the log file. *)
Definition no_split_configuration : yaml :=
  YMap (yaml_set "config_particles"
          (YMap (yaml_set "n_split" (YInt 0) sample_config_particles)) sample_entries).

Definition no_log_entries : list (string * yaml) :=
  List.filter (fun kv => negb (String.eqb (fst kv) "log_file")) sample_entries.

(** A world in which nothing fails, and one in which the fourth effect of
    a run does. *)
Definition never_fails : nat -> bool := fun _ => false.
Definition fourth_fails : nat -> bool := fun n => Nat.eqb n 3.

Definition sample_cwd : path := ["home"; "user"; "master_study"].

(** The user accepts the worst bunch. *)
Definition sample_stdin : list string := ["y"].

(** A filesystem on which the study has been materialized before. *)
Definition materialized_fs : fs :=
  let target := sample_cwd ++ ["scans"; "example_HL_tunescan"] in
  [(sample_cwd ++ ["scans"], Dir);
   (target, Dir);
   (target ++ ["base_collider"], Dir);
   (target ++ ["base_collider"; "config.yaml"], File);
   (target ++ ["tree_maker_example_HL_tunescan.json"], File);
   (target ++ ["tree_maker_example_HL_tunescan.log"], File)].

End Sample.
(** ** What the generator computes *)

Module GenFacts.
Import Py Script Gen GenModel Sample.
Local Open Scope script_scope.

(** *** Running a script step by step *)

Lemma bind_Ok {S A B} (m : M S A) (k : A -> M S B) s a s' :
  m s = Ok a s' -> bind m k s = k a s'.
Proof. intros H. unfold bind. now rewrite H. Qed.

Lemma bind_Raise {S A B} (m : M S A) (k : A -> M S B) s ex s' :
  m s = Raise ex s' -> bind m k s = Raise ex s'.
Proof. intros H. unfold bind. now rewrite H. Qed.

(** The first statement of a script is evaluated on the current state;
    what depends on the user's settings or on the world stays folded. *)
Ltac step :=
  match goal with
  | |- bind ?m ?k ?s = _ =>
      let r := eval lazy -[Z.of_nat Z.to_nat path_str resolve endswith str_eq
                           filling_scheme pattern_fname study_name
                           ask_bunch_b1 get_worst_bunch py_int config_yaml
                           tm_initialize tm_make_folders
                           n_split skip_leveling_base_collider array_qx array_qy
                           only_keep_upper_triangle n_turns delta_max
                           format_0w leaf_key particle_file_of below_upper_diagonal
                           scan_loop scan_body product3 enumerate fs_lookup fs_add fs_remove mkdirs
                           load] in (m s) in
      change (bind m k s) with
        (match r with Ok a s' => k a s' | Raise ex s' => Raise ex s' end);
      cbv beta iota
  end.

(** *** Dictionaries *)

Lemma dict_get_set_eq k v d : dict_get k (dict_set k v d) = Some v.
Proof.
  induction d as [|[k' v'] d IH]; simpl.
  - now rewrite String.eqb_refl.
  - destruct (String.eqb k k') eqn:E; simpl; rewrite ?E, ?String.eqb_refl; auto.
Qed.

Lemma dict_get_set_ne k k' v d : k <> k' -> dict_get k' (dict_set k v d) = dict_get k' d.
Proof.
  intros Hne. induction d as [|[k0 v0] d IH]; simpl.
  - destruct (String.eqb k' k) eqn:E; auto.
    apply String.eqb_eq in E. congruence.
  - destruct (String.eqb k k0) eqn:E; simpl.
    + apply String.eqb_eq in E. subst k0.
      destruct (String.eqb k' k) eqn:E'; auto.
      apply String.eqb_eq in E'. congruence.
    + destruct (String.eqb k' k0); auto.
Qed.

Lemma dict_set_fresh k v d : dict_get k d = None -> dict_set k v d = d ++ [(k, v)].
Proof.
  induction d as [|[k' v'] d IH]; simpl; auto.
  destruct (String.eqb k k'); [discriminate|].
  intros H. now rewrite IH.
Qed.

Lemma dict_get_app k d1 d2 :
  dict_get k (d1 ++ d2) =
  match dict_get k d1 with Some v => Some v | None => dict_get k d2 end.
Proof.
  induction d1 as [|[k' v'] d1 IH]; simpl; auto.
  destruct (String.eqb k k'); auto.
Qed.

(** *** Strings and paths *)

Lemma string_eqb_length a b : String.eqb a b = true -> String.length a = String.length b.
Proof. intros H. apply String.eqb_eq in H. now subst. Qed.

Lemma string_app_cons c (a b : string) : String c a +:+ b = String c (a +:+ b).
Proof. reflexivity. Qed.

Lemma string_app_assoc (a b c : string) : (a +:+ b) +:+ c = a +:+ (b +:+ c).
Proof.
  induction a as [|x a IH]; [reflexivity|].
  now rewrite !string_app_cons, IH.
Qed.

Lemma string_app_nil_r (a : string) : a +:+ "" = a.
Proof.
  induction a as [|x a IH]; [reflexivity|].
  now rewrite string_app_cons, IH.
Qed.

Lemma string_length_app a b : String.length (a +:+ b) = String.length a + String.length b.
Proof.
  induction a as [|x a IH]; [reflexivity|].
  rewrite string_app_cons. cbn [String.length]. now rewrite IH.
Qed.

(** A suffix no longer than [b] is looked for in [b] alone. *)
Lemma endswith_app a b suf :
  String.length suf <= String.length b ->
  endswith (a +:+ b) suf = endswith b suf.
Proof.
  intros Hlen. induction a as [|c a IH]; auto.
  rewrite string_app_cons. cbn [endswith]. rewrite IH.
  destruct (String.eqb (String c (a +:+ b)) suf) eqn:E; auto.
  apply string_eqb_length in E. cbn [String.length] in E.
  rewrite string_length_app in E. lia.
Qed.

Lemma path_fold_app (p : list string) acc :
  fold_right (fun seg a => "/" +:+ seg +:+ a) acc p =
  fold_right (fun seg a => "/" +:+ seg +:+ a) "" p +:+ acc.
Proof.
  induction p as [|x p IH]; [reflexivity|].
  cbn [fold_right]. rewrite IH.
  now rewrite <- !string_app_assoc.
Qed.

Lemma path_str_snoc (p : list string) seg :
  path_str (p ++ [seg]) = fold_right (fun s a => "/" +:+ s +:+ a) "" p +:+ ("/" +:+ seg).
Proof.
  unfold path_str.
  destruct (p ++ [seg]) eqn:E; [now destruct p|]. rewrite <- E.
  rewrite fold_right_app. cbn [fold_right]. rewrite path_fold_app.
  now rewrite string_app_nil_r.
Qed.

Lemma resolve_filling_scheme cwd :
  resolve cwd filling_scheme =
  cwd ++ ["master_jobs"; "filling_scheme";
          "8b4e_1972b_1960_1178_1886_224bpi_12inj_800ns_bs200ns.json"].
Proof.
  unfold resolve.
  change (split_slash filling_scheme) with
    ["master_jobs"; "filling_scheme";
     "8b4e_1972b_1960_1178_1886_224bpi_12inj_800ns_bs200ns.json"].
  cbn [walk]. cbn. now rewrite <- !app_assoc.
Qed.

(** Line 145: the filling scheme of the script is not a csv file. *)
Lemma pattern_fname_not_csv cwd : endswith (pattern_fname cwd) ".csv" = false.
Proof.
  unfold pattern_fname. rewrite resolve_filling_scheme.
  change (cwd ++ ["master_jobs"; "filling_scheme";
          "8b4e_1972b_1960_1178_1886_224bpi_12inj_800ns_bs200ns.json"])
    with (cwd ++ ["master_jobs"; "filling_scheme"] ++
          ["8b4e_1972b_1960_1178_1886_224bpi_12inj_800ns_bs200ns.json"]).
  rewrite app_assoc, path_str_snoc, endswith_app; [reflexivity|].
  vm_compute. lia.
Qed.

(** *** The questions asked to the user *)

(** The prompt for the bunch of beam 1 ends; it leaves the bunch in the
    mask, or raises what the dialogue raises. *)
Lemma ask_bunch_b1_run e worst stdin : forall fuel h m dm cwd f calls,
  length stdin < fuel ->
  h !! m = Some dm ->
  dict_get "i_bunch_b1" dm = Some VNone ->
  ask_bunch_b1 e fuel (VRef m) worst
    {| st_heap := h; st_stdin := stdin; st_cwd := cwd; st_fs := f; st_calls := calls |} =
  match bunch_dialog e worst stdin with
  | (inr z, rest) =>
      Ok tt {| st_heap := <[m := dict_set "i_bunch_b1" (VInt z) dm]> h; st_stdin := rest;
               st_cwd := cwd; st_fs := f; st_calls := calls |}
  | (inl ex, rest) =>
      Raise ex {| st_heap := h; st_stdin := rest; st_cwd := cwd; st_fs := f;
                  st_calls := calls |}
  end.
Proof.
  assert (Hdone : forall fuel h m dm z cwd f calls rest,
    h !! m = Some dm ->
    ask_bunch_b1 e (S fuel) (VRef m) worst
      {| st_heap := <[m := dict_set "i_bunch_b1" (VInt z) dm]> h; st_stdin := rest;
         st_cwd := cwd; st_fs := f; st_calls := calls |} =
    Ok tt {| st_heap := <[m := dict_set "i_bunch_b1" (VInt z) dm]> h; st_stdin := rest;
             st_cwd := cwd; st_fs := f; st_calls := calls |}).
  { intros fuel h m dm z cwd f calls rest Hm.
    cbn [ask_bunch_b1]. unfold bind, getitem. cbn [st_heap].
    rewrite list_lookup_insert_eq by (eapply lookup_lt_Some; eauto).
    now rewrite dict_get_set_eq. }
  induction stdin as [|a rest IH]; intros fuel h m dm cwd f calls Hfuel Hm Hnone;
    (destruct fuel as [|fuel]; [cbn [length] in Hfuel; lia|]).
  - cbn [ask_bunch_b1 bunch_dialog]. unfold bind, getitem, input. cbn [st_heap st_stdin].
    now rewrite Hm, Hnone.
  - cbn [length] in Hfuel.
    cbn [ask_bunch_b1 bunch_dialog]. unfold bind at 1. unfold getitem. cbn [st_heap].
    rewrite Hm, Hnone. unfold bind at 1. unfold bind at 1. unfold input at 1.
    cbn [st_heap st_stdin st_cwd st_fs st_calls].
    destruct (str_eq a "y").
    + unfold setitem. cbn [st_heap]. rewrite Hm. unfold with_heap.
      cbn [st_heap st_stdin st_cwd st_fs st_calls].
      destruct fuel as [|fuel]; [lia|]. now apply Hdone.
    + destruct (str_eq a "n").
      * unfold bind at 1. unfold input at 1. cbn [st_stdin].
        destruct rest as [|b rest']; [reflexivity|].
        cbn [st_heap st_stdin st_cwd st_fs st_calls].
        destruct (py_int e b) as [z|]; [|reflexivity].
        unfold setitem. cbn [st_heap]. rewrite Hm. unfold with_heap.
        cbn [st_heap st_stdin st_cwd st_fs st_calls].
        destruct fuel as [|fuel]; [cbn [length] in Hfuel; lia|]. now apply Hdone.
      * unfold ret. apply IH; auto. lia.
Qed.

(** *** The first generation *)

(** Lines 102-125, once the skipping of the leveling is confirmed (or
    not asked for). *)
Lemma leveling_section_run sp d0 d1 d2 d3 d4 d5 d6 d7 d8 d9 d10 stdin rest cwd f calls :
  confirm_skip sp stdin = (None, rest) ->
  leveling_section sp
    {| st_heap := [d0; d1; d2; d3; d4; d5; d6; d7; d8; d9; d10]; st_stdin := stdin;
       st_cwd := cwd; st_fs := f; st_calls := calls |} =
  Ok (VRef 13)
    {| st_heap := [d0; d1; d2; d3; d4; d5; d6; d7; d8; d9; d10;
                   [("separation_in_sigmas", VInt 5)];
                   [("luminosity", VFloat 2.0e33)];
                   [("ip2", VRef 11); ("ip8", VRef 12)]];
       st_stdin := rest; st_cwd := cwd; st_fs := f; st_calls := calls |}.
Proof.
  unfold confirm_skip, leveling_section. intros Hc.
  do 3 step.
  destruct (skip_leveling_base_collider sp).
  - destruct stdin as [|a stdin']; [discriminate|].
    unfold bind at 1. unfold bind at 1. unfold input at 1. cbn [st_stdin].
    destruct (str_eq a "y"); [|discriminate].
    injection Hc as <-. unfold ret at 1.
    cbn [st_heap st_stdin st_cwd st_fs st_calls].
    do 4 step. reflexivity.
  - injection Hc as <-. do 5 step. reflexivity.
Qed.

(** Lines 131-188, when the dialogue about the bunch of beam 1 ends with
    bunch [b1]. *)
Lemma beambeam_section_run e d0 d1 d2 d3 d4 d5 d6 d7 d8 d9 d10 d11 d12 d13
    stdin rest b1 cwd f calls :
  bunch_dialog e (get_worst_bunch e (pattern_fname cwd) 26 "beam_1") stdin = (inr b1, rest) ->
  beambeam_section e
    {| st_heap := [d0; d1; d2; d3; d4; d5; d6; d7; d8; d9; d10; d11; d12; d13];
       st_stdin := stdin; st_cwd := cwd; st_fs := f; st_calls := calls |} =
  Ok (VRef 15)
    {| st_heap := [d0; d1; d2; d3; d4; d5; d6; d7; d8; d9; d10; d11; d12; d13;
                   [("pattern_fname", VStr (pattern_fname cwd)); ("i_bunch_b1", VInt b1);
                    ("i_bunch_b2", VInt (get_worst_bunch e (pattern_fname cwd) 26 "beam_2"))];
                   [("mask_with_filling_pattern", VRef 14);
                    ("num_particles_per_bunch", VFloat 1.4e11);
                    ("nemitt_x", VFloat 2.5e-6); ("nemitt_y", VFloat 2.5e-6)]];
       st_stdin := rest; st_cwd := cwd; st_fs := f; st_calls := calls |}.
Proof.
  intros Hd. unfold beambeam_section.
  do 6 step.
  change (path_str (resolve cwd filling_scheme)) with (pattern_fname cwd).
  rewrite pattern_fname_not_csv.
  do 9 step.
  unfold bind at 1. unfold bind at 1. unfold get_state at 1.
  cbn [st_heap st_stdin st_cwd st_fs st_calls].
  erewrite ask_bunch_b1_run; [|cbn [length]; lia|reflexivity|reflexivity].
  rewrite Hd. cbv beta iota.
  repeat step. reflexivity.
Qed.

(** Lines 21-244: when the user answers the questions, the first
    generation is built; [children] is object 20, the base node object 19
    and its [children] object 18. *)
Lemma first_generation_run e sp stdin cwd f b1 rest :
  dialog e sp cwd stdin = (inr b1, rest) ->
  first_generation e sp (init_state stdin cwd f) =
  Ok (VRef 0, VRef 20)
    {| st_heap := first_heap e sp cwd b1; st_stdin := rest; st_cwd := cwd; st_fs := f;
       st_calls := [] |}.
Proof.
  unfold dialog. intros Hd.
  destruct (confirm_skip sp stdin) as [[ex|] rest1] eqn:Hc; [discriminate|].
  unfold first_generation, init_state.
  do 4 step.
  erewrite bind_Ok by (apply leveling_section_run; eassumption).
  erewrite bind_Ok by (apply beambeam_section_run; eassumption).
  step. reflexivity.
Qed.

(** *** Keys *)

Lemma strip_prefix_app p s : strip_prefix p (p +:+ s) = Some s.
Proof.
  induction p as [|c p IH]; [reflexivity|].
  rewrite string_app_cons. cbn [strip_prefix]. now rewrite Ascii.eqb_refl.
Qed.

Lemma of_uint_zeros n d : Nat.of_uint (zeros n d) = Nat.of_uint d.
Proof. induction n as [|n IH]; [reflexivity|]. cbn [zeros]. exact IH. Qed.

(** A formatted number is read back as the number. *)
Lemma parse_format w n : parse_nat (format_0w w n) = Some n.
Proof.
  unfold parse_nat, format_0w. rewrite NilEmpty.usu.
  unfold zero_pad. now rewrite of_uint_zeros, Unsigned.of_to.
Qed.

Lemma format_0w_inj w n n' : format_0w w n = format_0w w n' -> n = n'.
Proof.
  intros H. pose proof (parse_format w n) as P. rewrite H, parse_format in P. congruence.
Qed.

(** The number of a leaf is read back from its key. *)
Lemma parse_leaf_key i : parse_key (leaf_key i) = Some i.
Proof. unfold parse_key, leaf_key. now rewrite strip_prefix_app, parse_format. Qed.

Lemma leaf_key_inj i j : leaf_key i = leaf_key j -> i = j.
Proof.
  intros H. pose proof (parse_leaf_key i) as P. rewrite H, parse_leaf_key in P. congruence.
Qed.

(** *** The loop over the grid *)

Lemma dict_get_scan_entries_None key l0 its :
  (forall it, In it its -> leaf_key (fst it) <> key) ->
  dict_get key (scan_entries l0 its) = None.
Proof.
  revert l0. induction its as [|it its IH]; intros l0 Hne; [reflexivity|].
  cbn [scan_entries dict_get].
  destruct (String.eqb key (leaf_key (fst it))) eqn:E.
  - apply String.eqb_eq in E. exfalso. apply (Hne it); [now left|congruence].
  - apply IH. intros it' Hin. apply Hne. now right.
Qed.

(** One round of the loop on a point that is kept: three objects are
    allocated and the leaf is entered under its key. *)
Lemma scan_body_keep sp (h : heap) c b k dc db dk it stdin cwd f calls :
  keep sp it = true ->
  h !! c = Some dc -> dict_get "base_collider" dc = Some (VRef b) ->
  h !! b = Some db -> dict_get "children" db = Some (VRef k) ->
  h !! k = Some dk ->
  scan_body sp (VRef c) it
    {| st_heap := h; st_stdin := stdin; st_cwd := cwd; st_fs := f; st_calls := calls |} =
  Ok tt {| st_heap := <[k := dict_set (leaf_key (fst it)) (VRef (length h + 2)) dk]>
                        (h ++ leaf_objects sp (length h) it);
           st_stdin := stdin; st_cwd := cwd; st_fs := f; st_calls := calls |}.
Proof.
  intros Hkeep Hc Hdc Hb Hdb Hk.
  destruct it as [i [[t qx] qy]]. unfold keep in Hkeep. cbn [fst snd] in *.
  unfold scan_body.
  destruct (only_keep_upper_triangle sp && below_upper_diagonal qx qy); [discriminate|].
  unfold bind, new_dict, getitem, setitem, with_heap.
  cbn [st_heap st_stdin st_cwd st_fs st_calls].
  rewrite !length_app. cbn [length].
  rewrite <- !app_assoc. cbn [app].
  rewrite (lookup_app_l_Some _ _ _ _ Hc), Hdc.
  cbv beta iota. cbn [st_heap st_stdin st_cwd st_fs st_calls].
  rewrite (lookup_app_l_Some _ _ _ _ Hb), Hdb.
  cbv beta iota. cbn [st_heap st_stdin st_cwd st_fs st_calls].
  rewrite (lookup_app_l_Some _ _ _ _ Hk).
  unfold leaf_objects. cbn [fst snd].
  replace (length h + 1 + 1) with (length h + 2) by lia.
  reflexivity.
Qed.

Lemma scan_body_skip sp c it s : keep sp it = false -> scan_body sp (VRef c) it s = Ok tt s.
Proof.
  destruct it as [i [[t qx] qy]]. unfold keep, scan_body. cbn [fst snd].
  destruct (only_keep_upper_triangle sp && below_upper_diagonal qx qy); [reflexivity|discriminate].
Qed.

(** The loop over any list of numbered points whose numbers are distinct
    and whose keys are not yet children of the base node. *)
Lemma scan_for_each sp c b k dc db its : forall (h : heap) dk stdin cwd f calls,
  NoDup (map fst its) ->
  (forall it, In it its -> dict_get (leaf_key (fst it)) dk = None) ->
  c <> k -> b <> k ->
  h !! c = Some dc -> dict_get "base_collider" dc = Some (VRef b) ->
  h !! b = Some db -> dict_get "children" db = Some (VRef k) ->
  h !! k = Some dk ->
  for_each its (scan_body sp (VRef c))
    {| st_heap := h; st_stdin := stdin; st_cwd := cwd; st_fs := f; st_calls := calls |} =
  Ok tt {| st_heap := <[k := dk ++ scan_entries (length h) (List.filter (keep sp) its)]> h
                      ++ scan_objects sp (length h) (List.filter (keep sp) its);
           st_stdin := stdin; st_cwd := cwd; st_fs := f; st_calls := calls |}.
Proof.
  induction its as [|it its IH];
    intros h dk stdin cwd f calls Hnd Hfresh Hck Hbk Hc Hdc Hb Hdb Hk.
  - cbn [for_each List.filter scan_entries scan_objects]. unfold ret.
    rewrite !app_nil_r. rewrite list_insert_id by exact Hk. reflexivity.
  - cbn [map] in Hnd. apply NoDup_cons in Hnd as [Hnotin Hnd].
    cbn [for_each List.filter].
    destruct (keep sp it) eqn:Hkeep.
    + erewrite bind_Ok by (eapply scan_body_keep; eauto).
      rewrite dict_set_fresh by (apply Hfresh; now left).
      pose proof (lookup_lt_Some _ _ _ Hc) as Hlc.
      pose proof (lookup_lt_Some _ _ _ Hb) as Hlb.
      pose proof (lookup_lt_Some _ _ _ Hk) as Hlk.
      rewrite (IH (<[k := dk ++ [(leaf_key (fst it), VRef (length h + 2))]]>
                     (h ++ leaf_objects sp (length h) it))
                  (dk ++ [(leaf_key (fst it), VRef (length h + 2))]) stdin cwd f calls).
      * rewrite list_insert_insert_eq, length_insert, length_app.
        cbn [scan_entries scan_objects]. unfold leaf_objects at 2. cbn [length].
        rewrite insert_app_l by exact Hlk.
        rewrite <- !app_assoc. reflexivity.
      * exact Hnd.
      * intros it' Hin. rewrite dict_get_app, Hfresh by now right.
        cbn [dict_get].
        destruct (String.eqb (leaf_key (fst it')) (leaf_key (fst it))) eqn:E; auto.
        apply String.eqb_eq, leaf_key_inj in E. exfalso. apply Hnotin.
        rewrite <- E. apply list_elem_of_In. apply in_map. exact Hin.
      * exact Hck.
      * exact Hbk.
      * rewrite list_lookup_insert_ne by auto. apply lookup_app_l_Some. exact Hc.
      * exact Hdc.
      * rewrite list_lookup_insert_ne by auto. apply lookup_app_l_Some. exact Hb.
      * exact Hdb.
      * apply list_lookup_insert_eq. rewrite length_app. lia.
    + rewrite (bind_Ok _ _ _ _ _ (scan_body_skip _ _ _ _ Hkeep)).
      apply IH; auto. intros it' Hin. apply Hfresh. now right.
Qed.

(** *** The tree of dictionaries *)

Lemma map_fst_combine_seq {A} (l : list A) s :
  map fst (combine (seq s (length l)) l) = seq s (length l).
Proof.
  revert s. induction l as [|x l IH]; intros s; [reflexivity|].
  cbn [length seq combine map fst]. now rewrite IH.
Qed.

(** [enumerate] numbers from 0, without gaps. *)
Lemma map_fst_enumerate {A} (l : list A) : map fst (enumerate l) = seq 0 (length l).
Proof. apply map_fst_combine_seq. Qed.

Lemma NoDup_fst_enumerate {A} (l : list A) : NoDup (map fst (enumerate l)).
Proof. rewrite map_fst_enumerate. apply NoDup_ListNoDup, List.seq_NoDup. Qed.

(** Lines 259-272 on the heap left by the first generation. *)
Lemma scan_loop_run e sp cwd b1 stdin f calls :
  scan_loop sp (VRef 0) (VRef 20)
    {| st_heap := first_heap e sp cwd b1; st_stdin := stdin; st_cwd := cwd; st_fs := f;
       st_calls := calls |} =
  Ok tt {| st_heap := tree_heap e sp cwd b1; st_stdin := stdin; st_cwd := cwd; st_fs := f;
           st_calls := calls |}.
Proof.
  unfold scan_loop. step. rewrite Nat2Z.id.
  fold (grid sp).
  erewrite (scan_for_each sp 20 19 18 _ _ _ _ []); cycle 1.
  - apply NoDup_fst_enumerate.
  - intros it _. reflexivity.
  - lia.
  - lia.
  - reflexivity.
  - reflexivity.
  - reflexivity.
  - reflexivity.
  - reflexivity.
  - reflexivity.
Qed.

(** Lines 21-272: when the user answers the questions, the script builds
    the tree of dictionaries [tree_heap], [children] being object 20. *)
Lemma build_children_run e sp stdin cwd f b1 rest :
  dialog e sp cwd stdin = (inr b1, rest) ->
  build_children e sp (init_state stdin cwd f) =
  Ok (VRef 20)
    {| st_heap := tree_heap e sp cwd b1; st_stdin := rest; st_cwd := cwd; st_fs := f;
       st_calls := [] |}.
Proof.
  intros Hd. unfold build_children.
  erewrite bind_Ok by (apply first_generation_run; eassumption).
  cbn [fst snd].
  erewrite bind_Ok by apply scan_loop_run.
  reflexivity.
Qed.

(** *** Reading the tree back from the heap *)

(** The loop leaves the objects of the first generation as they were,
    the children of the base node apart. *)
Lemma tree_heap_frame e sp cwd b1 l :
  l < 21 -> l <> 18 -> tree_heap e sp cwd b1 !! l = first_heap e sp cwd b1 !! l.
Proof.
  intros Hl Hne. unfold tree_heap.
  rewrite lookup_app_l by (rewrite length_insert; exact Hl).
  now rewrite list_lookup_insert_ne by auto.
Qed.

Lemma tree_heap_children e sp cwd b1 :
  tree_heap e sp cwd b1 !! 18 = Some (scan_entries 21 (kept sp)).
Proof.
  unfold tree_heap. rewrite lookup_app_l by (rewrite length_insert; cbn; lia).
  apply list_lookup_insert_eq. cbn. lia.
Qed.

Lemma tree_heap_objects e sp cwd b1 j :
  tree_heap e sp cwd b1 !! (21 + j) = scan_objects sp 21 (kept sp) !! j.
Proof.
  unfold tree_heap.
  rewrite lookup_app_r by (rewrite length_insert; cbn; lia).
  rewrite length_insert. f_equal. cbn. lia.
Qed.

(** The entries of the loop are read back as the leaves of the points. *)
Lemma read_entries_scan sp its : forall (pre post : heap),
  read_entries (pre ++ scan_objects sp (length pre) its ++ post)
               (scan_entries (length pre) its) = Some (map leaf_of its).
Proof.
  induction its as [|it its IH]; intros pre post; [reflexivity|].
  cbn [scan_entries scan_objects read_entries map].
  specialize (IH (pre ++ leaf_objects sp (length pre) it) post).
  rewrite length_app in IH. cbn [leaf_objects length] in IH.
  rewrite <- !app_assoc in IH. rewrite <- !app_assoc.
  rewrite IH. clear IH.
  set (H := pre ++ _).
  assert (H0 : H !! (length pre) =
               Some [("qx", VFloat (snd (fst (snd it)))); ("qy", VFloat (snd (snd it)))]).
  { subst H. rewrite lookup_app_r by lia. now rewrite Nat.sub_diag. }
  assert (H1 : H !! (length pre + 1) = Some [("group_2", VRef (length pre))]).
  { subst H. rewrite lookup_app_r by lia.
    now replace (length pre + 1 - length pre) with 1 by lia. }
  assert (H2 : H !! (length pre + 2) =
               Some [("parameters_scanned", VRef (length pre + 1));
                     ("particle_file", VStr (particle_file_of (fst (fst (snd it)))));
                     ("collider_file", VStr "../collider/collider.json");
                     ("n_turns", VInt (n_turns sp));
                     ("delta_max", VFloat (delta_max sp));
                     ("log_file", VStr "tree_maker.log")]).
  { subst H. rewrite lookup_app_r by lia.
    now replace (length pre + 2 - length pre) with 2 by lia. }
  unfold read_leaf. cbn [heap_path]. rewrite H2. cbn [dict_get String.eqb Ascii.eqb Bool.eqb].
  rewrite H1. cbn [dict_get String.eqb Ascii.eqb Bool.eqb].
  rewrite H0. cbn [dict_get String.eqb Ascii.eqb Bool.eqb].
  reflexivity.
Qed.

(** The leaves of the tree are those of the kept points of the grid, in
    the order of the grid. *)
Lemma read_leaves_tree e sp cwd b1 :
  read_leaves (tree_heap e sp cwd b1) (VRef 20) = Some (leaves sp).
Proof.
  unfold read_leaves. cbn [heap_path].
  rewrite (tree_heap_frame e sp cwd b1 20) by lia. cbn [lookup list_lookup first_heap].
  cbn [dict_get String.eqb Ascii.eqb Bool.eqb].
  rewrite (tree_heap_frame e sp cwd b1 19) by lia. cbn [lookup list_lookup first_heap].
  cbn [dict_get String.eqb Ascii.eqb Bool.eqb].
  rewrite tree_heap_children.
  unfold tree_heap.
  pose proof (read_entries_scan sp (kept sp)
                (<[18 := scan_entries 21 (kept sp)]> (first_heap e sp cwd b1)) []) as R.
  rewrite app_nil_r in R. exact R.
Qed.

(** *** The order of the grid *)

Lemma nth_error_flat_map_block {A B} (f : A -> list B) m (la : list A) : forall i,
  0 < m -> (forall a, length (f a) = m) ->
  nth_error (flat_map f la) i =
  match nth_error la (i / m) with
  | Some a => nth_error (f a) (i mod m)
  | None => None
  end.
Proof.
  induction la as [|a la IH]; intros i Hm Hlen.
  - cbn [flat_map]. destruct i, (_ / m); reflexivity.
  - cbn [flat_map]. destruct (Nat.lt_ge_cases i m) as [Hi|Hi].
    + rewrite Nat.div_small, Nat.mod_small by exact Hi. cbn [nth_error].
      apply nth_error_app1. now rewrite Hlen.
    + rewrite nth_error_app2 by (rewrite Hlen; exact Hi). rewrite Hlen.
      assert (Hj : i = (i - m) + 1 * m) by lia.
      generalize dependent (i - m). intros j Hj. subst i.
      replace (j + 1 * m - m) with j by lia.
      rewrite IH by assumption.
      rewrite Nat.div_add, Nat.Div0.mod_add by lia.
      replace (j / m + 1) with (S (j / m)) by lia. reflexivity.
Qed.

Lemma length_flat_map_block {A B} (f : A -> list B) m (la : list A) :
  (forall a, length (f a) = m) -> length (flat_map f la) = length la * m.
Proof.
  intros Hlen. induction la as [|a la IH]; [reflexivity|].
  cbn [flat_map length]. rewrite length_app, Hlen, IH. lia.
Qed.

Lemma length_product3 {A B C} (la : list A) (lb : list B) (lc : list C) :
  length (product3 la lb lc) = length la * (length lb * length lc).
Proof.
  unfold product3. apply length_flat_map_block. intros a.
  apply length_flat_map_block. intros b. apply length_map.
Qed.

(** [itertools.product] is row-major: element [i] takes the digits of [i]
    in the mixed base of the axes. *)
Lemma nth_error_product3 {A B C} (la : list A) (lb : list B) (lc : list C) i a b c :
  nth_error (product3 la lb lc) i = Some (a, b, c) ->
  nth_error la (i / (length lb * length lc)) = Some a /\
  nth_error lb ((i / length lc) mod length lb) = Some b /\
  nth_error lc (i mod length lc) = Some c.
Proof.
  intros H.
  assert (Hi : i < length la * (length lb * length lc)).
  { rewrite <- length_product3. apply nth_error_Some. congruence. }
  assert (Hc : 0 < length lc) by nia.
  assert (Hb : 0 < length lb) by nia.
  unfold product3 in H.
  rewrite (nth_error_flat_map_block _ (length lb * length lc)) in H;
    [|nia|intros; apply length_flat_map_block; intros; apply length_map].
  destruct (nth_error la _) as [a'|] eqn:Ea; [|discriminate].
  rewrite (nth_error_flat_map_block _ (length lc)) in H;
    [|exact Hc|intros; apply length_map].
  destruct (nth_error lb _) as [b'|] eqn:Eb; [|discriminate].
  rewrite nth_error_map in H.
  destruct (nth_error lc _) as [c'|] eqn:Ec; [|discriminate].
  cbn in H. injection H as -> -> ->.
  rewrite (Nat.mul_comm (length lb)) in Eb, Ec.
  rewrite Nat.Div0.mod_mul_r in Eb, Ec.
  assert (Hr : i mod length lc < length lc) by (apply Nat.mod_upper_bound; lia).
  rewrite (Nat.mul_comm (length lc) (_ mod _)) in Eb, Ec.
  rewrite Nat.div_add in Eb by lia. rewrite Nat.div_small in Eb by exact Hr.
  rewrite Nat.Div0.mod_add, Nat.Div0.mod_mod in Ec.
  auto.
Qed.

Lemma nth_error_enumerate {A} (l : list A) i x :
  nth_error (enumerate l) i = Some x -> exists y, x = (i, y) /\ nth_error l i = Some y.
Proof.
  unfold enumerate.
  assert (G : forall (l : list A) s i x,
    nth_error (combine (seq s (length l)) l) i = Some x ->
    exists y, x = (s + i, y) /\ nth_error l i = Some y).
  { clear. induction l as [|y l IH]; intros s i x H.
    - destruct i; discriminate.
    - cbn [length seq combine] in H. destruct i as [|i].
      + cbn in H. injection H as <-. exists y. now rewrite Nat.add_0_r.
      + cbn [nth_error] in H. apply IH in H as [y' [-> H]].
        exists y'. split; [f_equal; lia|exact H]. }
  intros H. apply G in H. exact H.
Qed.

Lemma nth_error_seq_0 n k x : nth_error (seq 0 n) k = Some x -> x = k /\ k < n.
Proof.
  intros H. assert (Hk : k < n).
  { assert (Hl : k < length (seq 0 n)) by (apply nth_error_Some; congruence).
    now rewrite length_seq in Hl. }
  split; [|exact Hk].
  apply nth_error_nth with (d := 0) in H. rewrite seq_nth in H by exact Hk. lia.
Qed.

(** Every point of the grid is the one its number stands for. *)
Lemma grid_point sp i t qx qy :
  In (i, (t, qx, qy)) (grid sp) -> point_of sp i = Some (t, qx, qy).
Proof.
  intros Hin. apply In_nth_error in Hin as [j Hj].
  unfold grid in Hj. apply nth_error_enumerate in Hj as [y [E Hy]].
  injection E as <- <-.
  assert (Hlt : i < n_split sp * (length (array_qx sp) * length (array_qy sp))).
  { assert (Hl : i < length (product3 (seq 0 (n_split sp)) (array_qx sp) (array_qy sp)))
      by (apply nth_error_Some; congruence).
    now rewrite length_product3, length_seq in Hl. }
  apply nth_error_product3 in Hy as [Ht [Hx Hq]].
  apply nth_error_seq_0 in Ht as [-> _].
  unfold point_of. apply Nat.ltb_lt in Hlt. rewrite Hlt, Hx, Hq. reflexivity.
Qed.

Lemma kept_in_grid sp it : In it (kept sp) -> In it (grid sp) /\ keep sp it = true.
Proof. unfold kept. apply filter_In. Qed.

(** The numbers of the kept points increase along the loop. *)
Lemma sorted_fst_filter_enumerate {A} (p : nat * A -> bool) (l : list A) :
  StronglySorted lt (map fst (List.filter p (enumerate l))).
Proof.
  unfold enumerate. generalize 0.
  induction l as [|x l IH]; intros s; [constructor|].
  cbn [length seq combine List.filter].
  assert (Hall : Forall (fun i => s < i)
                   (map fst (List.filter p (combine (seq (S s) (length l)) l)))).
  { apply List.Forall_forall. intros i Hi. apply in_map_iff in Hi as [[i' y] [<- Hi]].
    apply filter_In in Hi as [Hi _]. apply in_combine_l in Hi.
    apply in_seq in Hi. cbn [fst]. lia. }
  destruct (p (s, x)); [|apply IH].
  cbn [map fst]. constructor; [apply IH|exact Hall].
Qed.

Lemma kept_sorted sp : StronglySorted lt (map fst (kept sp)).
Proof. apply sorted_fst_filter_enumerate. Qed.

(** A formatted number has at least the width asked for. *)
Lemma length_string_of_uint d : String.length (NilEmpty.string_of_uint d) = nb_digits d.
Proof. induction d; cbn [NilEmpty.string_of_uint String.length nb_digits]; auto. Qed.

Lemma nb_digits_zeros n d : nb_digits (zeros n d) = n + nb_digits d.
Proof. induction n as [|n IH]; cbn [zeros nb_digits]; [reflexivity|]. now rewrite IH. Qed.

Lemma length_format_0w w n : w <= String.length (format_0w w n).
Proof.
  unfold format_0w, zero_pad. rewrite length_string_of_uint, nb_digits_zeros. lia.
Qed.

(** The digits of a formatted number are those of the number, after
    zeros only. *)
Lemma format_0w_digits w n :
  exists k, format_0w w n = NilEmpty.string_of_uint (zeros k (Nat.to_uint n)).
Proof. unfold format_0w, zero_pad. eauto. Qed.

(** *** Pruning *)

(** Filtering keeps the relative order. *)
Lemma sublist_List_filter {A} (p : A -> bool) (l : list A) : sublist (List.filter p l) l.
Proof.
  induction l as [|x l IH]; cbn [List.filter]; [constructor|].
  destruct (p x); [now apply sublist_skip|now apply sublist_cons].
Qed.

(** A point of the grid has a leaf exactly when it is kept. *)
Lemma leaf_of_point sp it :
  In it (grid sp) ->
  (exists lf, In lf (leaves sp) /\ lv_key lf = leaf_key (fst it)) <-> keep sp it = true.
Proof.
  intros Hin. split.
  - intros [lf [Hlf Hkey]]. unfold leaves in Hlf.
    apply in_map_iff in Hlf as [it' [<- Hin']].
    apply kept_in_grid in Hin' as [Hin' Hkeep].
    cbn [leaf_of lv_key] in Hkey. apply leaf_key_inj in Hkey.
    assert (it' = it) as <-; [|exact Hkeep].
    apply In_nth_error in Hin as [j Hj]. apply In_nth_error in Hin' as [j' Hj'].
    unfold grid in Hj, Hj'.
    destruct (nth_error_enumerate _ _ _ Hj) as [y [-> Hy]].
    destruct (nth_error_enumerate _ _ _ Hj') as [y' [-> Hy']].
    cbn [fst] in Hkey. subst j'. congruence.
  - intros Hkeep. exists (leaf_of it). split; [|reflexivity].
    unfold leaves, kept. apply in_map. apply filter_In. auto.
Qed.

(** Without points, or without values on an axis, nothing is kept. *)
Lemma grid_empty sp :
  n_split sp = 0 \/ array_qx sp = [] \/ array_qy sp = [] -> grid sp = [].
Proof.
  intros H. unfold grid.
  assert (E : product3 (seq 0 (n_split sp)) (array_qx sp) (array_qy sp) = []).
  { apply length_zero_iff_nil. rewrite length_product3, List.length_seq.
    destruct H as [->|[->| ->]]; cbn [length]; lia. }
  now rewrite E.
Qed.

(** *** The leaves and their objects *)

(** Every entry made by the loop points to the three objects of its
    point. *)
Lemma scan_entries_objects sp its : forall (pre post : heap) key v,
  In (key, v) (scan_entries (length pre) its) ->
  exists it l0,
    In it its /\ key = leaf_key (fst it) /\ v = VRef (l0 + 2) /\ length pre <= l0 /\
    (pre ++ scan_objects sp (length pre) its ++ post) !! l0 =
      Some [("qx", VFloat (snd (fst (snd it)))); ("qy", VFloat (snd (snd it)))] /\
    (pre ++ scan_objects sp (length pre) its ++ post) !! (l0 + 1) =
      Some [("group_2", VRef l0)] /\
    (pre ++ scan_objects sp (length pre) its ++ post) !! (l0 + 2) =
      Some (leaf_dict sp (l0 + 1) it).
Proof.
  induction its as [|it its IH]; intros pre post key v Hin; [destruct Hin|].
  cbn [scan_entries scan_objects] in *. destruct Hin as [E|Hin].
  - injection E as <- <-. exists it, (length pre).
    split; [now left|]. split; [reflexivity|]. split; [reflexivity|]. split; [lia|].
    rewrite <- !app_assoc. cbn [leaf_objects app].
    split; [|split].
    + rewrite lookup_app_r by lia. now rewrite Nat.sub_diag.
    + rewrite lookup_app_r by lia.
      now replace (length pre + 1 - length pre) with 1 by lia.
    + rewrite lookup_app_r by lia.
      now replace (length pre + 2 - length pre) with 2 by lia.
  - specialize (IH (pre ++ leaf_objects sp (length pre) it) post key v).
    rewrite length_app in IH. cbn [leaf_objects length] in IH.
    destruct (IH Hin) as [it' [l0 [Hin' [-> [-> [Hl [H0 [H1 H2]]]]]]]].
    exists it', l0. rewrite <- !app_assoc in *. cbn [leaf_objects] in *.
    repeat split; auto; [now right|lia].
Qed.

(** In the finished tree, an entry under the base node points to the
    dictionary of its leaf, which points to its [parameters_scanned],
    which points to its [group_2]. *)
Lemma tree_heap_entry e sp cwd b1 key v :
  In (key, v) (scan_entries 21 (kept sp)) ->
  exists it l0,
    In it (kept sp) /\ key = leaf_key (fst it) /\ v = VRef (l0 + 2) /\ 21 <= l0 /\
    tree_heap e sp cwd b1 !! l0 =
      Some [("qx", VFloat (snd (fst (snd it)))); ("qy", VFloat (snd (snd it)))] /\
    tree_heap e sp cwd b1 !! (l0 + 1) = Some [("group_2", VRef l0)] /\
    tree_heap e sp cwd b1 !! (l0 + 2) = Some (leaf_dict sp (l0 + 1) it).
Proof.
  intros Hin.
  pose proof (scan_entries_objects sp (kept sp)
                (<[18 := scan_entries 21 (kept sp)]> (first_heap e sp cwd b1)) [] key v Hin)
    as R.
  rewrite app_nil_r in R. exact R.
Qed.

Lemma map_fst_scan_entries l0 its :
  map fst (scan_entries l0 its) = map (fun it => leaf_key (fst it)) its.
Proof.
  revert l0. induction its as [|it its IH]; intros l0; [reflexivity|].
  cbn [scan_entries map fst]. now rewrite IH.
Qed.

(** A path of the first generation that does not go through the children
    of the base node reads the same before and after the loop. *)
Ltac tree_path :=
  cbn [heap_path];
  repeat (rewrite tree_heap_frame by lia;
          cbn [lookup list_lookup first_heap dict_get String.eqb Ascii.eqb Bool.eqb]).

Lemma tree_heap_base_tunes e sp cwd b1 beam :
  beam = "lhcb1" \/ beam = "lhcb2" ->
  heap_path (tree_heap e sp cwd b1) (VRef 20)
    ["base_collider"; "config_collider"; "config_knobs_and_tuning"; "qx"; beam]
    = Some (VFloat 62.31) /\
  heap_path (tree_heap e sp cwd b1) (VRef 20)
    ["base_collider"; "config_collider"; "config_knobs_and_tuning"; "qy"; beam]
    = Some (VFloat 60.32) /\
  heap_path (tree_heap e sp cwd b1) (VRef 20)
    ["base_collider"; "config_collider"; "config_knobs_and_tuning"; "dqx"; beam]
    = Some (VFloat 5.0) /\
  heap_path (tree_heap e sp cwd b1) (VRef 20)
    ["base_collider"; "config_collider"; "config_knobs_and_tuning"; "dqy"; beam]
    = Some (VFloat 5.0).
Proof.
  intros [-> | ->]; repeat split; tree_path; reflexivity.
Qed.

(** *** The keys the generator writes *)

Lemma leaf_key_not_skip_leveling i : leaf_key i <> "skip_leveling".
Proof.
  intros H. apply (f_equal (strip_prefix "xtrack_")) in H.
  unfold leaf_key in H. rewrite strip_prefix_app in H. discriminate.
Qed.

Lemma scan_objects_no_skip_leveling sp its : forall l0,
  Forall (fun d => dict_get "skip_leveling" d = None) (scan_objects sp l0 its).
Proof.
  induction its as [|it its IH]; intros l0; cbn [scan_objects]; [constructor|].
  apply Forall_app. split; [|apply IH].
  unfold leaf_objects, leaf_dict. repeat constructor.
Qed.

(** No dictionary built by lines 21-272 has the key [skip_leveling]. *)
Lemma tree_heap_no_skip_leveling e sp cwd b1 :
  Forall (fun d => dict_get "skip_leveling" d = None) (tree_heap e sp cwd b1).
Proof.
  unfold tree_heap. apply Forall_app. split; [|apply scan_objects_no_skip_leveling].
  unfold first_heap. cbn [insert list_insert].
  repeat (apply List.Forall_cons; [try reflexivity|]); [|constructor].
  apply dict_get_scan_entries_None. intros it _. apply leaf_key_not_skip_leveling.
Qed.

(** The flag of the generator is stored under
    [skip_leveling_base_collider]. *)
Lemma tree_heap_skip_flag e sp cwd b1 :
  heap_path (tree_heap e sp cwd b1) (VRef 20)
    ["base_collider"; "config_collider"; "skip_leveling_base_collider"] =
  Some (VBool (skip_leveling_base_collider sp)).
Proof. tree_path. reflexivity. Qed.

(** *** Relative paths *)

Lemma split_slash_no_slash s : no_slash s = true -> split_slash s = [s].
Proof.
  induction s as [|c s IH]; [reflexivity|].
  cbn [no_slash split_slash]. intros H. apply andb_true_iff in H as [Hc Hs].
  apply negb_true_iff in Hc. rewrite Hc, (IH Hs). reflexivity.
Qed.

(** Splitting at the first [/]. *)
Lemma split_slash_app a b :
  no_slash a = true -> split_slash (a +:+ "/" +:+ b) = a :: split_slash b.
Proof.
  induction a as [|c a IH]; intros H.
  - reflexivity.
  - cbn [no_slash] in H. apply andb_true_iff in H as [Hc Ha].
    apply negb_true_iff in Hc.
    rewrite string_app_cons. cbn [split_slash]. rewrite Hc, (IH Ha). reflexivity.
Qed.

Lemma no_slash_app a b : no_slash a = true -> no_slash b = true -> no_slash (a +:+ b) = true.
Proof.
  induction a as [|c a IH]; intros Ha Hb; [exact Hb|].
  rewrite string_app_cons. cbn [no_slash] in *.
  apply andb_true_iff in Ha as [Hc Ha]. now rewrite Hc, IH.
Qed.

Lemma no_slash_digits d : no_slash (NilEmpty.string_of_uint d) = true.
Proof. induction d; cbn [NilEmpty.string_of_uint no_slash]; auto. Qed.

Lemma no_slash_format w n : no_slash (format_0w w n) = true.
Proof. apply no_slash_digits. Qed.

(** A segment longer than two characters is a name: walking it goes
    down. *)
Lemma walk_name dir seg rest :
  2 < String.length seg -> walk dir (seg :: rest) = walk (dir ++ [seg]) rest.
Proof.
  intros Hlen. cbn [walk].
  destruct (String.eqb seg "") eqn:E1;
    [apply string_eqb_length in E1; cbn in E1; lia|].
  destruct (String.eqb seg ".") eqn:E2;
    [apply string_eqb_length in E2; cbn in E2; lia|].
  destruct (String.eqb seg "..") eqn:E3;
    [apply string_eqb_length in E3; cbn in E3; lia|].
  reflexivity.
Qed.

Lemma walk_parent dir rest : walk dir (".." :: rest) = walk (removelast dir) rest.
Proof. reflexivity. Qed.

(** [../particles/NN.parquet], seen from the folder [key] of [dir], is
    [particles/NN.parquet] seen from [dir]. *)
Lemma resolve_particle_file dir key t :
  resolve (dir ++ [key]) (particle_file_of t) =
  dir ++ ["particles"; format_0w 2 t +:+ ".parquet"].
Proof.
  unfold resolve, particle_file_of.
  change ("../particles/" +:+ format_0w 2 t +:+ ".parquet")
    with (".." +:+ "/" +:+ ("particles" +:+ "/" +:+ (format_0w 2 t +:+ ".parquet"))).
  rewrite !split_slash_app by reflexivity.
  rewrite split_slash_no_slash by (apply no_slash_app; [apply no_slash_format|reflexivity]).
  rewrite walk_parent, removelast_last.
  rewrite walk_name by (cbn; lia).
  rewrite walk_name by (rewrite string_length_app; cbn; lia).
  cbn [walk]. now rewrite <- app_assoc.
Qed.

Lemma resolve_collider_file dir key :
  resolve (dir ++ [key]) "../collider/collider.json" = dir ++ ["collider"; "collider.json"].
Proof.
  unfold resolve.
  change (split_slash "../collider/collider.json") with [".."; "collider"; "collider.json"].
  rewrite walk_parent, removelast_last.
  rewrite !walk_name by (cbn; lia).
  cbn [walk]. now rewrite <- app_assoc.
Qed.

(** *** The files the leaves refer to *)

Lemma in_product3 {A B C} (la : list A) (lb : list B) (lc : list C) a b c :
  In (a, b, c) (product3 la lb lc) <-> In a la /\ In b lb /\ In c lc.
Proof.
  unfold product3. rewrite in_flat_map. split.
  - intros [a' [Ha H]]. apply in_flat_map in H as [b' [Hb H]].
    apply in_map_iff in H as [c' [E Hc]]. injection E as -> -> ->. auto.
  - intros (Ha & Hb & Hc). exists a. split; [exact Ha|].
    apply in_flat_map. exists b. split; [exact Hb|]. now apply in_map.
Qed.

Lemma in_enumerate {A} (l : list A) y : In y l -> exists i, In (i, y) (enumerate l).
Proof.
  unfold enumerate. generalize 0.
  induction l as [|x l IH]; intros s Hin; [destruct Hin|].
  cbn [length seq combine]. destruct Hin as [->|Hin].
  - exists s. now left.
  - destruct (IH (S s) Hin) as [i Hi]. exists i. now right.
Qed.

Lemma in_enumerate_r {A} (l : list A) i y : In (i, y) (enumerate l) -> In y l.
Proof. unfold enumerate. apply in_combine_r. Qed.

(** The split of a point of the grid is one of [range(n_split)]. *)
Lemma grid_split_lt sp i t qx qy : In (i, (t, qx, qy)) (grid sp) -> t < n_split sp.
Proof.
  intros Hin. apply in_enumerate_r, in_product3 in Hin as [Ht _].
  now apply in_seq in Ht.
Qed.

(** A leaf names the chunk of its split and the collider of the base
    node. *)
Lemma leaves_files sp lf :
  In lf (leaves sp) ->
  lv_collider_file lf = "../collider/collider.json" /\
  exists t, t < n_split sp /\ lv_particle_file lf = particle_file_of t.
Proof.
  unfold leaves. intros Hin. apply in_map_iff in Hin as [[i [[t qx] qy]] [<- Hin]].
  apply kept_in_grid in Hin as [Hin _]. split; [reflexivity|].
  exists t. split; [now apply grid_split_lt in Hin|reflexivity].
Qed.

(** Whether a point is kept depends on its tunes alone, so that a scan
    with a leaf has one for every split. *)
Lemma leaves_every_split sp lf t :
  In lf (leaves sp) -> t < n_split sp ->
  exists lf', In lf' (leaves sp) /\ lv_particle_file lf' = particle_file_of t.
Proof.
  unfold leaves. intros Hin Ht. apply in_map_iff in Hin as [[i [[t0 qx] qy]] [_ Hin]].
  apply kept_in_grid in Hin as [Hin Hkeep].
  apply in_enumerate_r, in_product3 in Hin as (_ & Hx & Hy).
  assert (Hp : In (t, qx, qy) (product3 (seq 0 (n_split sp)) (array_qx sp) (array_qy sp))).
  { apply in_product3. split; [apply in_seq; lia|auto]. }
  apply in_enumerate in Hp as [i' Hi'].
  exists (leaf_of (i', (t, qx, qy))). split; [|reflexivity].
  apply in_map. unfold kept. apply filter_In. split; [exact Hi'|exact Hkeep].
Qed.

(** The base node carries the [n_split] of the scan. *)
Lemma tree_heap_n_split e sp cwd b1 :
  heap_path (tree_heap e sp cwd b1) (VRef 20) ["base_collider"; "config_particles"; "n_split"] =
  Some (VInt (Z.of_nat (n_split sp))).
Proof. tree_path. reflexivity. Qed.

(** *** Loading [config.yaml] *)

(** Induction on a document, the elements of its sequences and the values
    of its mappings included. *)
Lemma yaml_nested_ind (P : yaml -> Prop) :
  P YNull -> (forall b, P (YBool b)) -> (forall z, P (YInt z)) ->
  (forall x, P (YFloat x)) -> (forall s, P (YStr s)) ->
  (forall l, List.Forall P l -> P (YSeq l)) ->
  (forall m, List.Forall (fun kv => P (snd kv)) m -> P (YMap m)) ->
  forall y, P y.
Proof.
  intros HNull HBool HInt HFloat HStr HSeq HMap.
  fix IH 1. intros [|b|z|x|s|l|m].
  - exact HNull.
  - apply HBool.
  - apply HInt.
  - apply HFloat.
  - apply HStr.
  - apply HSeq. induction l as [|y l IHl]; constructor; [apply IH|exact IHl].
  - apply HMap. induction m as [|[k y] m IHm]; constructor; [apply IH|exact IHm].
Qed.

Lemma load_seq_extends ld l :
  List.Forall (fun y => forall h, exists ext, snd (ld y h) = h ++ ext) l ->
  forall h, exists ext, snd (load_seq ld l h) = h ++ ext.
Proof.
  induction 1 as [|y l Hy _ IH]; intros h.
  - exists []. cbn. now rewrite app_nil_r.
  - cbn [load_seq]. destruct (Hy h) as [e1 E1]. destruct (ld y h) as [v h1].
    cbn [snd] in E1. subst h1. fold (load_seq ld).
    destruct (IH (h ++ e1)) as [e2 E2]. destruct (load_seq ld l (h ++ e1)) as [vs h2].
    cbn [snd] in *. subst h2. exists (e1 ++ e2). now rewrite app_assoc.
Qed.

Lemma load_map_extends ld m :
  List.Forall (fun kv => forall h, exists ext, snd (ld (snd kv) h) = h ++ ext) m ->
  forall d h, exists ext, snd (load_map ld m d h) = h ++ ext.
Proof.
  induction 1 as [|[k y] m Hy _ IH]; intros d h.
  - exists []. cbn. now rewrite app_nil_r.
  - cbn [load_map]. cbn [snd] in Hy. destruct (Hy h) as [e1 E1].
    destruct (ld y h) as [v h1]. cbn [snd] in E1. subst h1. fold (load_map ld).
    destruct (IH (dict_set k v d) (h ++ e1)) as [e2 E2]. rewrite E2.
    exists (e1 ++ e2). now rewrite app_assoc.
Qed.

(** Loading a document allocates: the objects of the heap stay where
    they are and what they are. *)
Lemma load_extends y : forall h, exists ext, snd (load y h) = h ++ ext.
Proof.
  induction y as [|b|z|x|s|l IH|m IH] using yaml_nested_ind; intros h;
    try (exists []; cbn; now rewrite app_nil_r).
  - cbn [load]. destruct (load_seq_extends load l IH h) as [ext E].
    destruct (load_seq load l h) as [vs h']. cbn [snd] in *. eauto.
  - cbn [load]. destruct (load_map_extends load m IH [] h) as [ext E].
    destruct (load_map load m [] h) as [d h']. cbn [snd] in *. subst h'.
    exists (ext ++ [d]). now rewrite app_assoc.
Qed.

Lemma load_entries_extends m d h : exists ext, snd (load_map load m d h) = h ++ ext.
Proof.
  apply load_map_extends. apply List.Forall_forall. intros kv _. apply load_extends.
Qed.

(** The dictionary of a mapping has, under a key, what was loaded from
    the last entry of the key. *)
Lemma load_map_get k m : forall d h,
  match yaml_get k m with
  | Some y =>
      exists ext0 ext1,
        snd (load_map load m d h) = snd (load y (h ++ ext0)) ++ ext1 /\
        dict_get k (fst (load_map load m d h)) = Some (fst (load y (h ++ ext0)))
  | None => dict_get k (fst (load_map load m d h)) = dict_get k d
  end.
Proof.
  induction m as [|[k0 y0] m IH]; intros d h; [reflexivity|].
  cbn [yaml_get load_map]. fold (load_map load).
  destruct (load_extends y0 h) as [e1 E1].
  destruct (load y0 h) as [v h1] eqn:E. cbn [snd] in E1. subst h1.
  specialize (IH (dict_set k0 v d) (h ++ e1)).
  destruct (yaml_get k m) as [y|].
  - destruct IH as (ext0 & ext1 & H1 & H2).
    exists (e1 ++ ext0), ext1. rewrite app_assoc. auto.
  - destruct (String.eqb k k0) eqn:Ek.
    + apply String.eqb_eq in Ek. subst k0.
      destruct (load_entries_extends m (dict_set k v d) (h ++ e1)) as [e2 E2].
      exists [], e2. rewrite app_nil_r, E. cbn [fst snd].
      split; [exact E2|]. rewrite IH. apply dict_get_set_eq.
    + rewrite IH. apply dict_get_set_ne. intros ->. now rewrite String.eqb_refl in Ek.
Qed.

(** *** The tree seen from a larger heap *)

Lemma heap_path_app h ext p : forall v x,
  heap_path h v p = Some x -> heap_path (h ++ ext) v p = Some x.
Proof.
  induction p as [|k p IH]; intros v x H; [exact H|].
  cbn [heap_path] in *. destruct v; try discriminate.
  destruct (h !! l) as [d|] eqn:E; [|discriminate].
  rewrite (lookup_app_l_Some _ _ _ _ E).
  destruct (dict_get k d); [|discriminate]. now apply IH.
Qed.

Lemma read_leaf_app h ext key leaf lf :
  read_leaf h key leaf = Some lf -> read_leaf (h ++ ext) key leaf = Some lf.
Proof.
  unfold read_leaf. destruct leaf; try discriminate.
  destruct (h !! l) as [d|] eqn:E; [|discriminate].
  rewrite (lookup_app_l_Some _ _ _ _ E).
  destruct (heap_path h (VRef l) ["parameters_scanned"; "group_2"; "qx"]) as [v1|] eqn:E1;
    [|discriminate].
  rewrite (heap_path_app _ ext _ _ _ E1). destruct v1; try discriminate.
  destruct (heap_path h (VRef l) ["parameters_scanned"; "group_2"; "qy"]) as [v2|] eqn:E2;
    [|discriminate].
  rewrite (heap_path_app _ ext _ _ _ E2). destruct v2; try discriminate.
  destruct (heap_path h (VRef l) ["particle_file"]) as [v3|] eqn:E3; [|discriminate].
  rewrite (heap_path_app _ ext _ _ _ E3). destruct v3; try discriminate.
  destruct (heap_path h (VRef l) ["collider_file"]) as [v4|] eqn:E4; [|discriminate].
  rewrite (heap_path_app _ ext _ _ _ E4). destruct v4; try discriminate.
  auto.
Qed.

Lemma read_entries_app h ext d : forall lvs,
  read_entries h d = Some lvs -> read_entries (h ++ ext) d = Some lvs.
Proof.
  induction d as [|[key v] d IH]; intros lvs H; [exact H|].
  cbn [read_entries] in *.
  destruct (read_leaf h key v) as [x|] eqn:E; [|discriminate].
  rewrite (read_leaf_app _ ext _ _ _ E).
  destruct (read_entries h d) as [xs|]; [|discriminate].
  now rewrite (IH xs eq_refl).
Qed.

(** Allocating changes nothing to the leaves read from a tree. *)
Lemma read_leaves_app h ext children lvs :
  read_leaves h children = Some lvs -> read_leaves (h ++ ext) children = Some lvs.
Proof.
  unfold read_leaves.
  destruct (heap_path h children ["base_collider"; "children"]) as [v|] eqn:E; [|discriminate].
  rewrite (heap_path_app _ ext _ _ _ E). destruct v; try discriminate.
  destruct (h !! l) as [kids|] eqn:Ek; [|discriminate].
  rewrite (lookup_app_l_Some _ _ _ _ Ek). apply read_entries_app.
Qed.

(** *** Lines 278-285 *)

(** With a [config.yaml] whose root is a mapping, the tree is put under
    [config["root"]["children"]]; the objects built before are not
    touched. *)
Lemma config_section_run e m r children s :
  config_yaml e = Some (YMap m) ->
  yaml_get "root" m = Some (YMap r) ->
  exists config root ext droot,
    config_section e children s = Ok config (with_heap (st_heap s ++ ext) s) /\
    heap_path (st_heap s ++ ext) config ["root"] = Some (VRef root) /\
    (st_heap s ++ ext) !! root = Some droot /\
    dict_get "children" droot = Some children.
Proof.
  intros Hy Hroot. unfold config_section, load_config. rewrite Hy.
  unfold bind at 1. cbn [load]. fold (load_map load).
  pose proof (load_map_get "root" m [] (st_heap s)) as G. rewrite Hroot in G.
  destruct G as (ext0 & ext1 & G1 & G2).
  destruct (load_map load m [] (st_heap s)) as [d h'] eqn:E. cbn [fst snd] in G1, G2.
  cbn [load] in G1, G2. fold (load_map load) in G1, G2.
  destruct (load_entries_extends r [] (st_heap s ++ ext0)) as [ext2 E2].
  destruct (load_map load r [] (st_heap s ++ ext0)) as [dr hr]. cbn [fst snd] in *.
  subst hr. set (h0 := st_heap s) in *.
  set (lr := length (h0 ++ ext0 ++ ext2)).
  rewrite <- app_assoc in G1, G2. fold lr in G2.
  assert (EH : h' ++ [d] = (h0 ++ ext0 ++ ext2) ++ dr :: (ext1 ++ [d])).
  { rewrite G1. now rewrite <- !app_assoc. }
  assert (Hlc : (h' ++ [d]) !! length h' = Some d) by (now apply list_lookup_middle).
  assert (Hlr : (h' ++ [d]) !! lr = Some dr) by (rewrite EH; now apply list_lookup_middle).
  assert (Hne : lr <> length h').
  { apply (f_equal length) in EH. unfold lr. rewrite !length_app in *.
    cbn [length] in EH. rewrite !length_app in EH. cbn [length] in EH. lia. }
  set (D1 := dict_set "children" children dr).
  set (D2 := dict_set "setup_env_script"
               (VStr (path_str (st_cwd s) +:+ "/../miniconda/bin/activate")) D1).
  exists (VRef (length h')), lr,
    (ext0 ++ ext2 ++ D2 :: (ext1 ++ [d])), D2.
  assert (EF : <[lr := D2]> (h' ++ [d]) = h0 ++ ext0 ++ ext2 ++ D2 :: ext1 ++ [d]).
  { rewrite EH. unfold lr. rewrite insert_app_r_alt by lia. rewrite Nat.sub_diag.
    cbn [insert list_insert]. now rewrite <- !app_assoc. }
  split.
  { unfold bind, getitem, setitem, getcwd, get_state, ret. unfold bind.
    cbn [st_heap with_heap st_cwd]. rewrite Hlc, G2.
    cbn [st_heap with_heap st_cwd]. rewrite Hlr.
    cbn [st_heap with_heap st_cwd].
    rewrite list_lookup_insert_ne by exact Hne. rewrite Hlc, G2.
    cbn [st_heap with_heap st_cwd].
    rewrite list_lookup_insert_eq by (apply lookup_lt_Some in Hlr; exact Hlr).
    cbn [st_heap with_heap st_cwd st_stdin st_fs st_calls].
    rewrite list_insert_insert_eq. fold D1 D2. rewrite EF. reflexivity. }
  rewrite <- EF.
  split.
  { cbn [heap_path]. rewrite list_lookup_insert_ne by exact Hne. now rewrite Hlc, G2. }
  split.
  { apply list_lookup_insert_eq. apply lookup_lt_Some in Hlr. exact Hlr. }
  unfold D2. rewrite dict_get_set_ne by discriminate. apply dict_get_set_eq.
Qed.

(** *** Lines 291-314 *)

Lemma fs_lookup_remove p q f :
  fs_lookup p (fs_remove q f) = if decide (p = q) then None else fs_lookup p f.
Proof.
  induction f as [|[r k] f IH]; cbn [fs_remove fs_lookup].
  - now destruct (decide (p = q)).
  - destruct (decide (q = r)) as [->|Hqr].
    + rewrite IH. destruct (decide (p = r)); reflexivity.
    + cbn [fs_lookup]. rewrite IH.
      destruct (decide (p = r)) as [->|Hpr]; [|reflexivity].
      destruct (decide (r = q)); [congruence|reflexivity].
Qed.

Lemma fs_lookup_add p q k f :
  fs_lookup p (fs_add q k f) = if decide (p = q) then Some k else fs_lookup p f.
Proof.
  unfold fs_add. cbn [fs_lookup]. rewrite fs_lookup_remove.
  destruct (decide (p = q)); reflexivity.
Qed.

Lemma resolve_study dir : resolve dir ("scans/" +:+ study_name) = dir ++ ["scans"; study_name].
Proof.
  unfold resolve.
  change (split_slash ("scans/" +:+ study_name)) with ["scans"; study_name].
  rewrite !walk_name by (cbn; lia). cbn [walk]. now rewrite <- app_assoc.
Qed.

(** A plain name of more than two characters, seen from a folder. *)
Lemma resolve_name dir name :
  no_slash name = true -> 2 < String.length name -> resolve dir name = dir ++ [name].
Proof.
  intros Hs Hl. unfold resolve. rewrite split_slash_no_slash by exact Hs.
  now rewrite walk_name by exact Hl.
Qed.

Lemma child_ne (dir : path) a b : a <> b -> dir ++ [a] <> dir ++ [b].
Proof. intros Hne E. apply app_inv_head in E. congruence. Qed.

Lemma tree_maker_call_run c act config s :
  tree_maker_call c act config s =
  match act (st_heap s) config (st_cwd s) (st_fs s) with
  | Some f =>
      Ok tt {| st_heap := st_heap s; st_stdin := st_stdin s; st_cwd := st_cwd s;
               st_fs := f; st_calls := st_calls s ++ [c] |}
  | None =>
      Raise (ExternalError "tree_maker")
        {| st_heap := st_heap s; st_stdin := st_stdin s; st_cwd := st_cwd s;
           st_fs := st_fs s; st_calls := st_calls s ++ [c] |}
  end.
Proof.
  unfold tree_maker_call, bind, log_call, get_state, put_fs, raise.
  cbn [st_heap st_cwd st_fs st_calls st_stdin].
  destruct (act (st_heap s) config (st_cwd s) (st_fs s)); reflexivity.
Qed.

(** When the folder of the study is there, the script enters it and
    hands the tree to tree_maker; nothing is created, deleted or checked
    before. *)
Lemma materialize_existing e config s :
  let target := st_cwd s ++ ["scans"; study_name] in
  let at_target (f : fs) (calls : list call) :=
    {| st_heap := st_heap s; st_stdin := st_stdin s; st_cwd := target; st_fs := f;
       st_calls := st_calls s ++ calls |} in
  fs_lookup target (st_fs s) = Some Dir ->
  materialize e config s =
  match tm_initialize e (st_heap s) config target (st_fs s) with
  | None => Raise (ExternalError "tree_maker") (at_target (st_fs s) [Initialize config])
  | Some f1 =>
      match tm_make_folders e (st_heap s) config target f1 with
      | None =>
          Raise (ExternalError "tree_maker")
            (at_target f1 [Initialize config; MakeFolders target])
      | Some f2 =>
          (move "tree_maker.json" ("tree_maker_" +:+ study_name +:+ ".json") ;;;
           move "tree_maker.log" ("tree_maker_" +:+ study_name +:+ ".log"))%script
            (at_target f2 [Initialize config; MakeFolders target])
      end
  end.
Proof.
  intros target at_target Ht. unfold materialize.
  assert (E1 : path_exists ("scans/" +:+ study_name) s = Ok true s).
  { unfold path_exists, bind, get_state, ret. rewrite resolve_study. fold target.
    now rewrite Ht. }
  rewrite (bind_Ok _ _ _ _ _ E1). cbn [negb].
  rewrite (bind_Ok (ret tt) _ s tt s eq_refl).
  assert (E2 : chdir ("scans/" +:+ study_name) s = Ok tt (at_target (st_fs s) [])).
  { unfold chdir, bind, get_state, put_cwd. rewrite resolve_study. fold target.
    rewrite Ht. unfold at_target. now rewrite app_nil_r. }
  rewrite (bind_Ok _ _ _ _ _ E2).
  unfold bind at 1. rewrite tree_maker_call_run.
  cbn [at_target st_heap st_cwd st_fs st_calls st_stdin]. rewrite app_nil_r.
  destruct (tm_initialize e (st_heap s) config target (st_fs s)) as [f1|]; [|reflexivity].
  unfold bind at 1. unfold get_state at 1. cbn [st_cwd].
  unfold bind at 1. rewrite tree_maker_call_run.
  cbn [st_heap st_cwd st_fs st_calls st_stdin]. rewrite <- app_assoc. cbn [app].
  destruct (tm_make_folders e (st_heap s) config target f1) as [f2|]; reflexivity.
Qed.

(** [shutil.move] of an entry of the current folder to a name that is
    not a directory. *)
Lemma move_run src dst k s :
  no_slash src = true -> 2 < String.length src ->
  no_slash dst = true -> 2 < String.length dst ->
  fs_lookup (st_cwd s ++ [src]) (st_fs s) = Some k ->
  fs_lookup (st_cwd s ++ [dst]) (st_fs s) <> Some Dir ->
  move src dst s =
  Ok tt {| st_heap := st_heap s; st_stdin := st_stdin s; st_cwd := st_cwd s;
           st_fs := fs_add (st_cwd s ++ [dst]) k (fs_remove (st_cwd s ++ [src]) (st_fs s));
           st_calls := st_calls s |}.
Proof.
  intros Hs1 Hs2 Hd1 Hd2 Hsrc Hdst.
  unfold move, bind, get_state. rewrite !resolve_name by assumption. rewrite Hsrc.
  destruct (fs_lookup (st_cwd s ++ [dst]) (st_fs s)) as [[|]|]; try reflexivity.
  now destruct Hdst.
Qed.

(** [shutil.move] changes neither the current folder nor the calls
    made. *)
Lemma move_frame src dst s :
  st_cwd (final (move src dst s)) = st_cwd s /\
  st_calls (final (move src dst s)) = st_calls s.
Proof.
  unfold move, bind, get_state, put_fs, raise.
  destruct (fs_lookup (resolve (st_cwd s) src) (st_fs s)); [|auto].
  destruct (fs_lookup (resolve (st_cwd s) dst) (st_fs s)) as [[|]|]; auto.
  destruct (fs_lookup _ (st_fs s)); auto.
Qed.

Lemma moves_frame src1 dst1 src2 dst2 s :
  st_cwd (final ((move src1 dst1 ;;; move src2 dst2)%script s)) = st_cwd s /\
  st_calls (final ((move src1 dst1 ;;; move src2 dst2)%script s)) = st_calls s.
Proof.
  unfold bind. pose proof (move_frame src1 dst1 s) as [H1 H2].
  destruct (move src1 dst1 s) as [[] s1|ex s1]; cbn [final] in *; [|auto].
  pose proof (move_frame src2 dst2 s1) as [H3 H4]. split; congruence.
Qed.

(** *** The questions, when they end badly *)

(** An answer that is neither [y] nor [n] asks the question again. *)
Lemma bunch_dialog_junk e worst junk stdin :
  List.Forall (fun a => a <> "y" /\ a <> "n") junk ->
  bunch_dialog e worst (junk ++ stdin) = bunch_dialog e worst stdin.
Proof.
  induction 1 as [|a junk [Hy Hn] _ IH]; [reflexivity|].
  cbn [app bunch_dialog]. unfold str_eq.
  destruct (String.eqb a "y") eqn:Ey; [now apply String.eqb_eq in Ey|].
  destruct (String.eqb a "n") eqn:En; [now apply String.eqb_eq in En|].
  exact IH.
Qed.

(** Lines 102-125, when the confirmation is not given. *)
Lemma leveling_section_fail sp s ex rest :
  confirm_skip sp (st_stdin s) = (Some ex, rest) ->
  exists h,
    leveling_section sp s =
    Raise ex {| st_heap := h; st_stdin := rest; st_cwd := st_cwd s; st_fs := st_fs s;
                st_calls := st_calls s |}.
Proof.
  destruct s as [h0 stdin cwd f calls]. cbn [st_stdin st_cwd st_fs st_calls].
  unfold confirm_skip, leveling_section. intros Hc.
  destruct (skip_leveling_base_collider sp); [|discriminate].
  destruct stdin as [|a stdin'].
  - injection Hc as <- <-. eexists. do 3 step.
    unfold bind at 1. unfold bind at 1. unfold bind at 1. unfold input at 1.
    cbn [st_heap st_stdin st_cwd st_fs st_calls with_heap]. reflexivity.
  - destruct (str_eq a "y") eqn:Ey; [discriminate|]. injection Hc as <- <-.
    eexists. do 3 step.
    unfold bind at 1. unfold bind at 1. unfold bind at 1. unfold input at 1.
    cbn [st_heap st_stdin st_cwd st_fs st_calls with_heap].
    unfold bind at 1. rewrite Ey. reflexivity.
Qed.

(** Lines 131-188, when the dialogue about the bunch of beam 1 ends with
    an exception. *)
Lemma beambeam_section_fail e d0 d1 d2 d3 d4 d5 d6 d7 d8 d9 d10 d11 d12 d13
    stdin rest ex cwd f calls :
  bunch_dialog e (get_worst_bunch e (pattern_fname cwd) 26 "beam_1") stdin = (inl ex, rest) ->
  exists h,
    beambeam_section e
      {| st_heap := [d0; d1; d2; d3; d4; d5; d6; d7; d8; d9; d10; d11; d12; d13];
         st_stdin := stdin; st_cwd := cwd; st_fs := f; st_calls := calls |} =
    Raise ex {| st_heap := h; st_stdin := rest; st_cwd := cwd; st_fs := f;
                st_calls := calls |}.
Proof.
  intros Hd. eexists. unfold beambeam_section.
  do 6 step.
  change (path_str (resolve cwd filling_scheme)) with (pattern_fname cwd).
  rewrite pattern_fname_not_csv.
  do 9 step.
  unfold bind at 1. unfold bind at 1. unfold bind at 1. unfold get_state at 1.
  cbn [st_heap st_stdin st_cwd st_fs st_calls].
  erewrite ask_bunch_b1_run; [|cbn [length]; lia|reflexivity|reflexivity].
  rewrite Hd. reflexivity.
Qed.

Lemma raise_final {A} (o : outcome state A) ex h stdin cwd f calls :
  o = Raise ex {| st_heap := h; st_stdin := stdin; st_cwd := cwd; st_fs := f;
                  st_calls := calls |} ->
  o = Raise ex {| st_heap := st_heap (final o); st_stdin := stdin; st_cwd := cwd;
                  st_fs := f; st_calls := calls |}.
Proof. intros ->. reflexivity. Qed.

(** Lines 21-244: an exception of the dialogue ends the script there,
    the lines read being consumed and nothing else being done. *)
Lemma first_generation_fail e sp stdin cwd f ex rest :
  dialog e sp cwd stdin = (inl ex, rest) ->
  exists h,
    first_generation e sp (init_state stdin cwd f) =
    Raise ex {| st_heap := h; st_stdin := rest; st_cwd := cwd; st_fs := f; st_calls := [] |}.
Proof.
  unfold dialog. intros Hd.
  destruct (confirm_skip sp stdin) as [[ex1|] rest1] eqn:Hc.
  - injection Hd as <- <-. eexists. unfold first_generation, init_state.
    do 4 step.
    match goal with
    | |- bind (leveling_section sp) _ ?s = _ =>
        destruct (leveling_section_fail sp s ex1 rest1 Hc) as [h E];
        apply raise_final in E; apply bind_Raise; exact E
    end.
  - eexists. unfold first_generation, init_state.
    do 4 step.
    erewrite bind_Ok by (apply leveling_section_run; eassumption).
    match goal with
    | |- bind (beambeam_section e) _
           {| st_heap := [?d0; ?d1; ?d2; ?d3; ?d4; ?d5; ?d6; ?d7; ?d8; ?d9; ?d10;
                          ?d11; ?d12; ?d13];
              st_stdin := _; st_cwd := _; st_fs := _; st_calls := _ |} = _ =>
        destruct (beambeam_section_fail e d0 d1 d2 d3 d4 d5 d6 d7 d8 d9 d10 d11 d12 d13
                    rest1 rest ex cwd f [] Hd) as [h E];
        apply raise_final in E; apply bind_Raise; exact E
    end.
Qed.

Lemma make_folders_fail e sp stdin cwd f ex rest :
  dialog e sp cwd stdin = (inl ex, rest) ->
  exists h,
    make_folders e sp (init_state stdin cwd f) =
    Raise ex {| st_heap := h; st_stdin := rest; st_cwd := cwd; st_fs := f; st_calls := [] |}.
Proof.
  intros Hd. destruct (first_generation_fail e sp stdin cwd f ex rest Hd) as [h E].
  exists h. unfold make_folders, build_children.
  erewrite bind_Raise; [reflexivity|]. erewrite bind_Raise; [reflexivity|exact E].
Qed.

(** *** Lines 278-285, when [config.yaml] is not what the script expects *)

Lemma config_section_no_file e children s :
  config_yaml e = None ->
  config_section e children s = Raise (OSError "FileNotFoundError") s.
Proof. intros Hy. unfold config_section, load_config. now rewrite Hy. Qed.

(** What is loaded from a document that is not a mapping is no
    dictionary. *)
Lemma load_not_map y h :
  (forall m, y <> YMap m) -> forall l, fst (load y h) <> VRef l.
Proof.
  intros Hy l. destruct y; cbn [load fst]; try discriminate.
  - fold (load_seq load). destruct (load_seq load l0 h). discriminate.
  - now destruct (Hy m).
Qed.

Lemma config_section_not_a_mapping e y children s :
  config_yaml e = Some y ->
  (forall m, y <> YMap m) ->
  exists ext,
    config_section e children s = Raise TypeError (with_heap (st_heap s ++ ext) s).
Proof.
  intros Hy Hm. unfold config_section, load_config. rewrite Hy.
  unfold bind at 1. cbv beta.
  destruct (load_extends y (st_heap s)) as [ext E].
  pose proof (load_not_map y (st_heap s) Hm) as Hv.
  destruct (load y (st_heap s)) as [v h]. cbn [fst snd] in *. subst h.
  exists ext. unfold bind at 1. unfold getitem.
  destruct v; try reflexivity. exfalso. eapply Hv. reflexivity.
Qed.

Lemma config_section_no_root e m children s :
  config_yaml e = Some (YMap m) ->
  yaml_get "root" m = None ->
  exists ext,
    config_section e children s = Raise (KeyError "root") (with_heap (st_heap s ++ ext) s).
Proof.
  intros Hy Hroot. unfold config_section, load_config. rewrite Hy.
  unfold bind at 1. cbn [load]. fold (load_map load).
  pose proof (load_map_get "root" m [] (st_heap s)) as G. rewrite Hroot in G.
  destruct (load_entries_extends m [] (st_heap s)) as [ext E].
  destruct (load_map load m [] (st_heap s)) as [d h']. cbn [fst snd dict_get] in *.
  subst h'. exists (ext ++ [d]). unfold bind at 1. unfold getitem.
  cbn [st_heap with_heap].
  rewrite (list_lookup_middle (st_heap s ++ ext) [] d _ eq_refl), G.
  now rewrite <- app_assoc.
Qed.

Lemma config_section_root_not_a_mapping e m y children s :
  config_yaml e = Some (YMap m) ->
  yaml_get "root" m = Some y ->
  (forall r, y <> YMap r) ->
  exists ext,
    config_section e children s = Raise TypeError (with_heap (st_heap s ++ ext) s).
Proof.
  intros Hy Hroot Hm. unfold config_section, load_config. rewrite Hy.
  unfold bind at 1. cbn [load]. fold (load_map load).
  pose proof (load_map_get "root" m [] (st_heap s)) as G. rewrite Hroot in G.
  destruct G as (ext0 & ext1 & _ & G).
  pose proof (load_not_map y (st_heap s ++ ext0) Hm) as Hv.
  destruct (load_entries_extends m [] (st_heap s)) as [ext E].
  destruct (load_map load m [] (st_heap s)) as [d h']. cbn [fst snd] in *.
  subst h'. exists (ext ++ [d]). unfold bind at 1. unfold getitem.
  cbn [st_heap with_heap].
  rewrite (list_lookup_middle (st_heap s ++ ext) [] d _ eq_refl), G.
  unfold bind at 1. unfold setitem.
  destruct (fst (load y (st_heap s ++ ext0))); try (now rewrite <- app_assoc).
  exfalso. eapply Hv. reflexivity.
Qed.

(** With a [config.yaml] whose root is a mapping, the script also puts
    under [setup_env_script] the folder it runs in, followed by
    [/../miniconda/bin/activate], whatever the file had there. *)
Lemma config_section_env e m r children s :
  config_yaml e = Some (YMap m) ->
  yaml_get "root" m = Some (YMap r) ->
  exists config root ext droot,
    config_section e children s = Ok config (with_heap (st_heap s ++ ext) s) /\
    heap_path (st_heap s ++ ext) config ["root"] = Some (VRef root) /\
    (st_heap s ++ ext) !! root = Some droot /\
    dict_get "children" droot = Some children /\
    dict_get "setup_env_script" droot =
      Some (VStr (path_str (st_cwd s) +:+ "/../miniconda/bin/activate")).
Proof.
  intros Hy Hroot. unfold config_section, load_config. rewrite Hy.
  unfold bind at 1. cbn [load]. fold (load_map load).
  pose proof (load_map_get "root" m [] (st_heap s)) as G. rewrite Hroot in G.
  destruct G as (ext0 & ext1 & G1 & G2).
  destruct (load_map load m [] (st_heap s)) as [d h'] eqn:E. cbn [fst snd] in G1, G2.
  cbn [load] in G1, G2. fold (load_map load) in G1, G2.
  destruct (load_entries_extends r [] (st_heap s ++ ext0)) as [ext2 E2].
  destruct (load_map load r [] (st_heap s ++ ext0)) as [dr hr]. cbn [fst snd] in *.
  subst hr. set (h0 := st_heap s) in *.
  set (lr := length (h0 ++ ext0 ++ ext2)).
  rewrite <- app_assoc in G1, G2. fold lr in G2.
  assert (EH : h' ++ [d] = (h0 ++ ext0 ++ ext2) ++ dr :: (ext1 ++ [d])).
  { rewrite G1. now rewrite <- !app_assoc. }
  assert (Hlc : (h' ++ [d]) !! length h' = Some d) by (now apply list_lookup_middle).
  assert (Hlr : (h' ++ [d]) !! lr = Some dr) by (rewrite EH; now apply list_lookup_middle).
  assert (Hne : lr <> length h').
  { apply (f_equal length) in EH. unfold lr. rewrite !length_app in *.
    cbn [length] in EH. rewrite !length_app in EH. cbn [length] in EH. lia. }
  set (D1 := dict_set "children" children dr).
  set (D2 := dict_set "setup_env_script"
               (VStr (path_str (st_cwd s) +:+ "/../miniconda/bin/activate")) D1).
  exists (VRef (length h')), lr,
    (ext0 ++ ext2 ++ D2 :: (ext1 ++ [d])), D2.
  assert (EF : <[lr := D2]> (h' ++ [d]) = h0 ++ ext0 ++ ext2 ++ D2 :: ext1 ++ [d]).
  { rewrite EH. unfold lr. rewrite insert_app_r_alt by lia. rewrite Nat.sub_diag.
    cbn [insert list_insert]. now rewrite <- !app_assoc. }
  split.
  { unfold bind, getitem, setitem, getcwd, get_state, ret. unfold bind.
    cbn [st_heap with_heap st_cwd]. rewrite Hlc, G2.
    cbn [st_heap with_heap st_cwd]. rewrite Hlr.
    cbn [st_heap with_heap st_cwd].
    rewrite list_lookup_insert_ne by exact Hne. rewrite Hlc, G2.
    cbn [st_heap with_heap st_cwd].
    rewrite list_lookup_insert_eq by (apply lookup_lt_Some in Hlr; exact Hlr).
    cbn [st_heap with_heap st_cwd st_stdin st_fs st_calls].
    rewrite list_insert_insert_eq. fold D1 D2. rewrite EF. reflexivity. }
  rewrite <- EF.
  split.
  { cbn [heap_path]. rewrite list_lookup_insert_ne by exact Hne. now rewrite Hlc, G2. }
  split.
  { apply list_lookup_insert_eq. apply lookup_lt_Some in Hlr. exact Hlr. }
  split.
  { unfold D2. rewrite dict_get_set_ne by discriminate. apply dict_get_set_eq. }
  apply dict_get_set_eq.
Qed.

(** *** Lines 291-298, on the other filesystems *)

Lemma split_slash_study : split_slash ("scans/" +:+ study_name) = ["scans"; study_name].
Proof. reflexivity. Qed.

Lemma scans_ne_study (cwd : path) : cwd ++ ["scans"; study_name] <> cwd ++ ["scans"].
Proof. intros E. apply app_inv_head in E. discriminate. Qed.

(** The state of the script on another filesystem. *)
Lemma materialize_target_file e config s :
  fs_lookup (st_cwd s ++ ["scans"; study_name]) (st_fs s) = Some File ->
  materialize e config s = Raise (OSError "NotADirectoryError") s.
Proof.
  intros Ht. unfold materialize.
  assert (E1 : path_exists ("scans/" +:+ study_name) s = Ok true s).
  { unfold path_exists, bind, get_state, ret. rewrite resolve_study. now rewrite Ht. }
  rewrite (bind_Ok _ _ _ _ _ E1). cbn [negb].
  rewrite (bind_Ok (ret tt) _ s tt s eq_refl).
  apply bind_Raise. unfold chdir, bind, get_state. rewrite resolve_study. now rewrite Ht.
Qed.

Lemma materialize_scans_file e config s :
  fs_lookup (st_cwd s ++ ["scans"; study_name]) (st_fs s) = None ->
  fs_lookup (st_cwd s ++ ["scans"]) (st_fs s) = Some File ->
  materialize e config s = Raise (OSError "NotADirectoryError") s.
Proof.
  intros Ht Hs. unfold materialize.
  assert (E1 : path_exists ("scans/" +:+ study_name) s = Ok false s).
  { unfold path_exists, bind, get_state, ret. rewrite resolve_study. now rewrite Ht. }
  rewrite (bind_Ok _ _ _ _ _ E1). cbn [negb].
  apply bind_Raise. unfold makedirs, bind, get_state. rewrite split_slash_study.
  cbn [mkdirs]. now rewrite Hs.
Qed.

(** On a filesystem without the folder of the study, the script makes
    it, with [scans] when it is not there, and goes on as it does when
    the folder is there. *)
Lemma materialize_fresh e config s :
  let scans := st_cwd s ++ ["scans"] in
  let target := st_cwd s ++ ["scans"; study_name] in
  let made :=
    fs_add target Dir
      (match fs_lookup scans (st_fs s) with
       | None => fs_add scans Dir (st_fs s)
       | Some _ => st_fs s
       end) in
  fs_lookup target (st_fs s) = None ->
  fs_lookup scans (st_fs s) <> Some File ->
  materialize e config s =
  materialize e config
    {| st_heap := st_heap s; st_stdin := st_stdin s; st_cwd := st_cwd s; st_fs := made;
       st_calls := st_calls s |}.
Proof.
  intros scans target made Ht Hs.
  set (s1 := {| st_heap := st_heap s; st_stdin := st_stdin s; st_cwd := st_cwd s;
                st_fs := made; st_calls := st_calls s |}).
  assert (Hmade : fs_lookup target made = Some Dir).
  { unfold made. rewrite fs_lookup_add.
    match goal with |- context [@decide ?P ?dec] => now destruct (@decide P dec) end. }
  assert (Etarget : scans ++ [study_name] = target).
  { unfold target, scans. now rewrite <- app_assoc. }
  unfold materialize.
  assert (E1 : path_exists ("scans/" +:+ study_name) s = Ok false s).
  { unfold path_exists, bind, get_state, ret. rewrite resolve_study. fold target.
    now rewrite Ht. }
  assert (E1' : path_exists ("scans/" +:+ study_name) s1 = Ok true s1).
  { unfold path_exists, bind, get_state, ret. rewrite resolve_study.
    cbn [s1 st_cwd st_fs]. fold target. now rewrite Hmade. }
  rewrite (bind_Ok _ _ _ _ _ E1), (bind_Ok _ _ _ _ _ E1'). cbn [negb].
  rewrite (bind_Ok (ret tt) _ s1 tt s1 eq_refl).
  rewrite (bind_Ok (makedirs _) _ s tt s1); [reflexivity|].
  unfold makedirs, bind, get_state. rewrite split_slash_study.
  cbn [mkdirs]. fold scans. rewrite Etarget.
  destruct (fs_lookup scans (st_fs s)) as [[|]|] eqn:Es.
  - now destruct Hs.
  - rewrite Ht. reflexivity.
  - rewrite fs_lookup_add.
    match goal with
    | |- context [@decide ?P ?dec] =>
        destruct (@decide P dec) as [D|_]; [now apply scans_ne_study in D|]
    end.
    rewrite Ht. reflexivity.
Qed.

(** *** Counting the leaves *)

Lemma length_filter_enumerate {A} (p : A -> bool) (l : list A) :
  length (List.filter (fun it => p (snd it)) (enumerate l)) = length (List.filter p l).
Proof.
  unfold enumerate. generalize 0.
  induction l as [|x l IH]; intros s; [reflexivity|].
  cbn [length seq combine List.filter snd].
  destruct (p x); cbn [length]; now rewrite IH.
Qed.

Lemma length_filter_product3 {A B C} (q : B * C -> bool)
    (la : list A) (lb : list B) (lc : list C) :
  length (List.filter (fun abc => q (snd (fst abc), snd abc)) (product3 la lb lc)) =
  length la * length (List.filter q (list_prod lb lc)).
Proof.
  unfold product3.
  induction la as [|a la IH]; [reflexivity|].
  cbn [flat_map length]. rewrite List.filter_app, length_app, IH.
  cbn [Nat.mul]. f_equal. clear IH.
  induction lb as [|b lb IH]; [reflexivity|].
  cbn [flat_map list_prod]. rewrite !List.filter_app, !length_app, IH. f_equal.
  clear IH. induction lc as [|c lc IH]; [reflexivity|].
  cbn [map List.filter fst snd]. destruct (q (b, c)); cbn [length]; now rewrite IH.
Qed.

(** The script makes one leaf per split and kept pair of tunes. *)
Lemma length_leaves sp :
  length (leaves sp) =
  n_split sp *
  length (List.filter
            (fun q => negb (only_keep_upper_triangle sp && below_upper_diagonal (fst q) (snd q)))
            (list_prod (array_qx sp) (array_qy sp))).
Proof.
  unfold leaves, kept, grid, keep. rewrite length_map.
  etransitivity.
  { exact (length_filter_enumerate
             (fun y : nat * float * float =>
                negb (only_keep_upper_triangle sp &&
                      below_upper_diagonal (snd (fst y)) (snd y))) _). }
  etransitivity.
  { exact (length_filter_product3
             (fun q => negb (only_keep_upper_triangle sp &&
                             below_upper_diagonal (fst q) (snd q))) _ _ _). }
  now rewrite List.length_seq.
Qed.

Lemma sorted_NoDup (l : list nat) : StronglySorted lt l -> List.NoDup l.
Proof.
  induction 1 as [|x l _ IH Hx]; constructor; [|exact IH].
  intros Hin. apply (proj1 (List.Forall_forall _ _) Hx) in Hin. lia.
Qed.

Lemma NoDup_map_injective {A B} (g : A -> B) (l : list A) :
  (forall x y, g x = g y -> x = y) -> List.NoDup l -> List.NoDup (map g l).
Proof.
  intros Hg. induction 1 as [|x l Hx _ IH]; cbn [map]; constructor; [|exact IH].
  intros Hin. apply in_map_iff in Hin as [y [E Hy]]. apply Hg in E. now subst.
Qed.

(** No two leaves have the same key. *)
Lemma NoDup_leaf_keys sp : List.NoDup (map lv_key (leaves sp)).
Proof.
  unfold leaves. rewrite map_map.
  replace (map (fun x => lv_key (leaf_of x)) (kept sp))
    with (map leaf_key (map fst (kept sp))) by (now rewrite map_map).
  apply NoDup_map_injective.
  - intros i j. apply leaf_key_inj.
  - apply sorted_NoDup, kept_sorted.
Qed.

(** *** What lines 291-314 leave alone *)

Lemma bind_frame {A C} (m : G A) (k : A -> G C) :
  (forall s, st_heap (final (m s)) = st_heap s /\ st_stdin (final (m s)) = st_stdin s) ->
  (forall a s, st_heap (final (k a s)) = st_heap s /\ st_stdin (final (k a s)) = st_stdin s) ->
  forall s, st_heap (final (bind m k s)) = st_heap s /\
            st_stdin (final (bind m k s)) = st_stdin s.
Proof.
  intros Hm Hk s. unfold bind. specialize (Hm s).
  destruct (m s) as [a s1|ex s1]; cbn [final] in *; [|exact Hm].
  destruct (Hk a s1) as [H1 H2]. destruct Hm as [H3 H4]. split; congruence.
Qed.

Lemma move_frame_heap src dst s :
  st_heap (final (move src dst s)) = st_heap s /\
  st_stdin (final (move src dst s)) = st_stdin s.
Proof.
  unfold move, bind, get_state, put_fs, raise.
  destruct (fs_lookup (resolve (st_cwd s) src) (st_fs s)); [|auto].
  destruct (fs_lookup (resolve (st_cwd s) dst) (st_fs s)) as [[|]|]; auto.
  destruct (fs_lookup _ (st_fs s)); auto.
Qed.

(** The folders and tree_maker are filesystem matters: the objects of
    the script and the lines left on the input are not touched. *)
Lemma materialize_frame e config s :
  st_heap (final (materialize e config s)) = st_heap s /\
  st_stdin (final (materialize e config s)) = st_stdin s.
Proof.
  revert s. unfold materialize.
  apply bind_frame.
  { intros s. unfold path_exists, bind, get_state, ret. auto. }
  intros ex. apply bind_frame.
  { intros s. destruct (negb ex); [|unfold ret; auto].
    unfold makedirs, bind, get_state, put_fs, raise.
    destruct (mkdirs _ _ _); auto. }
  intros _. apply bind_frame.
  { intros s. unfold chdir, bind, get_state, put_cwd, raise.
    destruct (fs_lookup _ _) as [[|]|]; auto. }
  intros _. apply bind_frame.
  { intros s. rewrite tree_maker_call_run. destruct (tm_initialize _ _ _ _ _); auto. }
  intros _. apply bind_frame.
  { intros s. unfold get_state. auto. }
  intros s0. apply bind_frame.
  { intros s. rewrite tree_maker_call_run. destruct (tm_make_folders _ _ _ _ _); auto. }
  intros _. apply bind_frame.
  { intros s. apply move_frame_heap. }
  intros _ s. apply move_frame_heap.
Qed.

(** On a filesystem with the folder of the study, the script enters it
    and the first thing it does there is the call of [initialize]. *)
Lemma materialize_existing_calls e config s :
  fs_lookup (st_cwd s ++ ["scans"; study_name]) (st_fs s) = Some Dir ->
  st_cwd (final (materialize e config s)) = st_cwd s ++ ["scans"; study_name] /\
  exists more,
    st_calls (final (materialize e config s)) = st_calls s ++ Initialize config :: more.
Proof.
  intros Ht. pose proof (materialize_existing e config s Ht) as E. cbv zeta in E.
  rewrite E. clear E.
  destruct (tm_initialize _ _ _ _ _) as [f1|]; [|cbn [final st_cwd st_calls]; eauto].
  destruct (tm_make_folders _ _ _ _ _) as [f2|]; [|cbn [final st_cwd st_calls]; eauto].
  match goal with
  | |- context [bind (move ?a ?b) (fun _ => move ?c ?d) ?s1] =>
      destruct (moves_frame a b c d s1) as [Hc Hl]; rewrite Hc, Hl
  end.
  cbn [st_cwd st_calls]. eauto.
Qed.

End GenFacts.

(** ** What the job of the base node does *)

Module BuildFacts.
Import Py Script Gen GenModel GenFacts Build BuildModel Sample.
Local Open Scope script_scope.

(** *** Computations that only add harmless events *)

Section Emits.
Variable fails : nat -> bool.
Variable P : event -> Prop.

Lemma emits_ret {A} (a : A) : emits P (ret a).
Proof. intros tr. exists []. cbn. now rewrite app_nil_r. Qed.

Lemma emits_raise {A} ex : emits P (@raise trace A ex).
Proof. intros tr. exists []. cbn. now rewrite app_nil_r. Qed.

Lemma emits_bind {A C} (m : B A) (k : A -> B C) :
  emits P m -> (forall a, emits P (k a)) -> emits P (bind m k).
Proof.
  intros Hm Hk tr. unfold bind. destruct (Hm tr) as [s1 [E1 F1]].
  destruct (m tr) as [a tr1|ex tr1]; cbn [final] in E1; subst tr1.
  - destruct (Hk a (tr ++ s1)) as [s2 [E2 F2]].
    exists (s1 ++ s2). rewrite E2, app_assoc. split; [reflexivity|].
    apply Forall_app; auto.
  - exists s1. auto.
Qed.

Lemma emits_effect ev : P ev -> emits P (effect fails ev).
Proof.
  intros HP tr. unfold effect. destruct (fails (length tr)).
  - exists []. cbn. now rewrite app_nil_r.
  - exists [ev]. cbn. auto.
Qed.

Lemma emits_yget y k : emits P (yget y k).
Proof.
  unfold yget. destruct y; try apply emits_raise.
  destruct (yaml_get k m); [apply emits_ret|apply emits_raise].
Qed.

Lemma emits_yint y : emits P (yint y).
Proof. destruct y; cbn [yint]; try apply emits_raise; apply emits_ret. Qed.

Lemma emits_ynumber y : emits P (ynumber y).
Proof. destruct y; cbn [ynumber]; try apply emits_raise; apply emits_ret. Qed.

Lemma emits_linspace_len n : emits P (linspace_len n).
Proof. unfold linspace_len. destruct (n <? 0)%Z; [apply emits_raise|apply emits_ret]. Qed.

Lemma emits_array_split l n : emits P (array_split l n).
Proof. unfold array_split. destruct (n <=? 0)%Z; [apply emits_raise|apply emits_ret]. Qed.

Lemma emits_yitems y : emits P (yitems y).
Proof. destruct y; cbn [yitems]; try apply emits_raise; apply emits_ret. Qed.

Lemma emits_for_each {A} (l : list A) (body : A -> B unit) :
  (forall x, emits P (body x)) -> emits P (for_each l body).
Proof.
  intros Hb. induction l as [|x l IH]; cbn [for_each]; [apply emits_ret|].
  apply emits_bind; auto.
Qed.

Lemma emits_tuning_targets conf line : emits P (tuning_targets conf line).
Proof.
  unfold tuning_targets.
  repeat (apply emits_bind; [apply emits_yget|intros]). apply emits_ret.
Qed.

Lemma emits_leveling_condition cc : emits P (leveling_condition cc).
Proof.
  unfold leveling_condition. destruct (ymem _ _); [|apply emits_ret].
  apply emits_bind; [apply emits_yget|intros; apply emits_ret].
Qed.

End Emits.

(** One step of the proof that a script only adds events satisfying the
    property at hand: the events of the script are checked by
    computation. *)
Ltac emits_step :=
  first
    [ apply emits_ret | apply emits_raise | apply emits_yget | apply emits_yint
    | apply emits_ynumber | apply emits_linspace_len | apply emits_array_split
    | apply emits_yitems | apply emits_tuning_targets | apply emits_leveling_condition
    | apply emits_effect; cbn; solve [reflexivity | discriminate | auto]
    | apply emits_for_each; intros
    | apply emits_bind; [|intros]
    | match goal with
      | |- emits _ (let '(_, _) := ?x in _) => destruct x
      | |- emits _ (if ?c then _ else _) => destruct c
      end ].

Ltac emits_auto := repeat emits_step.

(** What the job does between its two tags adds no terminal tag. *)
Lemma work_no_terminal_tag fails cp cc :
  emits (fun ev => terminal_tag ev = false) (work fails cp cc).
Proof.
  unfold work, build_distribution, write_correction, build_collider, install_beambeam,
    knobs_and_tuning, leveling.
  emits_auto.
Qed.

(** *** The tags of a run *)

Section Tags.
Variable fails : nat -> bool.

Lemma ends_job_bind {A} (m : B A) (k : A -> B unit) :
  emits (fun ev => terminal_tag ev = false) m -> (forall a, ends_job (k a)) ->
  ends_job (bind m k).
Proof.
  intros Hm Hk tr Htr. unfold bind. destruct (Hm tr) as [s1 [E1 F1]].
  destruct (m tr) as [a tr1|ex tr1]; cbn [final] in E1; subst tr1.
  - apply Hk. apply Forall_app; auto.
  - apply Forall_app; auto.
Qed.

Lemma ends_job_completed log_file : ends_job (effect fails (Tag log_file "completed")).
Proof.
  intros tr Htr. unfold effect. destruct (fails (length tr)); [exact Htr|].
  exists tr, log_file. auto.
Qed.

Lemma ends_job_raise ex : ends_job (raise ex).
Proof. intros tr Htr. exact Htr. Qed.

(** The only terminal tag of the job is the [completed] of its last
    line. *)
Lemma build_job_ends_job configuration : ends_job (build_job fails configuration).
Proof.
  unfold build_job.
  apply ends_job_bind; [emits_auto|intros _].
  apply ends_job_bind; [emits_auto|intros config_particles].
  apply ends_job_bind; [emits_auto|intros config_collider].
  apply ends_job_bind; [emits_auto|intros _].
  apply ends_job_bind; [apply work_no_terminal_tag|intros _].
  apply ends_job_bind; [emits_auto|intros log_file].
  apply ends_job_completed.
Qed.

(** The tags of the job are [started] and [completed]. *)
Lemma build_job_tags configuration :
  emits (fun ev => match ev with
                   | Tag _ tag => tag = "started" \/ tag = "completed"
                   | _ => True
                   end) (build_job fails configuration).
Proof.
  unfold build_job, work, build_distribution, write_correction, build_collider,
    install_beambeam, knobs_and_tuning, leveling.
  emits_auto.
Qed.

(** With a log file, the job tags [started] right after reading its
    configuration. *)
Lemma build_job_started m log_file :
  yaml_get "log_file" m = Some log_file ->
  final (build_job fails (YMap m) []) = [] \/
  final (build_job fails (YMap m) []) = [ReadConfig] \/
  exists rest, final (build_job fails (YMap m) []) = ReadConfig :: Tag log_file "started" :: rest.
Proof.
  intros Hlog.
  remember (build_job fails (YMap m) []) as o eqn:Ho.
  unfold build_job in Ho.
  unfold bind at 1 in Ho. unfold effect at 1 in Ho. cbn [length] in Ho.
  destruct (fails 0); [subst o; now left|]. right. cbn [app] in Ho.
  unfold bind at 1 in Ho. unfold yget at 1 in Ho.
  destruct (yaml_get "config_particles" m) as [cp|]; [|subst o; now left].
  unfold ret at 1 in Ho. unfold bind at 1 in Ho. unfold yget at 1 in Ho.
  destruct (yaml_get "config_collider" m) as [cc|]; [|subst o; now left].
  unfold ret at 1 in Ho. unfold ymem in Ho. rewrite Hlog in Ho.
  unfold bind at 1 in Ho. unfold bind at 1 in Ho. unfold yget at 1 in Ho.
  rewrite Hlog in Ho. unfold ret at 1 in Ho.
  unfold effect at 1 in Ho. cbn [length] in Ho.
  destruct (fails 1); [subst o; now left|]. right. cbn [app] in Ho.
  assert (E : emits (fun _ => True)
                (work fails cp cc ;;; lf <- yget (YMap m) "log_file" ;;
                 effect fails (Tag lf "completed"))).
  { unfold work, build_distribution, write_correction, build_collider,
      install_beambeam, knobs_and_tuning, leveling. emits_auto. }
  destruct (E [ReadConfig; Tag log_file "started"]) as [suffix [Es _]].
  exists suffix. subst o. exact Es.
Qed.

End Tags.

(** *** The job does not read [skip_leveling_base_collider] *)

Lemma yaml_get_filter_ne k k' m :
  k <> k' ->
  yaml_get k' (List.filter (fun kv => negb (String.eqb k (fst kv))) m) = yaml_get k' m.
Proof.
  intros Hne. induction m as [|[k0 y] m IH]; [reflexivity|].
  cbn [List.filter fst yaml_get].
  destruct (String.eqb k k0) eqn:E; cbn [negb].
  - apply String.eqb_eq in E. subst k0. rewrite IH.
    destruct (yaml_get k' m); [reflexivity|].
    destruct (String.eqb k' k) eqn:E'; [|reflexivity].
    apply String.eqb_eq in E'. congruence.
  - cbn [yaml_get]. now rewrite IH.
Qed.

(** Setting a key changes the reading of no other key. *)
Lemma yaml_get_set_ne k k' v m : k <> k' -> yaml_get k' (yaml_set k v m) = yaml_get k' m.
Proof.
  intros Hne. induction m as [|[k0 y] m IH].
  - cbn [yaml_set yaml_get]. destruct (String.eqb k' k) eqn:E; [|reflexivity].
    apply String.eqb_eq in E. congruence.
  - cbn [yaml_set]. destruct (String.eqb k k0) eqn:E.
    + apply String.eqb_eq in E. subst k0. cbn [yaml_get].
      rewrite yaml_get_filter_ne by exact Hne.
      destruct (yaml_get k' m); [reflexivity|].
      destruct (String.eqb k' k) eqn:E'; [|reflexivity].
      apply String.eqb_eq in E'. congruence.
    + cbn [yaml_get]. now rewrite IH.
Qed.

Lemma yaml_get_filter_eq k m :
  yaml_get k (List.filter (fun kv => negb (String.eqb k (fst kv))) m) = None.
Proof.
  induction m as [|[k0 y] m IH]; [reflexivity|].
  cbn [List.filter fst]. destruct (String.eqb k k0) eqn:E; cbn [negb]; [exact IH|].
  cbn [yaml_get]. now rewrite IH, E.
Qed.

Lemma yaml_get_set_eq k v m : yaml_get k (yaml_set k v m) = Some v.
Proof.
  induction m as [|[k0 y] m IH].
  - cbn [yaml_set yaml_get]. now rewrite String.eqb_refl.
  - cbn [yaml_set]. destruct (String.eqb k k0) eqn:E.
    + cbn [yaml_get]. now rewrite yaml_get_filter_eq, String.eqb_refl.
    + cbn [yaml_get]. now rewrite IH.
Qed.

Lemma yget_set_ne k k' v m :
  k <> k' -> yget (YMap (yaml_set k v m)) k' = yget (YMap m) k'.
Proof. intros Hne. unfold yget. now rewrite yaml_get_set_ne. Qed.

Lemma ymem_set_ne k k' v m :
  k <> k' -> ymem k' (YMap (yaml_set k v m)) = ymem k' (YMap m).
Proof. intros Hne. unfold ymem. now rewrite yaml_get_set_ne. Qed.

Lemma bind_cong {S A C} (m1 m2 : M S A) (k1 k2 : A -> M S C) s :
  (forall s, m1 s = m2 s) -> (forall a s, k1 a s = k2 a s) ->
  bind m1 k1 s = bind m2 k2 s.
Proof. intros Hm Hk. unfold bind. rewrite Hm. destruct (m2 s); auto. Qed.

Lemma bind_ret {S A C} (a : A) (k : A -> M S C) s : bind (ret a) k s = k a s.
Proof. reflexivity. Qed.

Section Flag.
Variable fails : nat -> bool.

(** Line 173 reads [config_lumi_leveling] and [skip_leveling] only. *)
Lemma leveling_condition_ignores_flag v cc tr :
  leveling_condition (YMap (yaml_set "skip_leveling_base_collider" v cc)) tr =
  leveling_condition (YMap cc) tr.
Proof.
  unfold leveling_condition.
  rewrite ymem_set_ne by discriminate. now rewrite yget_set_ne by discriminate.
Qed.

Ltac same_run :=
  repeat first
    [ reflexivity
    | rewrite yget_set_ne by discriminate
    | rewrite ymem_set_ne by discriminate
    | apply leveling_condition_ignores_flag
    | apply bind_cong; intros
    | match goal with |- (if ?c then _ else _) _ = _ => destruct c end ].

(** The work of the job is the same whatever stands under
    [skip_leveling_base_collider]. *)
Lemma work_ignores_flag v cp cc tr :
  work fails cp (YMap (yaml_set "skip_leveling_base_collider" v cc)) tr =
  work fails cp (YMap cc) tr.
Proof.
  unfold work, build_collider, leveling. same_run.
Qed.

(** So is the whole job. *)
Lemma build_job_ignores_flag v configuration tr :
  build_job fails (with_skip_flag v configuration) tr = build_job fails configuration tr.
Proof.
  unfold with_skip_flag.
  destruct configuration as [| | | | | |m]; try reflexivity.
  destruct (yaml_get "config_collider" m) as [[| | | | | |cc]|] eqn:Ecc; try reflexivity.
  assert (H1 : yget (YMap (yaml_set "config_collider"
                             (YMap (yaml_set "skip_leveling_base_collider" v cc)) m))
                    "config_collider" =
               ret (YMap (yaml_set "skip_leveling_base_collider" v cc))).
  { unfold yget. now rewrite yaml_get_set_eq. }
  assert (H2 : yget (YMap m) "config_collider" = ret (YMap cc)).
  { unfold yget. now rewrite Ecc. }
  unfold build_job.
  apply bind_cong; [reflexivity|intros _ tr1].
  rewrite yget_set_ne by discriminate.
  apply bind_cong; [reflexivity|intros cp tr2].
  rewrite H1, H2, !bind_ret.
  rewrite ymem_set_ne by discriminate.
  rewrite !(yget_set_ne "config_collider" "log_file") by discriminate.
  apply bind_cong; [reflexivity|intros _ tr3].
  apply bind_cong; [intros; apply work_ignores_flag|reflexivity].
Qed.

End Flag.

(** *** The files a completed run has written *)

Lemma bind_Ok_inv {S A C} (m : M S A) (k : A -> M S C) s c s'' :
  bind m k s = Ok c s'' -> exists a s', m s = Ok a s' /\ k a s' = Ok c s''.
Proof. unfold bind. destruct (m s) as [a s'|ex s']; [eauto|discriminate]. Qed.

Lemma emits_Ok {A} P (m : B A) tr a tr' :
  emits P m -> m tr = Ok a tr' -> exists suffix, tr' = tr ++ suffix /\ Forall P suffix.
Proof. intros Hm E. destruct (Hm tr) as [s [Es F]]. rewrite E in Es. eauto. Qed.

Lemma parquet_files_app tr1 tr2 :
  parquet_files (tr1 ++ tr2) = parquet_files tr1 ++ parquet_files tr2.
Proof. unfold parquet_files. apply flat_map_app. Qed.

Lemma parquet_files_none suffix : Forall no_parquet suffix -> parquet_files suffix = [].
Proof.
  induction 1 as [|ev suffix Hev _ IH]; [reflexivity|].
  cbn [parquet_files flat_map]. fold (parquet_files suffix). rewrite IH.
  destruct ev; try reflexivity. destruct Hev.
Qed.

Lemma emits_parquet_files {A} (m : B A) tr a tr' :
  m tr = Ok a tr' -> emits no_parquet m -> parquet_files tr' = parquet_files tr.
Proof.
  intros E Hm. destruct (emits_Ok _ _ _ _ _ Hm E) as [s [-> F]].
  now rewrite parquet_files_app, (parquet_files_none _ F), app_nil_r.
Qed.

Section Outputs.
Variable fails : nat -> bool.

Lemma effect_Ok_inv ev tr tr' : effect fails ev tr = Ok tt tr' -> tr' = tr ++ [ev].
Proof. unfold effect. destruct (fails (length tr)); [discriminate|congruence]. Qed.

(** A loop of writes that returns has written everything, in order. *)
Lemma for_each_effect_Ok {A} (g : A -> event) (l : list A) : forall tr tr',
  for_each l (fun x => effect fails (g x)) tr = Ok tt tr' -> tr' = tr ++ map g l.
Proof.
  induction l as [|x l IH]; intros tr tr' H.
  - cbn in H. injection H as <-. now rewrite app_nil_r.
  - cbn [for_each] in H. apply bind_Ok_inv in H as ([] & tr1 & H1 & H2).
    apply effect_Ok_inv in H1. subst tr1. apply IH in H2. subst tr'.
    now rewrite <- app_assoc.
Qed.

Lemma length_chunks_of sizes l : length (chunks_of sizes l) = length sizes.
Proof.
  revert l. induction sizes as [|n sizes IH]; intros l; [reflexivity|].
  cbn [chunks_of length]. now rewrite IH.
Qed.

(** [np.array_split] returns as many chunks as asked for. *)
Lemma array_split_Ok l n tr chunks tr' :
  array_split l n tr = Ok chunks tr' -> (0 < n)%Z /\ length chunks = Z.to_nat n /\ tr' = tr.
Proof.
  unfold array_split. destruct (n <=? 0)%Z eqn:E; [discriminate|].
  apply Z.leb_gt in E. intros H. injection H as <- <-.
  split; [exact E|]. split; [|reflexivity].
  rewrite length_chunks_of, length_app, !repeat_length.
  assert (length l mod Z.to_nat n < Z.to_nat n) by (apply Nat.mod_upper_bound; lia).
  lia.
Qed.

Lemma yget_Ok m k v tr tr' :
  yget (YMap m) k tr = Ok v tr' -> yaml_get k m = Some v /\ tr' = tr.
Proof.
  unfold yget. destruct (yaml_get k m); [|discriminate].
  intros H. injection H as <- <-. auto.
Qed.

Lemma yint_Ok z x tr tr' : yint (YInt z) tr = Ok x tr' -> x = z /\ tr' = tr.
Proof. intros H. injection H as <- <-. auto. Qed.

(** Lines 37-63, when they return, have written one parquet file per
    split, numbered from 00. *)
Lemma build_distribution_Ok cpm n tr tr' :
  yaml_get "n_split" cpm = Some (YInt n) ->
  build_distribution fails (YMap cpm) tr = Ok tt tr' ->
  (0 < n)%Z /\
  parquet_files tr' = parquet_files tr ++ map parquet_file (seq 0 (Z.to_nat n)).
Proof.
  intros Hn H. unfold build_distribution in H.
  do 10 (apply bind_Ok_inv in H as (? & ? & H0 & H);
         apply emits_parquet_files in H0; [rewrite <- H0; clear H0|emits_auto]).
  apply bind_Ok_inv in H as (y & tr1 & H0 & H).
  apply yget_Ok in H0 as [H0 ->]. rewrite Hn in H0. injection H0 as <-.
  apply bind_Ok_inv in H as (z & tr1 & H0 & H). apply yint_Ok in H0 as [-> ->].
  apply bind_Ok_inv in H as (chunks & tr1 & H0 & H).
  apply array_split_Ok in H0 as [Hpos [Hlen ->]].
  apply bind_Ok_inv in H as ([] & tr1 & H0 & H). apply effect_Ok_inv in H0. subst tr1.
  split; [exact Hpos|].
  assert (E : forall tr0,
    for_each (combine (seq 0 (length chunks)) chunks)
      (fun '(idx_chunk, my_list) => effect fails (WriteParquet (parquet_file idx_chunk) my_list))
      tr0 =
    for_each (combine (seq 0 (length chunks)) chunks)
      (fun x => effect fails (WriteParquet (parquet_file (fst x)) (snd x))) tr0).
  { intros tr0. generalize (combine (seq 0 (length chunks)) chunks). intros l. revert tr0.
    induction l as [|[i c] l IH]; intros tr0; [reflexivity|].
    cbn [for_each fst snd]. unfold bind. destruct (effect _ _ _); auto. }
  rewrite E in H. apply for_each_effect_Ok in H. subst tr'.
  rewrite !parquet_files_app. cbn [parquet_files flat_map app].
  rewrite app_nil_r. f_equal.
  rewrite <- Hlen. clear. generalize 0.
  induction chunks as [|c chunks IH]; intros s; [reflexivity|].
  cbn [length seq combine map fst snd].
  change (parquet_files (?ev :: ?l)) with (parquet_files [ev] ++ parquet_files l).
  cbn [parquet_files flat_map app]. f_equal. apply IH.
Qed.

End Outputs.

(** *** The files of a completed job *)

Lemma json_files_app tr1 tr2 : json_files (tr1 ++ tr2) = json_files tr1 ++ json_files tr2.
Proof. unfold json_files. apply flat_map_app. Qed.

(** The path of a chunk of particles, seen from the folder [dir] of the
    job. *)
Lemma resolve_parquet_file dir t :
  resolve dir (parquet_file t) = dir ++ ["particles"; format_0w 2 t +:+ ".parquet"].
Proof.
  unfold resolve, parquet_file, distributions_folder.
  rewrite !split_slash_app by reflexivity.
  rewrite split_slash_no_slash by (apply no_slash_app; [apply no_slash_format|reflexivity]).
  rewrite walk_name by (cbn; lia).
  rewrite walk_name by (rewrite string_length_app; cbn; lia).
  cbn [walk]. now rewrite <- app_assoc.
Qed.

Lemma resolve_collider_json dir :
  resolve dir "collider/collider.json" = dir ++ ["collider"; "collider.json"].
Proof.
  unfold resolve.
  change (split_slash "collider/collider.json") with ["collider"; "collider.json"].
  rewrite !walk_name by (cbn; lia).
  cbn [walk]. now rewrite <- app_assoc.
Qed.

Section Completed.
Variable fails : nat -> bool.

Ltac quiet H H0 :=
  apply bind_Ok_inv in H as (? & ? & H0 & H);
  apply emits_parquet_files in H0;
  [rewrite <- H0; clear H0
  |unfold write_correction, build_collider, install_beambeam, knobs_and_tuning, leveling;
   emits_auto].

(** Lines 26-215, when they return, have written the chunks of particles
    and, last, the collider. *)
Lemma work_Ok cpm cc n tr tr' :
  yaml_get "n_split" cpm = Some (YInt n) ->
  work fails (YMap cpm) cc tr = Ok tt tr' ->
  (0 < n)%Z /\
  parquet_files tr' = parquet_files tr ++ map parquet_file (seq 0 (Z.to_nat n)) /\
  exists pre, tr' = pre ++ [WriteJson "collider/collider.json"].
Proof.
  intros Hn H. unfold work in H.
  apply bind_Ok_inv in H as ([] & tr1 & H0 & H).
  apply (build_distribution_Ok _ _ _ _ _ Hn) in H0 as [Hpos <-].
  split; [exact Hpos|].
  do 9 quiet H H0.
  apply effect_Ok_inv in H. subst tr'. split; [|eauto].
  rewrite parquet_files_app. cbn [parquet_files flat_map app]. now rewrite app_nil_r.
Qed.

(** A job that completes, run on a configuration whose [n_split] is [n],
    has written the [n] chunks [particles/00.parquet], ... and
    [collider/collider.json]. *)
Lemma build_job_Ok m cpm n tr tr' :
  yaml_get "config_particles" m = Some (YMap cpm) ->
  yaml_get "n_split" cpm = Some (YInt n) ->
  build_job fails (YMap m) tr = Ok tt tr' ->
  (0 < n)%Z /\
  parquet_files tr' = parquet_files tr ++ map parquet_file (seq 0 (Z.to_nat n)) /\
  In "collider/collider.json" (json_files tr').
Proof.
  intros Hcp Hn H. unfold build_job in H.
  quiet H H0.
  apply bind_Ok_inv in H as (cp & tr1 & H0 & H).
  apply yget_Ok in H0 as [H0 ->]. rewrite Hcp in H0. injection H0 as <-.
  quiet H H0. quiet H H0.
  apply bind_Ok_inv in H as ([] & tr1 & H0 & H).
  apply (work_Ok _ _ _ _ _ Hn) in H0 as (Hpos & <- & pre & ->).
  split; [exact Hpos|].
  apply bind_Ok_inv in H as (lf & tr1 & H0 & H).
  unfold yget in H0. destruct (yaml_get "log_file" m); [|discriminate].
  injection H0 as <- <-. apply effect_Ok_inv in H. subst tr'.
  split.
  - rewrite (parquet_files_app (pre ++ _)). cbn [parquet_files flat_map app].
    now rewrite app_nil_r.
  - rewrite !json_files_app. cbn [json_files flat_map app].
    apply in_or_app. left. apply in_or_app. right. now left.
Qed.

End Completed.

(** *** What a run writes, seen through a projection of the trace *)

Lemma flat_map_silent {X} (g : event -> list X) suffix :
  List.Forall (fun ev => g ev = []) suffix -> flat_map g suffix = [].
Proof.
  induction 1 as [|ev suffix Hev _ IH]; [reflexivity|].
  cbn [flat_map]. now rewrite Hev, IH.
Qed.

(** A computation whose events are all invisible through [g] leaves the
    projection as it is. *)
Lemma emits_flat_map {A X} (g : event -> list X) (m : B A) tr a tr' :
  m tr = Ok a tr' -> emits (fun ev => g ev = []) m -> flat_map g tr' = flat_map g tr.
Proof.
  intros E Hm. destruct (emits_Ok _ _ _ _ _ Hm E) as [s [-> F]].
  now rewrite flat_map_app, (flat_map_silent g s F), app_nil_r.
Qed.

Lemma emits_existsb {A} (p : event -> bool) (m : B A) tr a tr' :
  m tr = Ok a tr' -> emits (fun ev => p ev = false) m -> existsb p tr' = existsb p tr.
Proof.
  intros E Hm. destruct (emits_Ok _ _ _ _ _ Hm E) as [s [-> F]].
  rewrite existsb_app. replace (existsb p s) with false; [apply orb_false_r|].
  symmetry. clear E. induction F as [|ev s Hev _ IH]; [reflexivity|].
  cbn [existsb]. now rewrite Hev, IH.
Qed.

(** A computation without effect leaves the trace as it is. *)
Lemma emits_nothing {A} (m : B A) tr :
  emits (fun _ => False) m -> final (m tr) = tr.
Proof.
  intros Hm. destruct (Hm tr) as [s [E F]]. rewrite E.
  destruct F as [|ev s []]. apply app_nil_r.
Qed.

Section Split.
Variable fails : nat -> bool.

(** Chunks cut one after the other are the list again. *)
Lemma concat_chunks_of sizes : forall l,
  list_sum sizes = length l -> concat (chunks_of sizes l) = l.
Proof.
  induction sizes as [|n sizes IH]; intros l H.
  - cbn in H. destruct l; [reflexivity|discriminate].
  - change (list_sum (n :: sizes)) with (n + list_sum sizes) in H.
    cbn [chunks_of concat].
    rewrite IH by (rewrite List.length_skipn; lia). apply firstn_skipn.
Qed.

Lemma map_length_chunks_of sizes : forall l,
  list_sum sizes <= length l -> map (@length nat) (chunks_of sizes l) = sizes.
Proof.
  induction sizes as [|n sizes IH]; intros l H; [reflexivity|].
  change (list_sum (n :: sizes)) with (n + list_sum sizes) in H.
  cbn [chunks_of map].
  rewrite IH by (rewrite List.length_skipn; lia). f_equal.
  rewrite List.length_firstn. lia.
Qed.

Lemma list_sum_repeat x n : list_sum (repeat x n) = n * x.
Proof.
  induction n as [|n IH]; [reflexivity|].
  cbn [repeat]. change (list_sum (x :: repeat x n)) with (x + list_sum (repeat x n)).
  rewrite IH. lia.
Qed.

Lemma split_sizes_sum total k :
  0 < k ->
  list_sum (repeat (total / k + 1) (total mod k) ++ repeat (total / k) (k - total mod k)) =
  total.
Proof.
  intros Hk. rewrite list_sum_app, !list_sum_repeat.
  pose proof (Nat.div_mod_eq total k) as E.
  assert (Hr : total mod k < k) by (apply Nat.mod_upper_bound; lia).
  nia.
Qed.

(** [np.array_split] loses and repeats nothing, and its chunks differ
    in length by one at most, the longer ones first. *)
Lemma array_split_partition l n tr chunks tr' :
  array_split l n tr = Ok chunks tr' ->
  (0 < n)%Z /\ tr' = tr /\
  concat chunks = l /\
  map (@length nat) chunks =
    repeat (length l / Z.to_nat n + 1) (length l mod Z.to_nat n) ++
    repeat (length l / Z.to_nat n) (Z.to_nat n - length l mod Z.to_nat n).
Proof.
  unfold array_split. destruct (n <=? 0)%Z eqn:E; [discriminate|].
  apply Z.leb_gt in E. intros H. injection H as <- <-.
  assert (Hk : 0 < Z.to_nat n) by lia.
  split; [exact E|]. split; [reflexivity|]. split.
  - apply concat_chunks_of. now apply split_sizes_sum.
  - apply map_length_chunks_of. now rewrite split_sizes_sum.
Qed.

End Split.

(** *** A completed run, piece by piece *)

Lemma pure_Ok {A} (m : B A) tr a tr' :
  m tr = Ok a tr' -> emits (fun _ => False) m -> tr' = tr.
Proof.
  intros E Hm. pose proof (emits_nothing m tr Hm) as F. now rewrite E in F.
Qed.

Section Pieces.
Variable fails : nat -> bool.

Lemma linspace_len_Ok num k tr tr' :
  linspace_len num tr = Ok k tr' -> (0 <= num)%Z /\ k = Z.to_nat num /\ tr' = tr.
Proof.
  unfold linspace_len. destruct (num <? 0)%Z eqn:E; [discriminate|].
  apply Z.ltb_ge in E. intros H. injection H as <- <-. auto.
Qed.

Lemma yget_Ok_inv y k v tr tr' :
  yget y k tr = Ok v tr' -> exists m, y = YMap m /\ yaml_get k m = Some v /\ tr' = tr.
Proof.
  destruct y; try discriminate. intros H. apply yget_Ok in H as [H ->]. eauto.
Qed.

(** Lines 37-63, when they return: the folder is made, then the chunks
    are written one after the other. *)
Lemma build_distribution_trace cpm nr na n tr tr' :
  yaml_get "n_r" cpm = Some (YInt nr) ->
  yaml_get "n_angles" cpm = Some (YInt na) ->
  yaml_get "n_split" cpm = Some (YInt n) ->
  build_distribution fails (YMap cpm) tr = Ok tt tr' ->
  exists chunks,
    (0 <= nr)%Z /\ (0 <= na + 2)%Z /\ (0 < n)%Z /\
    array_split (seq 0 (Z.to_nat nr * (Z.to_nat (na + 2) - 2))) n tr = Ok chunks tr /\
    tr' = tr ++ Makedirs "particles" ::
            map (fun ic => WriteParquet (parquet_file (fst ic)) (snd ic))
                (combine (seq 0 (length chunks)) chunks).
Proof.
  intros Hr Ha Hn H. unfold build_distribution in H.
  apply bind_Ok_inv in H as (? & ? & H0 & H). apply yget_Ok in H0 as [_ ->].
  apply bind_Ok_inv in H as (? & ? & H0 & H). apply yget_Ok in H0 as [_ ->].
  apply bind_Ok_inv in H as (y & ? & H0 & H). apply yget_Ok in H0 as [H0 ->].
  rewrite Hr in H0. injection H0 as <-.
  apply bind_Ok_inv in H as (? & ? & H0 & H). apply yint_Ok in H0 as [-> ->].
  apply bind_Ok_inv in H as (n_radial & ? & H0 & H).
  apply linspace_len_Ok in H0 as (Hnr & -> & ->).
  apply bind_Ok_inv in H as (? & ? & H0 & H).
  apply pure_Ok in H0; [subst|apply emits_ynumber].
  apply bind_Ok_inv in H as (? & ? & H0 & H).
  apply pure_Ok in H0; [subst|apply emits_ynumber].
  apply bind_Ok_inv in H as (y & ? & H0 & H). apply yget_Ok in H0 as [H0 ->].
  rewrite Ha in H0. injection H0 as <-.
  apply bind_Ok_inv in H as (? & ? & H0 & H). apply yint_Ok in H0 as [-> ->].
  apply bind_Ok_inv in H as (n_theta_2 & ? & H0 & H).
  apply linspace_len_Ok in H0 as (Hna & -> & ->).
  apply bind_Ok_inv in H as (y & ? & H0 & H). apply yget_Ok in H0 as [H0 ->].
  rewrite Hn in H0. injection H0 as <-.
  apply bind_Ok_inv in H as (? & ? & H0 & H). apply yint_Ok in H0 as [-> ->].
  apply bind_Ok_inv in H as (chunks & tr1 & H0 & H).
  pose proof (array_split_Ok _ _ _ _ _ H0) as (Hpos & _ & ->).
  apply bind_Ok_inv in H as ([] & tr1 & H1 & H). apply effect_Ok_inv in H1. subst tr1.
  exists chunks. repeat (split; [assumption|]).
  assert (E : forall tr0,
    for_each (combine (seq 0 (length chunks)) chunks)
      (fun '(idx_chunk, my_list) => effect fails (WriteParquet (parquet_file idx_chunk) my_list))
      tr0 =
    for_each (combine (seq 0 (length chunks)) chunks)
      (fun x => effect fails (WriteParquet (parquet_file (fst x)) (snd x))) tr0).
  { intros tr0. generalize (combine (seq 0 (length chunks)) chunks). intros l. revert tr0.
    induction l as [|[i c] l IH]; intros tr0; [reflexivity|].
    cbn [for_each fst snd]. unfold bind. destruct (effect _ _ _); auto. }
  rewrite E in H. apply for_each_effect_Ok in H. subst tr'.
  now rewrite <- app_assoc.
Qed.

(** Lines 26-215, when they return. *)
Lemma work_Ok_inv cp cc tr tr' :
  work fails cp cc tr = Ok tt tr' ->
  exists t1 t2 t3 t4 t5 t6 config_bb conf_knobs_and_tuning,
    build_distribution fails cp tr = Ok tt t1 /\
    write_correction fails t1 = Ok tt t2 /\
    build_collider fails cc t2 = Ok tt t3 /\
    yget cc "config_beambeam" t3 = Ok config_bb t3 /\
    install_beambeam fails config_bb t3 = Ok tt t4 /\
    yget cc "config_knobs_and_tuning" (t4 ++ [Call "collider.build_trackers" []]) =
      Ok conf_knobs_and_tuning (t4 ++ [Call "collider.build_trackers" []]) /\
    knobs_and_tuning fails conf_knobs_and_tuning (t4 ++ [Call "collider.build_trackers" []]) =
      Ok tt t5 /\
    leveling fails cc config_bb conf_knobs_and_tuning t5 = Ok tt t6 /\
    tr' = t6 ++ [Makedirs "collider"; WriteJson "collider/collider.json"].
Proof.
  intros H. unfold work in H.
  apply bind_Ok_inv in H as ([] & t1 & H1 & H).
  apply bind_Ok_inv in H as ([] & t2 & H2 & H).
  apply bind_Ok_inv in H as ([] & t3 & H3 & H).
  apply bind_Ok_inv in H as (config_bb & t3' & H4 & H).
  assert (t3' = t3) as -> by (apply (pure_Ok _ _ _ _ H4), emits_yget).
  apply bind_Ok_inv in H as ([] & t4 & H5 & H).
  apply bind_Ok_inv in H as ([] & t4' & H6 & H). apply effect_Ok_inv in H6. subst t4'.
  apply bind_Ok_inv in H as (ckt & t4' & H7 & H).
  assert (t4' = t4 ++ [Call "collider.build_trackers" []]) as ->
    by (apply (pure_Ok _ _ _ _ H7), emits_yget).
  apply bind_Ok_inv in H as ([] & t5 & H8 & H).
  apply bind_Ok_inv in H as ([] & t6 & H9 & H).
  apply bind_Ok_inv in H as ([] & t7 & H10 & H). apply effect_Ok_inv in H10. subst t7.
  apply effect_Ok_inv in H. subst tr'.
  exists t1, t2, t3, t4, t5, t6, config_bb, ckt.
  rewrite <- app_assoc. auto 10.
Qed.

(** The whole script, when it returns. *)
Lemma build_job_Ok_inv m tr' :
  build_job fails (YMap m) [] = Ok tt tr' ->
  exists cp cc log_file t1,
    yaml_get "config_particles" m = Some cp /\
    yaml_get "config_collider" m = Some cc /\
    yaml_get "log_file" m = Some log_file /\
    work fails cp cc [ReadConfig; Tag log_file "started"] = Ok tt t1 /\
    tr' = t1 ++ [Tag log_file "completed"].
Proof.
  intros H. unfold build_job in H.
  apply bind_Ok_inv in H as ([] & t0 & H0 & H). apply effect_Ok_inv in H0. subst t0.
  apply bind_Ok_inv in H as (cp & ? & H0 & H). apply yget_Ok in H0 as [Hcp ->].
  apply bind_Ok_inv in H as (cc & ? & H0 & H). apply yget_Ok in H0 as [Hcc ->].
  apply bind_Ok_inv in H as ([] & t0 & H0 & H).
  apply bind_Ok_inv in H as ([] & t1 & Hw & H).
  apply bind_Ok_inv in H as (log_file & ? & H1 & H). apply yget_Ok in H1 as [Hlog ->].
  apply effect_Ok_inv in H. subst tr'.
  unfold ymem in H0. rewrite Hlog in H0.
  apply bind_Ok_inv in H0 as (lf & ? & H1 & H0). apply yget_Ok in H1 as [Hlog' ->].
  rewrite Hlog in Hlog'. injection Hlog' as <-.
  apply effect_Ok_inv in H0. subst t0.
  exists cp, cc, log_file, t1. auto.
Qed.

End Pieces.

(** *** The files of a completed run, exactly *)

Section Files.
Variable fails : nat -> bool.

Lemma parquet_chunks_writes chunks : forall s,
  parquet_chunks
    (map (fun ic => WriteParquet (parquet_file (fst ic)) (snd ic))
         (combine (seq s (length chunks)) chunks)) = chunks.
Proof.
  induction chunks as [|c chunks IH]; intros s; [reflexivity|].
  cbn [length seq combine map fst snd].
  change (parquet_chunks (?ev :: ?l)) with (parquet_chunks [ev] ++ parquet_chunks l).
  rewrite IH. reflexivity.
Qed.

Lemma write_correction_Ok tr tr' :
  write_correction fails tr = Ok tt tr' ->
  tr' = tr ++ [Call "generate_orbit_correction_setup" []; Makedirs "correction";
               WriteJson "correction/corr_co_lhcb1.json";
               WriteJson "correction/corr_co_lhcb2.json"].
Proof.
  intros H. unfold write_correction in H.
  apply bind_Ok_inv in H as ([] & t1 & H1 & H). apply effect_Ok_inv in H1. subst t1.
  apply bind_Ok_inv in H as ([] & t1 & H1 & H). apply effect_Ok_inv in H1. subst t1.
  apply (for_each_effect_Ok fails (fun nn => WriteJson ("correction/corr_co_" +:+ nn +:+ ".json")))
    in H.
  subst tr'. now rewrite <- !app_assoc.
Qed.

(** The chunks a completed run has written are those of
    [np.array_split]. *)
Lemma build_job_chunks m cpm nr na n tr :
  yaml_get "config_particles" m = Some (YMap cpm) ->
  yaml_get "n_r" cpm = Some (YInt nr) ->
  yaml_get "n_angles" cpm = Some (YInt na) ->
  yaml_get "n_split" cpm = Some (YInt n) ->
  build_job fails (YMap m) [] = Ok tt tr ->
  (0 <= nr)%Z /\ (0 <= na + 2)%Z /\ (0 < n)%Z /\
  array_split (seq 0 (Z.to_nat nr * (Z.to_nat (na + 2) - 2))) n [] = Ok (parquet_chunks tr) [].
Proof.
  intros Hcp Hr Ha Hn H.
  apply build_job_Ok_inv in H as (cp & cc & log_file & t1 & Hcp' & _ & _ & Hw & ->).
  rewrite Hcp in Hcp'. injection Hcp' as <-.
  apply work_Ok_inv in Hw
    as (u1 & u2 & u3 & u4 & u5 & u6 & cbb & ckt & W1 & W2 & W3 & _ & W5 & _ & W7 & W8 & ->).
  apply (build_distribution_trace fails cpm nr na n _ _ Hr Ha Hn) in W1
    as (chunks & Hnr & Hna & Hpos & Hsplit & ->).
  repeat (split; [assumption|]).
  assert (E : parquet_chunks
                ((u6 ++ [Makedirs "collider"; WriteJson "collider/collider.json"]) ++
                 [Tag log_file "completed"]) = chunks).
  { unfold parquet_chunks. rewrite !flat_map_app. cbn [flat_map app]. rewrite !app_nil_r.
    set (g := fun ev => match ev with WriteParquet _ ids => [ids] | _ => [] end).
    apply (emits_flat_map g) in W8; [|unfold leveling; emits_auto]. rewrite W8.
    apply (emits_flat_map g) in W7; [|unfold knobs_and_tuning; emits_auto]. rewrite W7.
    rewrite flat_map_app. cbn [flat_map app]. rewrite app_nil_r.
    apply (emits_flat_map g) in W5; [|unfold install_beambeam; emits_auto]. rewrite W5.
    apply (emits_flat_map g) in W3; [|unfold build_collider; emits_auto]. rewrite W3.
    apply (emits_flat_map g) in W2; [|unfold write_correction; emits_auto]. rewrite W2.
    rewrite flat_map_app. cbn [flat_map app].
    apply parquet_chunks_writes. }
  rewrite E. unfold array_split, ret in *. destruct (n <=? 0)%Z; [discriminate|].
  cbv zeta in *. injection Hsplit as Hs. now rewrite Hs.
Qed.

(** The json files a completed run has written: the two files of the
    orbit correction, then the collider. *)
Lemma build_job_json_files m tr :
  build_job fails (YMap m) [] = Ok tt tr ->
  json_files tr =
  ["correction/corr_co_lhcb1.json"; "correction/corr_co_lhcb2.json";
   "collider/collider.json"].
Proof.
  intros H.
  apply build_job_Ok_inv in H as (cp & cc & log_file & t1 & _ & _ & _ & Hw & ->).
  apply work_Ok_inv in Hw
    as (u1 & u2 & u3 & u4 & u5 & u6 & cbb & ckt & W1 & W2 & W3 & _ & W5 & _ & W7 & W8 & ->).
  apply write_correction_Ok in W2. subst u2.
  unfold json_files. rewrite !flat_map_app. cbn [flat_map app]. rewrite !app_nil_r.
  set (g := fun ev => match ev with WriteJson file => [file] | _ => [] end).
  apply (emits_flat_map g) in W8; [|unfold leveling; emits_auto]. rewrite W8.
  apply (emits_flat_map g) in W7; [|unfold knobs_and_tuning; emits_auto]. rewrite W7.
  rewrite flat_map_app. cbn [flat_map app]. rewrite app_nil_r.
  apply (emits_flat_map g) in W5; [|unfold install_beambeam; emits_auto]. rewrite W5.
  apply (emits_flat_map g) in W3; [|unfold build_collider; emits_auto]. rewrite W3.
  rewrite flat_map_app. cbn [flat_map app].
  apply (emits_flat_map g) in W1; [|unfold build_distribution; emits_auto]. rewrite W1.
  reflexivity.
Qed.

End Files.

(** *** Leveling and tunings of a completed run *)

Section Leveling.
Variable fails : nat -> bool.

Lemma leveling_condition_Ok ccm b tr tr' :
  leveling_condition (YMap ccm) tr = Ok b tr' ->
  tr' = tr /\
  match yaml_get "config_lumi_leveling" ccm with
  | Some _ => exists skip, yaml_get "skip_leveling" ccm = Some skip /\ b = negb (truthy skip)
  | None => b = false
  end.
Proof.
  unfold leveling_condition, ymem.
  destruct (yaml_get "config_lumi_leveling" ccm).
  - intros H. apply bind_Ok_inv in H as (skip & ? & H0 & H).
    apply yget_Ok in H0 as [H0 ->]. injection H as <- <-. eauto.
  - intros H. injection H as <- <-. auto.
Qed.

Lemma tuned_lines_app tr1 tr2 : tuned_lines (tr1 ++ tr2) = tuned_lines tr1 ++ tuned_lines tr2.
Proof. unfold tuned_lines, calls_to. now rewrite flat_map_app, map_app. Qed.

(** A statement of a run that returns: an effect is appended to the
    trace, a reading of the configuration leaves it as it is. *)
Ltac run_step H :=
  let H0 := fresh "H0" in
  first [ apply bind_Ok_inv in H as ([] & ? & H0 & H); apply effect_Ok_inv in H0
        | apply bind_Ok_inv in H as (? & ? & H0 & H);
          apply pure_Ok in H0; [|solve [emits_auto]] ];
  subst.

(** A tuning of a line (lines 149-168 and 182-196), as the last effect
    of a round of the loops. *)
Lemma tuned_lines_silent {A} (m : B A) tr a tr' :
  m tr = Ok a tr' ->
  emits (fun ev => match ev with
                   | Call g _ => String.eqb g "xm.machine_tuning" = false
                   | _ => True
                   end) m ->
  tuned_lines tr' = tuned_lines tr.
Proof.
  intros E Hm. destruct (emits_Ok _ _ _ _ _ Hm E) as [s [-> F]].
  rewrite tuned_lines_app. replace (tuned_lines s) with (@nil yaml); [apply app_nil_r|].
  symmetry. clear E. induction F as [|ev s Hev _ IH]; [reflexivity|].
  change (ev :: s) with ([ev] ++ s). rewrite tuned_lines_app, IH, app_nil_r. destruct ev; try reflexivity.
  unfold tuned_lines, calls_to. cbn [flat_map]. now rewrite Hev.
Qed.

(** Lines 137-168: both lines are tuned, [lhcb1] first. *)
Lemma knobs_and_tuning_Ok ckt tr tr' :
  knobs_and_tuning fails ckt tr = Ok tt tr' ->
  tuned_lines tr' = tuned_lines tr ++ [YStr "lhcb1"; YStr "lhcb2"] /\
  leveling_done tr' = leveling_done tr.
Proof.
  intros H. split.
  - unfold knobs_and_tuning in H.
    run_step H. run_step H.
    apply bind_Ok_inv in H as ([] & t1 & H1 & H).
    apply tuned_lines_silent in H1; [|emits_auto]. rewrite <- H1. clear H1.
    cbn [for_each] in H.
    apply bind_Ok_inv in H as ([] & t2 & H1 & H).
    apply bind_Ok_inv in H as ([] & t3 & H2 & H). injection H as <-.
    do 7 run_step H1. apply effect_Ok_inv in H1.
    do 7 run_step H2. apply effect_Ok_inv in H2.
    subst. rewrite !tuned_lines_app. rewrite <- !app_assoc. reflexivity.
  - unfold leveling_done. eapply emits_existsb; [exact H|].
    unfold knobs_and_tuning. emits_auto.
Qed.

(** Lines 173-203: the leveling is done when [config_lumi_leveling] is
    there and [skip_leveling] is not true; both lines are then tuned
    again. *)
Lemma leveling_Ok ccm cbb ckt tr tr' :
  leveling fails (YMap ccm) cbb ckt tr = Ok tt tr' ->
  exists b,
    match yaml_get "config_lumi_leveling" ccm with
    | Some _ => exists skip, yaml_get "skip_leveling" ccm = Some skip /\ b = negb (truthy skip)
    | None => b = false
    end /\
    leveling_done tr' = leveling_done tr || b /\
    tuned_lines tr' = tuned_lines tr ++ (if b then [YStr "lhcb1"; YStr "lhcb2"] else []).
Proof.
  intros H. unfold leveling in H.
  apply bind_Ok_inv in H as (b & ? & H0 & H).
  apply leveling_condition_Ok in H0 as [-> Hb].
  exists b. split; [exact Hb|]. destruct b.
  - run_step H. run_step H.
    cbn [for_each] in H.
    apply bind_Ok_inv in H as ([] & t1 & H0 & H).
    apply bind_Ok_inv in H0 as ([] & t2 & H1 & H0).
    apply bind_Ok_inv in H0 as ([] & t3 & H2 & H0). injection H0 as <-.
    apply effect_Ok_inv in H.
    do 4 run_step H1. apply effect_Ok_inv in H1.
    do 4 run_step H2. apply effect_Ok_inv in H2.
    subst. split.
    + unfold leveling_done. rewrite <- !app_assoc, !existsb_app. cbn [existsb String.eqb].
      cbn. now rewrite orb_true_r.
    + rewrite !tuned_lines_app. rewrite <- !app_assoc. reflexivity.
  - apply effect_Ok_inv in H. subst. split.
    + unfold leveling_done. rewrite existsb_app. cbn. now rewrite !orb_false_r.
    + rewrite tuned_lines_app. cbn. now rewrite !app_nil_r.
Qed.

End Leveling.

Section Rules.
Variable fails : nat -> bool.

(** A completed run: whether it leveled, and the lines it tuned. *)
Lemma build_job_leveling m tr :
  build_job fails (YMap m) [] = Ok tt tr ->
  exists ccm b,
    yaml_get "config_collider" m = Some (YMap ccm) /\
    match yaml_get "config_lumi_leveling" ccm with
    | Some _ => exists skip, yaml_get "skip_leveling" ccm = Some skip /\ b = negb (truthy skip)
    | None => b = false
    end /\
    leveling_done tr = b /\
    tuned_lines tr =
      [YStr "lhcb1"; YStr "lhcb2"] ++ (if b then [YStr "lhcb1"; YStr "lhcb2"] else []).
Proof.
  intros H.
  apply build_job_Ok_inv in H as (cp & cc & log_file & t1 & _ & Hcc & _ & Hw & ->).
  apply work_Ok_inv in Hw
    as (u1 & u2 & u3 & u4 & u5 & u6 & cbb & ckt & W1 & W2 & W3 & W4 & W5 & _ & W7 & W8 & ->).
  apply yget_Ok_inv in W4 as (ccm & -> & _ & _).
  apply leveling_Ok in W8 as (b & Hb & L8 & T8).
  apply knobs_and_tuning_Ok in W7 as [T7 L7].
  exists ccm, b. split; [exact Hcc|]. split; [exact Hb|].
  assert (L5 : leveling_done u4 = false).
  { unfold leveling_done.
    erewrite emits_existsb; [|exact W5|unfold install_beambeam; emits_auto].
    erewrite emits_existsb; [|exact W3|unfold build_collider; emits_auto].
    erewrite emits_existsb; [|exact W2|unfold write_correction; emits_auto].
    erewrite emits_existsb; [|exact W1|unfold build_distribution; emits_auto].
    reflexivity. }
  assert (T5 : tuned_lines u4 = []).
  { erewrite tuned_lines_silent; [|exact W5|unfold install_beambeam; emits_auto].
    erewrite tuned_lines_silent; [|exact W3|unfold build_collider; emits_auto].
    erewrite tuned_lines_silent; [|exact W2|unfold write_correction; emits_auto].
    erewrite tuned_lines_silent; [|exact W1|unfold build_distribution; emits_auto].
    reflexivity. }
  split.
  - unfold leveling_done in *. rewrite !existsb_app. cbn [existsb]. rewrite !orb_false_r.
    rewrite L8, L7, existsb_app, L5. reflexivity.
  - rewrite !tuned_lines_app. cbn [tuned_lines calls_to flat_map map app].
    rewrite !app_nil_r. rewrite T8, T7, tuned_lines_app, T5. reflexivity.
Qed.

(** *** Runs that cannot complete *)

Lemma bind_dead {A C} (m : B A) (k : A -> B C) :
  emits (fun _ => False) m ->
  (forall a tr, exists ex, k a tr = Raise ex tr) ->
  forall tr, exists ex, bind m k tr = Raise ex tr.
Proof.
  intros Hm Hk tr. pose proof (emits_nothing m tr Hm) as F. unfold bind.
  destruct (m tr) as [a tr1|ex tr1]; cbn [final] in F; subst tr1; eauto.
Qed.

(** With a number of splits that is not positive, lines 37-54 raise
    before anything is written. *)
Lemma build_distribution_bad_split cpm n tr :
  yaml_get "n_split" cpm = Some (YInt n) -> (n <= 0)%Z ->
  exists ex, build_distribution fails (YMap cpm) tr = Raise ex tr.
Proof.
  intros Hn Hle. revert tr. unfold build_distribution.
  do 10 (apply bind_dead; [solve [emits_auto]|intros ?]).
  intros tr. unfold bind at 1. unfold yget. rewrite Hn. unfold ret at 1.
  unfold bind at 1. cbn [yint]. unfold ret at 1.
  unfold bind at 1. unfold array_split.
  apply Z.leb_le in Hle. rewrite Hle. eauto.
Qed.

Lemma build_distribution_bad_split_error cpm r_min r_max nr na n tr :
  yaml_get "r_min" cpm = Some (YInt r_min) ->
  yaml_get "r_max" cpm = Some (YInt r_max) ->
  yaml_get "n_r" cpm = Some (YInt nr) -> (0 <= nr)%Z ->
  yaml_get "n_angles" cpm = Some (YInt na) -> (0 <= na + 2)%Z ->
  yaml_get "n_split" cpm = Some (YInt n) -> (n <= 0)%Z ->
  build_distribution fails (YMap cpm) tr =
  Raise (ValueError "number sections must be larger than 0.") tr.
Proof.
  intros H1 H2 H3 Hnr H4 Hna H5 Hle. unfold build_distribution, yget, bind, ret.
  rewrite H1, H2, H3, H4, H5. cbn [yint ynumber]. unfold ret, linspace_len, array_split.
  apply Z.ltb_ge in Hnr, Hna. rewrite Hnr, Hna. unfold ret.
  apply Z.leb_le in Hle. now rewrite Hle.
Qed.

(** A job whose number of splits is not positive stops at the start. *)
Lemma build_job_bad_split m cpm n :
  yaml_get "config_particles" m = Some (YMap cpm) ->
  yaml_get "n_split" cpm = Some (YInt n) -> (n <= 0)%Z ->
  exists ex tr,
    build_job fails (YMap m) [] = Raise ex tr /\
    (tr = [] \/ tr = [ReadConfig] \/ exists log_file, tr = [ReadConfig; Tag log_file "started"]).
Proof.
  intros Hcp Hn Hle. unfold build_job.
  unfold bind at 1. unfold effect at 1. cbn [length].
  destruct (fails 0); [eauto 6|].
  unfold bind at 1. unfold yget at 1. rewrite Hcp. unfold ret at 1.
  unfold bind at 1. unfold yget at 1.
  destruct (yaml_get "config_collider" m) as [cc|]; [|unfold raise; eauto 6].
  unfold ret at 1. unfold bind at 1. unfold ymem.
  destruct (yaml_get "log_file" m) as [log_file|] eqn:Hlog.
  - unfold bind at 1. unfold yget at 1. rewrite Hlog. unfold ret at 1.
    unfold effect at 1. cbn [length app].
    destruct (fails 1); [eauto 6|].
    unfold bind at 1. unfold work. unfold bind at 1.
    destruct (build_distribution_bad_split cpm n [ReadConfig; Tag log_file "started"] Hn Hle)
      as [ex E].
    rewrite E. eauto 8.
  - unfold ret at 1. unfold bind at 1. unfold work. unfold bind at 1. cbn [app].
    destruct (build_distribution_bad_split cpm n [ReadConfig] Hn Hle) as [ex E].
    rewrite E. eauto 8.
Qed.

(** Without [log_file] in its configuration, the job tags nothing. *)
Lemma build_job_untagged m :
  yaml_get "log_file" m = None ->
  emits (fun ev => match ev with Tag _ _ => False | _ => True end) (build_job fails (YMap m)).
Proof.
  intros Hlog. unfold build_job, ymem. rewrite Hlog.
  apply emits_bind; [emits_auto|intros _].
  apply emits_bind; [emits_auto|intros cp].
  apply emits_bind; [emits_auto|intros cc].
  apply emits_bind; [emits_auto|intros _].
  apply emits_bind.
  { unfold work, build_distribution, write_correction, build_collider, install_beambeam,
      knobs_and_tuning, leveling. emits_auto. }
  intros _. unfold yget. rewrite Hlog.
  intros tr. exists []. unfold bind, raise. cbn [final]. now rewrite app_nil_r.
Qed.

(** ... and when its work is done, it raises [KeyError] on the last
    line. *)
Lemma build_job_no_log_file m cp cc t1 :
  yaml_get "log_file" m = None ->
  yaml_get "config_particles" m = Some cp ->
  yaml_get "config_collider" m = Some cc ->
  fails 0 = false ->
  work fails cp cc [ReadConfig] = Ok tt t1 ->
  build_job fails (YMap m) [] = Raise (KeyError "log_file") t1.
Proof.
  intros Hlog Hcp Hcc H0 Hw. unfold build_job, ymem, yget. rewrite Hlog, Hcp, Hcc.
  unfold bind at 1. unfold effect at 1. cbn [length]. rewrite H0.
  unfold bind at 1. unfold ret at 1.
  unfold bind at 1. unfold ret at 1.
  unfold bind at 1. unfold ret at 1.
  unfold bind at 1. cbn [app]. rewrite Hw.
  reflexivity.
Qed.

End Rules.

(** *** What a completed run has read in its configuration *)

Section Keys.
Variable fails : nat -> bool.

(** A statement of a run that returns; when it reads a key of a known
    mapping, the key is there. *)
Ltac key_step H :=
  let K := fresh "K" in
  apply bind_Ok_inv in H as (? & ? & K & H);
  first [ apply yget_Ok in K as [K _] | clear K ].

(** Two statements that read [y[k][line]] in a known mapping [y]. *)
Ltac pair_step H :=
  let K1 := fresh "K" in
  let K2 := fresh "K" in
  let dm := fresh "dm" in
  apply bind_Ok_inv in H as (? & ? & K1 & H);
  apply yget_Ok in K1 as [K1 ->];
  apply bind_Ok_inv in H as (? & ? & K2 & H);
  apply yget_Ok_inv in K2 as (dm & -> & K2 & ->).

Lemma build_distribution_keys cpm tr tr' :
  build_distribution fails (YMap cpm) tr = Ok tt tr' ->
  List.Forall (fun k => yaml_get k cpm <> None) ["r_min"; "r_max"; "n_r"; "n_angles"; "n_split"].
Proof.
  intros H. unfold build_distribution in H.
  do 12 key_step H.
  repeat constructor; congruence.
Qed.

Lemma build_collider_keys ccm tr tr' :
  build_collider fails (YMap ccm) tr = Ok tt tr' ->
  exists madm,
    yaml_get "config_mad" ccm = Some (YMap madm) /\
    List.Forall (fun k => yaml_get k madm <> None)
      ["links"; "optics_file"; "beam_config"; "enable_imperfections";
       "enable_knob_synthesis"; "rename_coupling_knobs"; "pars_for_imperfections";
       "ver_lhc_run"; "ver_hllhc_optics"].
Proof.
  intros H. unfold build_collider in H.
  pair_step H. exists dm. split; [assumption|].
  do 17 key_step H.
  repeat constructor; congruence.
Qed.

Lemma install_beambeam_keys cbb tr tr' :
  install_beambeam fails cbb tr = Ok tt tr' ->
  exists bbm,
    cbb = YMap bbm /\
    List.Forall (fun k => yaml_get k bbm <> None)
      ["num_long_range_encounters_per_side"; "num_slices_head_on";
       "bunch_spacing_buckets"; "sigma_z"].
Proof.
  intros H. unfold install_beambeam in H.
  apply bind_Ok_inv in H as (? & ? & K & H).
  apply yget_Ok_inv in K as (bbm & -> & K & ->).
  exists bbm. split; [reflexivity|].
  do 3 key_step H.
  repeat constructor; congruence.
Qed.

Lemma tuning_targets_keys ktm line l tr tr' :
  tuning_targets (YMap ktm) line tr = Ok l tr' ->
  List.Forall (fun k => exists d, yaml_get k ktm = Some (YMap d) /\ yaml_get line d <> None)
    ["qx"; "qy"; "dqx"; "dqy"].
Proof.
  intros H. unfold tuning_targets in H.
  do 4 pair_step H.
  repeat constructor; eexists; (split; [eassumption|congruence]).
Qed.

Lemma knobs_and_tuning_keys ckt tr tr' :
  knobs_and_tuning fails ckt tr = Ok tt tr' ->
  exists ktm,
    ckt = YMap ktm /\
    (exists ks, yaml_get "knob_settings" ktm = Some (YMap ks)) /\
    List.Forall
      (fun k => exists d, yaml_get k ktm = Some (YMap d) /\
                          yaml_get "lhcb1" d <> None /\ yaml_get "lhcb2" d <> None)
      ["knob_names"; "qx"; "qy"; "dqx"; "dqy"; "closed_orbit_correction"].
Proof.
  intros H. unfold knobs_and_tuning in H.
  apply bind_Ok_inv in H as (ks & ? & K & H).
  apply yget_Ok_inv in K as (ktm & -> & Ks & ->).
  exists ktm. split; [reflexivity|].
  apply bind_Ok_inv in H as (items & ? & Ki & H).
  assert (Hks : exists ksm, ks = YMap ksm).
  { destruct ks; try discriminate. eauto. }
  destruct Hks as [ksm ->]. split; [eauto|]. clear Ki.
  apply bind_Ok_inv in H as ([] & t1 & _ & H).
  cbn [for_each] in H.
  apply bind_Ok_inv in H as ([] & t2 & H1 & H).
  apply bind_Ok_inv in H as ([] & t3 & H2 & _).
  pair_step H1.
  apply bind_Ok_inv in H1 as (? & ? & T1 & H1). apply tuning_targets_keys in T1.
  do 2 key_step H1. pair_step H1.
  pair_step H2.
  apply bind_Ok_inv in H2 as (? & ? & T2 & H2). apply tuning_targets_keys in T2.
  do 2 key_step H2. pair_step H2.
  repeat match goal with
         | Ha : yaml_get ?k ktm = Some (YMap ?a), Hb : yaml_get ?k ktm = Some (YMap ?b) |- _ =>
             assert (b = a) by congruence; subst b; clear Hb
         end.
  rewrite !List.Forall_cons_iff in T1, T2.
  destruct T1 as (Q1 & Q2 & Q3 & Q4 & _). destruct T2 as (R1 & R2 & R3 & R4 & _).
  repeat constructor;
    try (eexists; split; [eassumption|split; congruence]);
    match goal with
    | Q : exists d, yaml_get ?k ktm = Some (YMap d) /\ yaml_get "lhcb1" d <> None,
      R : exists d, yaml_get ?k ktm = Some (YMap d) /\ yaml_get "lhcb2" d <> None
      |- exists d, yaml_get ?k ktm = Some (YMap d) /\ _ =>
        destruct Q as (d & Qa & Qb); destruct R as (d' & Ra & Rb);
        exists d; split; [exact Qa|]; split; [exact Qb|];
        assert (d' = d) by congruence; now subst d'
    end.
Qed.

End Keys.

(** *** The knobs set by a completed run *)

Section Knobs.
Variable fails : nat -> bool.

Lemma calls_to_app f tr1 tr2 : calls_to f (tr1 ++ tr2) = calls_to f tr1 ++ calls_to f tr2.
Proof. unfold calls_to. apply flat_map_app. Qed.

Lemma calls_to_silent {A} f (m : B A) tr a tr' :
  m tr = Ok a tr' ->
  emits (fun ev => match ev with
                   | Call g _ => String.eqb g f = false
                   | _ => True
                   end) m ->
  calls_to f tr' = calls_to f tr.
Proof.
  intros E Hm. unfold calls_to. apply (emits_flat_map _ m tr a tr' E).
  intros tr0. destruct (Hm tr0) as [s [Es F]]. exists s. split; [exact Es|].
  eapply List.Forall_impl; [|exact F].
  intros ev Hev. destruct ev; try reflexivity. now rewrite Hev.
Qed.

Lemma calls_to_setitems (items : list (string * yaml)) :
  calls_to "collider.vars.__setitem__"
    (map (fun kv => Call "collider.vars.__setitem__" [YStr (fst kv); snd kv]) items) =
  map (fun kv => [YStr (fst kv); snd kv]) items.
Proof.
  induction items as [|kv items IH]; [reflexivity|].
  cbn [map]. change (?ev :: ?l) with ([ev] ++ l) at 1.
  rewrite calls_to_app, IH. reflexivity.
Qed.

(** Lines 144-145: every knob of [knob_settings] is set, in the order of
    the mapping. *)
Lemma knobs_and_tuning_knobs ktm ks tr tr' :
  yaml_get "knob_settings" ktm = Some (YMap ks) ->
  knobs_and_tuning fails (YMap ktm) tr = Ok tt tr' ->
  calls_to "collider.vars.__setitem__" tr' =
  calls_to "collider.vars.__setitem__" tr ++
  map (fun kv => [YStr (fst kv); snd kv]) (yaml_items ks).
Proof.
  intros Hks H. unfold knobs_and_tuning in H.
  apply bind_Ok_inv in H as (y & ? & K & H). apply yget_Ok in K as [K ->].
  rewrite Hks in K. injection K as <-.
  apply bind_Ok_inv in H as (items & ? & K & H). injection K as <- <-.
  apply bind_Ok_inv in H as ([] & t1 & H1 & H).
  assert (E : forall (l : list (string * yaml)) tr0,
    for_each l (fun '(kk, vv) => effect fails (Call "collider.vars.__setitem__" [YStr kk; vv]))
      tr0 =
    for_each l (fun kv => effect fails
                            (Call "collider.vars.__setitem__" [YStr (fst kv); snd kv])) tr0).
  { induction l as [|[k v] l IH]; intros tr0; [reflexivity|].
    cbn [for_each fst snd]. unfold bind. destruct (effect _ _ _); auto. }
  rewrite E in H1. apply for_each_effect_Ok in H1. subst t1.
  apply calls_to_silent with (f := "collider.vars.__setitem__") in H; [|emits_auto].
  rewrite H, calls_to_app, calls_to_setitems. reflexivity.
Qed.

End Knobs.

End BuildFacts.

(** ** The properties of the specification *)

Import Py Script Gen GenModel GenFacts Build BuildModel BuildFacts Sample.

(** C1: for every scan, whatever the world of the run, the children of
    the base node are the kept points of the grid in the row-major order
    of [itertools.product] over (split, qx, qy).  The key of a leaf is
    [xtrack_] followed by the number of its point among all points of the
    grid, written with at least four digits; the numbers increase along
    the children; the number is read back from the key and gives the
    split and the two tunes of the leaf from the scan alone.  Two runs on
    the same scan, in any two worlds, build the same sequence of leaves. *)
Theorem C1_leaves_follow_grid_order
    (sp : scan_spec) (e e' : env) (stdin stdin' : list string) (cwd cwd' : path)
    (f f' : fs) (b1 b1' : Z) (rest rest' : list string) :
  dialog e sp cwd stdin = (inr b1, rest) ->
  dialog e' sp cwd' stdin' = (inr b1', rest') ->
  exists children s children' s',
    build_children e sp (init_state stdin cwd f) = Ok children s /\
    build_children e' sp (init_state stdin' cwd' f') = Ok children' s' /\
    read_leaves (st_heap s) children = Some (leaves sp) /\
    read_leaves (st_heap s') children' = Some (leaves sp) /\
    leaves sp = map leaf_of (List.filter (keep sp)
                  (enumerate (product3 (seq 0 (n_split sp)) (array_qx sp) (array_qy sp)))) /\
    StronglySorted lt (map fst (kept sp)) /\
    map lv_key (leaves sp) = map (fun it => "xtrack_" +:+ format_0w 4 (fst it)) (kept sp) /\
    Forall (fun lf => exists i t,
              lv_key lf = "xtrack_" +:+ format_0w 4 i /\
              4 <= String.length (format_0w 4 i) /\
              parse_key (lv_key lf) = Some i /\
              point_of sp i = Some (t, lv_qx lf, lv_qy lf) /\
              lv_particle_file lf = "../particles/" +:+ format_0w 2 t +:+ ".parquet")
           (leaves sp).
Proof.
  intros Hd Hd'.
  exists (VRef 20), (Build_state (tree_heap e sp cwd b1) rest cwd f []).
  exists (VRef 20), (Build_state (tree_heap e' sp cwd' b1') rest' cwd' f' []).
  split; [now apply build_children_run|].
  split; [now apply build_children_run|].
  cbn [st_heap]. rewrite !read_leaves_tree.
  split; [reflexivity|]. split; [reflexivity|]. split; [reflexivity|].
  split; [apply kept_sorted|].
  split; [unfold leaves; now rewrite map_map|].
  unfold leaves. apply List.Forall_forall. intros lf Hin.
  apply in_map_iff in Hin as [[i [[t qx] qy]] [<- Hin]].
  apply kept_in_grid in Hin as [Hin _].
  exists i, t. cbn [leaf_of lv_key lv_qx lv_qy lv_particle_file fst snd].
  split; [reflexivity|]. split; [apply length_format_0w|].
  split; [apply parse_leaf_key|]. split; [now apply grid_point|reflexivity].
Qed.

Lemma C1_witness :
  dialog sample_env default_spec sample_cwd sample_stdin = (inr 411%Z, []) /\
  dialog sample_env default_spec [] ["n"; "12"] = (inr 12%Z, []) /\
  exists children s children' s',
    build_children sample_env default_spec (init_state sample_stdin sample_cwd []) = Ok children s /\
    build_children sample_env default_spec (init_state ["n"; "12"] [] []) = Ok children' s' /\
    read_leaves (st_heap s) children = Some (leaves default_spec) /\
    read_leaves (st_heap s') children' = Some (leaves default_spec) /\
    leaves default_spec = map leaf_of (List.filter (keep default_spec)
                  (enumerate (product3 (seq 0 (n_split default_spec)) (array_qx default_spec)
                                       (array_qy default_spec)))) /\
    StronglySorted lt (map fst (kept default_spec)) /\
    map lv_key (leaves default_spec) =
      map (fun it => "xtrack_" +:+ format_0w 4 (fst it)) (kept default_spec) /\
    Forall (fun lf => exists i t,
              lv_key lf = "xtrack_" +:+ format_0w 4 i /\
              4 <= String.length (format_0w 4 i) /\
              parse_key (lv_key lf) = Some i /\
              point_of default_spec i = Some (t, lv_qx lf, lv_qy lf) /\
              lv_particle_file lf = "../particles/" +:+ format_0w 2 t +:+ ".parquet")
           (leaves default_spec).
Proof.
  split; [vm_compute; reflexivity|].
  split; [vm_compute; reflexivity|].
  apply (C1_leaves_follow_grid_order default_spec sample_env sample_env
           sample_stdin ["n"; "12"] sample_cwd [] [] [] 411%Z 12%Z [] []);
    vm_compute; reflexivity.
Defined.

(** C2: with the upper-triangle rule switched on, a point (split, qx, qy)
    of the grid gets a leaf if and only if [qy < qx - 2 + 0.0039] is
    false in binary64; a skipped point leaves nothing behind (the children
    of the base node are as many as the kept points, and each of them is a
    whole leaf with its six entries); the kept points keep the order they
    have in the grid. *)
Theorem C2_upper_triangle_pruning
    (sp : scan_spec) (e : env) (stdin : list string) (cwd : path) (f : fs)
    (b1 : Z) (rest : list string) :
  only_keep_upper_triangle sp = true ->
  dialog e sp cwd stdin = (inr b1, rest) ->
  exists children s,
    build_children e sp (init_state stdin cwd f) = Ok children s /\
    read_leaves (st_heap s) children = Some (leaves sp) /\
    (forall i t qx qy,
        In (i, (t, qx, qy)) (grid sp) ->
        ((exists lf, In lf (leaves sp) /\ lv_key lf = leaf_key i) <->
         PrimFloat.ltb qy (PrimFloat.add (PrimFloat.sub qx 2%float) 0.0039%float) = false)) /\
    length (leaves sp) =
      length (List.filter (fun it => negb (below_upper_diagonal (snd (fst (snd it)))
                                                                (snd (snd it))))
                          (grid sp)) /\
    Forall (fun lf => lv_keys lf = ["parameters_scanned"; "particle_file"; "collider_file";
                                    "n_turns"; "delta_max"; "log_file"]) (leaves sp) /\
    sublist (kept sp) (grid sp) /\
    leaves sp = map leaf_of (kept sp).
Proof.
  intros Hon Hd.
  exists (VRef 20), (Build_state (tree_heap e sp cwd b1) rest cwd f []).
  split; [now apply build_children_run|].
  cbn [st_heap]. rewrite read_leaves_tree.
  split; [reflexivity|]. split.
  { intros i t qx qy Hin.
    rewrite (leaf_of_point sp (i, (t, qx, qy)) Hin).
    unfold keep, below_upper_diagonal. rewrite Hon. cbn [fst snd andb].
    destruct (PrimFloat.ltb _ _); cbn [negb]; split; congruence. }
  split.
  { unfold leaves, kept. rewrite length_map. f_equal.
    apply filter_ext. intros it. unfold keep. now rewrite Hon. }
  split.
  { unfold leaves. apply List.Forall_forall. intros lf Hin.
    apply in_map_iff in Hin as [it [<- _]]. reflexivity. }
  split; [apply sublist_List_filter|reflexivity].
Qed.

Lemma C2_witness :
  only_keep_upper_triangle default_spec = true /\
  dialog sample_env default_spec sample_cwd sample_stdin = (inr 411%Z, []) /\
  exists children s,
    build_children sample_env default_spec (init_state sample_stdin sample_cwd []) =
      Ok children s /\
    read_leaves (st_heap s) children = Some (leaves default_spec) /\
    (forall i t qx qy,
        In (i, (t, qx, qy)) (grid default_spec) ->
        ((exists lf, In lf (leaves default_spec) /\ lv_key lf = leaf_key i) <->
         PrimFloat.ltb qy (PrimFloat.add (PrimFloat.sub qx 2%float) 0.0039%float) = false)) /\
    length (leaves default_spec) =
      length (List.filter (fun it => negb (below_upper_diagonal (snd (fst (snd it)))
                                                                (snd (snd it))))
                          (grid default_spec)) /\
    Forall (fun lf => lv_keys lf = ["parameters_scanned"; "particle_file"; "collider_file";
                                    "n_turns"; "delta_max"; "log_file"]) (leaves default_spec) /\
    sublist (kept default_spec) (grid default_spec) /\
    leaves default_spec = map leaf_of (kept default_spec).
Proof.
  split; [reflexivity|].
  split; [vm_compute; reflexivity|].
  apply (C2_upper_triangle_pruning default_spec sample_env sample_stdin sample_cwd []
           411%Z []); vm_compute; reflexivity.
Defined.

(** The script as it stands keeps 3 of the 36 pairs of tunes, hence 15
    leaves for its 5 splits, numbered as follows. *)
Example default_leaf_keys :
  map lv_key (leaves default_spec) =
  ["xtrack_0004"; "xtrack_0005"; "xtrack_0011"; "xtrack_0040"; "xtrack_0041";
   "xtrack_0047"; "xtrack_0076"; "xtrack_0077"; "xtrack_0083"; "xtrack_0112";
   "xtrack_0113"; "xtrack_0119"; "xtrack_0148"; "xtrack_0149"; "xtrack_0155"].
Proof. vm_compute. reflexivity. Qed.

(** C8 (as the code has it): an axis without values is no error.  When
    the number of splits is zero or one of the two tune arrays is empty,
    the script raises nothing: it builds the base node, and the base node
    has no children. *)
Theorem C8_empty_axis_empty_scan
    (sp : scan_spec) (e : env) (stdin : list string) (cwd : path) (f : fs)
    (b1 : Z) (rest : list string) :
  n_split sp = 0 \/ array_qx sp = [] \/ array_qy sp = [] ->
  dialog e sp cwd stdin = (inr b1, rest) ->
  exists children s,
    build_children e sp (init_state stdin cwd f) = Ok children s /\
    raised (build_children e sp (init_state stdin cwd f)) = None /\
    read_leaves (st_heap s) children = Some [] /\
    (exists base kids,
        heap_path (st_heap s) children ["base_collider"] = Some (VRef base) /\
        heap_path (st_heap s) children ["base_collider"; "children"] = Some (VRef kids) /\
        st_heap s !! kids = Some []).
Proof.
  intros Hempty Hd.
  exists (VRef 20), (Build_state (tree_heap e sp cwd b1) rest cwd f []).
  rewrite (build_children_run e sp stdin cwd f b1 rest Hd).
  split; [reflexivity|]. split; [reflexivity|].
  cbn [st_heap]. rewrite read_leaves_tree.
  assert (Hk : kept sp = []) by (unfold kept; now rewrite grid_empty).
  split; [unfold leaves; now rewrite Hk|].
  exists 19, 18. unfold tree_heap. rewrite Hk. split; [reflexivity|].
  split; reflexivity.
Qed.

Lemma C8_witness :
  (n_split empty_axis_spec = 0 \/ array_qx empty_axis_spec = [] \/
   array_qy empty_axis_spec = []) /\
  dialog sample_env empty_axis_spec sample_cwd sample_stdin = (inr 411%Z, []) /\
  exists children s,
    build_children sample_env empty_axis_spec (init_state sample_stdin sample_cwd []) =
      Ok children s /\
    raised (build_children sample_env empty_axis_spec (init_state sample_stdin sample_cwd []))
      = None /\
    read_leaves (st_heap s) children = Some [] /\
    (exists base kids,
        heap_path (st_heap s) children ["base_collider"] = Some (VRef base) /\
        heap_path (st_heap s) children ["base_collider"; "children"] = Some (VRef kids) /\
        st_heap s !! kids = Some []).
Proof.
  split; [right; left; reflexivity|].
  split; [vm_compute; reflexivity|].
  apply (C8_empty_axis_empty_scan empty_axis_spec sample_env sample_stdin sample_cwd []
           411%Z []); [right; left; reflexivity|vm_compute; reflexivity].
Defined.

(** C8 (as stated) fails: the scan whose array of horizontal tunes is
    empty is generated without any exception, as a base node without
    leaves. *)
Lemma C8_counterexample :
  array_qx empty_axis_spec = [] /\
  raised (make_folders sample_env empty_axis_spec (init_state sample_stdin sample_cwd []))
    = None /\
  exists children s,
    build_children sample_env empty_axis_spec (init_state sample_stdin sample_cwd []) =
      Ok children s /\
    read_leaves (st_heap s) children = Some [].
Proof.
  split; [reflexivity|]. split; [vm_compute; reflexivity|].
  eexists _, _. split; vm_compute; reflexivity.
Qed.

(** C3: building the leaves changes no object of the first generation but
    the dictionary of the children of the base node: every other object
    is after the loop what it was before.  In particular the base node
    still has qx = 62.31 and qy = 60.32 for both beams.  A leaf holds its
    tunes under [parameters_scanned.group_2] and nowhere else (its own
    dictionary has six keys, [qx] and [qy] not among them).  With the
    deep merge of the specification, the tunes of a leaf resolve to its
    own values, and every path the leaf does not define resolves to the
    value of the base node. *)
Theorem C3_leaves_do_not_touch_the_base
    (sp : scan_spec) (e : env) (stdin : list string) (cwd : path) (f : fs)
    (b1 : Z) (rest : list string) :
  dialog e sp cwd stdin = (inr b1, rest) ->
  exists d_config_particles children s1 s2 base kids entries,
    first_generation e sp (init_state stdin cwd f) = Ok (d_config_particles, children) s1 /\
    scan_loop sp d_config_particles children s1 = Ok tt s2 /\
    heap_path (st_heap s1) children ["base_collider"] = Some base /\
    heap_path (st_heap s1) children ["base_collider"; "children"] = Some (VRef kids) /\
    (forall l d, l <> kids -> st_heap s1 !! l = Some d -> st_heap s2 !! l = Some d) /\
    (forall beam, beam = "lhcb1" \/ beam = "lhcb2" ->
       heap_path (st_heap s2) base ["config_collider"; "config_knobs_and_tuning"; "qx"; beam]
         = Some (VFloat 62.31) /\
       heap_path (st_heap s2) base ["config_collider"; "config_knobs_and_tuning"; "qy"; beam]
         = Some (VFloat 60.32)) /\
    st_heap s2 !! kids = Some entries /\
    map fst entries = map lv_key (leaves sp) /\
    (forall key leaf, In (key, leaf) entries ->
       exists lf l d,
         In lf (leaves sp) /\ lv_key lf = key /\
         leaf = VRef l /\ st_heap s2 !! l = Some d /\
         dict_keys d = ["parameters_scanned"; "particle_file"; "collider_file"; "n_turns";
                        "delta_max"; "log_file"] /\
         heap_path (st_heap s2) leaf ["parameters_scanned"; "group_2"; "qx"]
           = Some (VFloat (lv_qx lf)) /\
         heap_path (st_heap s2) leaf ["parameters_scanned"; "group_2"; "qy"]
           = Some (VFloat (lv_qy lf)) /\
         resolved (st_heap s2) base leaf ["parameters_scanned"; "group_2"; "qx"]
           = Some (VFloat (lv_qx lf)) /\
         resolved (st_heap s2) base leaf ["parameters_scanned"; "group_2"; "qy"]
           = Some (VFloat (lv_qy lf)) /\
         (forall beam, beam = "lhcb1" \/ beam = "lhcb2" ->
            resolved (st_heap s2) base leaf
              ["config_collider"; "config_knobs_and_tuning"; "qx"; beam] = Some (VFloat 62.31) /\
            resolved (st_heap s2) base leaf
              ["config_collider"; "config_knobs_and_tuning"; "qy"; beam] = Some (VFloat 60.32)) /\
         (forall p, heap_path (st_heap s2) leaf p = None ->
            resolved (st_heap s2) base leaf p = heap_path (st_heap s2) base p)).
Proof.
  intros Hd.
  exists (VRef 0), (VRef 20), (Build_state (first_heap e sp cwd b1) rest cwd f []),
         (Build_state (tree_heap e sp cwd b1) rest cwd f []),
         (VRef 19), 18, (scan_entries 21 (kept sp)).
  split; [now apply first_generation_run|].
  split; [apply scan_loop_run|].
  cbn [st_heap].
  split; [reflexivity|]. split; [reflexivity|].
  split.
  { intros l d Hne Hl. pose proof (lookup_lt_Some _ _ _ Hl) as Hlt.
    cbn [first_heap length] in Hlt. now rewrite tree_heap_frame by lia. }
  assert (Hbase : forall beam, beam = "lhcb1" \/ beam = "lhcb2" ->
     heap_path (tree_heap e sp cwd b1) (VRef 19)
       ["config_collider"; "config_knobs_and_tuning"; "qx"; beam] = Some (VFloat 62.31) /\
     heap_path (tree_heap e sp cwd b1) (VRef 19)
       ["config_collider"; "config_knobs_and_tuning"; "qy"; beam] = Some (VFloat 60.32)).
  { intros beam [-> | ->]; split; tree_path; reflexivity. }
  split; [exact Hbase|].
  split; [apply tree_heap_children|].
  split; [unfold leaves; now rewrite map_fst_scan_entries, map_map|].
  intros key leaf Hin.
  destruct (tree_heap_entry e sp cwd b1 key leaf Hin)
    as [it [l0 [Hit [-> [-> [Hl0 [H0 [H1 H2]]]]]]]].
  exists (leaf_of it), (l0 + 2), (leaf_dict sp (l0 + 1) it).
  assert (Hqx : heap_path (tree_heap e sp cwd b1) (VRef (l0 + 2))
                  ["parameters_scanned"; "group_2"; "qx"] = Some (VFloat (lv_qx (leaf_of it)))).
  { cbn [heap_path]. rewrite H2. cbn [leaf_dict dict_get String.eqb Ascii.eqb Bool.eqb].
    rewrite H1. cbn [dict_get String.eqb Ascii.eqb Bool.eqb]. now rewrite H0. }
  assert (Hqy : heap_path (tree_heap e sp cwd b1) (VRef (l0 + 2))
                  ["parameters_scanned"; "group_2"; "qy"] = Some (VFloat (lv_qy (leaf_of it)))).
  { cbn [heap_path]. rewrite H2. cbn [leaf_dict dict_get String.eqb Ascii.eqb Bool.eqb].
    rewrite H1. cbn [dict_get String.eqb Ascii.eqb Bool.eqb]. now rewrite H0. }
  split; [unfold leaves; now apply in_map|].
  split; [reflexivity|]. split; [reflexivity|]. split; [exact H2|].
  split; [reflexivity|]. split; [exact Hqx|]. split; [exact Hqy|].
  split; [unfold resolved; now rewrite Hqx|].
  split; [unfold resolved; now rewrite Hqy|].
  split.
  { intros beam Hbeam. destruct (Hbase beam Hbeam) as [Bx By].
    unfold resolved. cbn [heap_path]. rewrite H2.
    cbn [leaf_dict dict_get String.eqb Ascii.eqb Bool.eqb].
    cbn [heap_path] in Bx, By. now rewrite Bx, By. }
  intros p Hp. unfold resolved. now rewrite Hp.
Qed.

Lemma C3_witness :
  dialog sample_env default_spec sample_cwd sample_stdin = (inr 411%Z, []) /\
  exists d_config_particles children s1 s2 base kids entries,
    first_generation sample_env default_spec (init_state sample_stdin sample_cwd []) =
      Ok (d_config_particles, children) s1 /\
    scan_loop default_spec d_config_particles children s1 = Ok tt s2 /\
    heap_path (st_heap s1) children ["base_collider"] = Some base /\
    heap_path (st_heap s1) children ["base_collider"; "children"] = Some (VRef kids) /\
    (forall l d, l <> kids -> st_heap s1 !! l = Some d -> st_heap s2 !! l = Some d) /\
    st_heap s2 !! kids = Some entries /\
    map fst entries = map lv_key (leaves default_spec).
Proof.
  assert (Hd : dialog sample_env default_spec sample_cwd sample_stdin = (inr 411%Z, []))
    by (vm_compute; reflexivity).
  split; [exact Hd|].
  destruct (C3_leaves_do_not_touch_the_base default_spec sample_env sample_stdin sample_cwd
              [] 411%Z [] Hd)
    as (p & c & s1 & s2 & base & kids & entries & H1 & H2 & H3 & H4 & H5 & _ & H7 & H8 & _).
  exists p, c, s1, s2, base, kids, entries. auto 10.
Defined.

(** C6 (as the code has it): the job of the base node, the one job among
    the sources, tags [started] and [completed] and nothing else; it has
    no handler that would tag [failed].  When its configuration names a
    log file, [started] is recorded right after the configuration is read
    and before any other effect.  [completed] is recorded by the last
    line: a run that returns ends on it, a run that raises has recorded
    no terminal tag. *)
Theorem C6_tags_of_the_build_job (fails : nat -> bool) (configuration : yaml) :
  let run := build_job fails configuration [] in
  (forall log_file tag, In (Tag log_file tag) (final run) ->
     tag = "started" \/ tag = "completed") /\
  (forall m log_file,
     configuration = YMap m -> yaml_get "log_file" m = Some log_file ->
     final run = [] \/ final run = [ReadConfig] \/
     exists rest, final run = ReadConfig :: Tag log_file "started" :: rest) /\
  match raised run with
  | None =>
      exists pre log_file,
        final run = pre ++ [Tag log_file "completed"] /\
        Forall (fun ev => terminal_tag ev = false) pre
  | Some _ => Forall (fun ev => terminal_tag ev = false) (final run)
  end.
Proof.
  intros run. split; [|split].
  - intros log_file tag Hin.
    destruct (build_job_tags fails configuration []) as [suffix [E F]].
    fold run in E. rewrite E in Hin. cbn [app] in Hin.
    apply (proj1 (List.Forall_forall _ _) F) in Hin. exact Hin.
  - intros m log_file -> Hlog. now apply build_job_started.
  - pose proof (build_job_ends_job fails configuration [] (List.Forall_nil _)) as H.
    fold run in H. destruct run; exact H.
Qed.

Lemma C6_witness :
  let run := build_job never_fails sample_configuration [] in
  raised run = None /\
  nth_error (final run) 1 = Some (Tag (YStr "tree_maker.log") "started") /\
  (forall log_file tag, In (Tag log_file tag) (final run) ->
     tag = "started" \/ tag = "completed") /\
  exists pre log_file,
    final run = pre ++ [Tag log_file "completed"] /\
    Forall (fun ev => terminal_tag ev = false) pre.
Proof.
  intros run.
  assert (R : raised run = None) by (vm_compute; reflexivity).
  split; [exact R|]. split; [vm_compute; reflexivity|].
  destruct (C6_tags_of_the_build_job never_fails sample_configuration) as [T [_ E]].
  fold run in T, E. rewrite R in E. auto.
Defined.

(** C6 (as stated) fails: in the world where the fourth effect of the run
    fails (the writing of the first chunk of particles), the job ends on
    an exception after [started] alone: no [failed], no [completed]. *)
Lemma C6_counterexample :
  let run := build_job fourth_fails sample_configuration [] in
  raised run = Some (ExternalError "effect") /\
  final run = [ReadConfig; Tag (YStr "tree_maker.log") "started"; Makedirs "particles"] /\
  existsb terminal_tag (final run) = false.
Proof. vm_compute. auto. Qed.

(** C10: the generator stores its flag under
    [config_collider.skip_leveling_base_collider] and writes the key
    [skip_leveling] in no dictionary.  The job of the base node tests
    [config_collider["skip_leveling"]] and never reads
    [skip_leveling_base_collider]: two runs, in the same world, on
    configurations that differ only by the value under
    [config_collider.skip_leveling_base_collider] are the same run, event
    for event and exception for exception; in particular both do the
    leveling or neither does. *)
Theorem C10_leveling_ignores_the_flag_of_the_generator
    (sp : scan_spec) (e : env) (stdin : list string) (cwd : path) (f : fs)
    (b1 : Z) (rest : list string)
    (fails : nat -> bool) (configuration v1 v2 : yaml) :
  dialog e sp cwd stdin = (inr b1, rest) ->
  (exists children s,
     build_children e sp (init_state stdin cwd f) = Ok children s /\
     heap_path (st_heap s) children
       ["base_collider"; "config_collider"; "skip_leveling_base_collider"] =
       Some (VBool (skip_leveling_base_collider sp)) /\
     Forall (fun d => dict_get "skip_leveling" d = None) (st_heap s)) /\
  build_job fails (with_skip_flag v1 configuration) [] =
    build_job fails (with_skip_flag v2 configuration) [] /\
  leveling_done (final (build_job fails (with_skip_flag v1 configuration) [])) =
    leveling_done (final (build_job fails (with_skip_flag v2 configuration) [])) /\
  (forall cc tr,
     leveling_condition (YMap (yaml_set "skip_leveling_base_collider" v1 cc)) tr =
     leveling_condition (YMap (yaml_set "skip_leveling_base_collider" v2 cc)) tr).
Proof.
  intros Hd. split.
  { exists (VRef 20), (Build_state (tree_heap e sp cwd b1) rest cwd f []).
    split; [now apply build_children_run|]. cbn [st_heap].
    split; [apply tree_heap_skip_flag|apply tree_heap_no_skip_leveling]. }
  assert (E : build_job fails (with_skip_flag v1 configuration) [] =
              build_job fails (with_skip_flag v2 configuration) [])
    by now rewrite !build_job_ignores_flag.
  split; [exact E|]. split; [now rewrite E|].
  intros cc tr. now rewrite !leveling_condition_ignores_flag.
Qed.

Lemma C10_witness :
  dialog sample_env default_spec sample_cwd sample_stdin = (inr 411%Z, []) /\
  (exists children s,
     build_children sample_env default_spec (init_state sample_stdin sample_cwd []) =
       Ok children s /\
     heap_path (st_heap s) children
       ["base_collider"; "config_collider"; "skip_leveling_base_collider"] =
       Some (VBool false) /\
     Forall (fun d => dict_get "skip_leveling" d = None) (st_heap s)) /\
  build_job never_fails (with_skip_flag (YBool true) sample_configuration) [] =
    build_job never_fails (with_skip_flag (YBool false) sample_configuration) [] /\
  leveling_done (final (build_job never_fails
                          (with_skip_flag (YBool true) sample_configuration) [])) = true.
Proof.
  assert (Hd : dialog sample_env default_spec sample_cwd sample_stdin = (inr 411%Z, []))
    by (vm_compute; reflexivity).
  split; [exact Hd|].
  destruct (C10_leveling_ignores_the_flag_of_the_generator default_spec sample_env
              sample_stdin sample_cwd [] 411%Z [] never_fails sample_configuration
              (YBool true) (YBool false) Hd) as [G [E _]].
  split; [exact G|]. split; [exact E|]. vm_compute. reflexivity.
Defined.

(** C4: every leaf names its chunk of particles as
    [../particles/NN.parquet], [NN] being its split padded to two digits
    and below [n_split], and the collider as [../collider/collider.json].
    A job of the base node that completes on a configuration with the
    [n_split] of the tree has written exactly the chunks
    [particles/00.parquet], ... of the [n_split] splits, and
    [collider/collider.json].  Whatever the folder [base_dir] of the base
    node, the folder of a leaf being the one of its key inside it, the two
    paths of the leaf lead to files the job has written; and when the scan
    has a leaf, every chunk is the one of some leaf. *)
Theorem C4_leaves_refer_to_the_files_of_the_base_job
    (sp : scan_spec) (e : env) (stdin : list string) (cwd : path) (f : fs)
    (b1 : Z) (rest : list string)
    (fails : nat -> bool) (m cpm : list (string * yaml)) (tr : trace) (base_dir : path) :
  dialog e sp cwd stdin = (inr b1, rest) ->
  yaml_get "config_particles" m = Some (YMap cpm) ->
  yaml_get "n_split" cpm = Some (YInt (Z.of_nat (n_split sp))) ->
  build_job fails (YMap m) [] = Ok tt tr ->
  exists children s lvs,
    build_children e sp (init_state stdin cwd f) = Ok children s /\
    heap_path (st_heap s) children ["base_collider"; "config_particles"; "n_split"] =
      Some (VInt (Z.of_nat (n_split sp))) /\
    read_leaves (st_heap s) children = Some lvs /\
    parquet_files tr = map parquet_file (seq 0 (n_split sp)) /\
    In "collider/collider.json" (json_files tr) /\
    (forall lf, In lf lvs ->
       lv_collider_file lf = "../collider/collider.json" /\
       In (resolve (base_dir ++ [lv_key lf]) (lv_collider_file lf))
          (map (resolve base_dir) (json_files tr)) /\
       exists t, (t < n_split sp)%nat /\
         lv_particle_file lf = "../particles/" +:+ format_0w 2 t +:+ ".parquet" /\
         nth_error (parquet_files tr) t = Some (parquet_file t) /\
         resolve (base_dir ++ [lv_key lf]) (lv_particle_file lf) =
           resolve base_dir (parquet_file t)) /\
    (forall t lf, In lf lvs -> (t < n_split sp)%nat ->
       exists lf', In lf' lvs /\
         lv_particle_file lf' = "../particles/" +:+ format_0w 2 t +:+ ".parquet").
Proof.
  intros Hd Hcp Hn Hrun.
  exists (VRef 20), (Build_state (tree_heap e sp cwd b1) rest cwd f []), (leaves sp).
  split; [now apply build_children_run|]. cbn [st_heap].
  split; [apply tree_heap_n_split|]. split; [apply read_leaves_tree|].
  destruct (build_job_Ok fails m cpm _ [] tr Hcp Hn Hrun) as (_ & Hpq & Hjson).
  cbn [parquet_files flat_map app] in Hpq. rewrite Nat2Z.id in Hpq.
  split; [exact Hpq|]. split; [exact Hjson|]. split.
  - intros lf Hlf. destruct (leaves_files sp lf Hlf) as [Hc [t [Ht Hp]]].
    split; [exact Hc|]. split.
    + rewrite Hc, resolve_collider_file, <- resolve_collider_json. now apply in_map.
    + exists t. split; [exact Ht|]. split; [exact Hp|]. split.
      * rewrite Hpq. apply map_nth_error.
        rewrite (nth_error_nth' _ 0) by (rewrite List.length_seq; exact Ht).
        now rewrite seq_nth by exact Ht.
      * now rewrite Hp, resolve_particle_file, resolve_parquet_file.
  - intros t lf Hlf Ht. exact (leaves_every_split sp lf t Hlf Ht).
Qed.

Lemma C4_witness :
  let tr := final (build_job never_fails sample_configuration []) in
  dialog sample_env default_spec sample_cwd sample_stdin = (inr 411%Z, []) /\
  build_job never_fails sample_configuration [] = Ok tt tr /\
  parquet_files tr =
    ["particles/00.parquet"; "particles/01.parquet"; "particles/02.parquet";
     "particles/03.parquet"; "particles/04.parquet"] /\
  exists children s lvs,
    build_children sample_env default_spec (init_state sample_stdin sample_cwd []) =
      Ok children s /\
    read_leaves (st_heap s) children = Some lvs /\
    length lvs = 15%nat /\
    forall lf, In lf lvs ->
      In (resolve ["scans"; "base_collider"; lv_key lf] (lv_collider_file lf))
         (map (resolve ["scans"; "base_collider"]) (json_files tr)) /\
      exists t, (t < 5)%nat /\
        nth_error (parquet_files tr) t = Some (parquet_file t) /\
        resolve ["scans"; "base_collider"; lv_key lf] (lv_particle_file lf) =
          resolve ["scans"; "base_collider"] (parquet_file t).
Proof.
  intros tr.
  assert (Hd : dialog sample_env default_spec sample_cwd sample_stdin = (inr 411%Z, []))
    by (vm_compute; reflexivity).
  assert (Hrun : build_job never_fails (YMap sample_entries) [] = Ok tt tr)
    by (vm_compute; reflexivity).
  split; [exact Hd|]. split; [exact Hrun|]. split; [vm_compute; reflexivity|].
  destruct (C4_leaves_refer_to_the_files_of_the_base_job default_spec sample_env
              sample_stdin sample_cwd [] 411%Z [] never_fails sample_entries
              sample_config_particles tr ["scans"; "base_collider"] Hd
              ltac:(reflexivity) ltac:(reflexivity) Hrun)
    as (children & s & lvs & H1 & _ & H3 & _ & _ & H6 & _).
  exists children, s, lvs. split; [exact H1|]. split; [exact H3|].
  split.
  { rewrite build_children_run with (b1 := 411%Z) (rest := []) in H1 by exact Hd.
    injection H1 as <- <-. cbn [st_heap] in H3. rewrite read_leaves_tree in H3.
    injection H3 as <-. vm_compute. reflexivity. }
  intros lf Hlf. destruct (H6 lf Hlf) as (_ & Hc & t & Ht & _ & Hn & Hr).
  split; [exact Hc|]. exists t. auto.
Defined.

(** C5: when [config.yaml] has a mapping under [root], the script puts
    under [config["root"]["children"]] a dictionary with the single key
    [base_collider], and the leaves of the scan are the entries of the
    dictionary [children] of that base node, all of them and nothing
    else. *)
Theorem C5_one_base_node_holds_all_leaves
    (sp : scan_spec) (e : env) (stdin : list string) (cwd : path) (f : fs)
    (b1 : Z) (rest : list string) (m r : list (string * yaml)) :
  dialog e sp cwd stdin = (inr b1, rest) ->
  config_yaml e = Some (YMap m) ->
  yaml_get "root" m = Some (YMap r) ->
  exists config s root droot children dchildren base kids entries,
    (children <- build_children e sp ;; config_section e children)%script
      (init_state stdin cwd f) = Ok config s /\
    heap_path (st_heap s) config ["root"] = Some (VRef root) /\
    st_heap s !! root = Some droot /\
    dict_get "children" droot = Some (VRef children) /\
    st_heap s !! children = Some dchildren /\
    dict_keys dchildren = ["base_collider"] /\
    dict_get "base_collider" dchildren = Some base /\
    heap_path (st_heap s) base ["children"] = Some (VRef kids) /\
    st_heap s !! kids = Some entries /\
    map fst entries = map lv_key (leaves sp) /\
    read_entries (st_heap s) entries = Some (leaves sp).
Proof.
  intros Hd Hy Hroot.
  set (s0 := {| st_heap := tree_heap e sp cwd b1; st_stdin := rest; st_cwd := cwd;
                st_fs := f; st_calls := [] |}).
  destruct (config_section_run e m r (VRef 20) s0 Hy Hroot)
    as (config & root & ext & droot & Hrun & Hr & Hdr & Hch).
  cbn [s0 st_heap] in Hr, Hdr.
  assert (H20 : (tree_heap e sp cwd b1 ++ ext) !! 20 = Some [("base_collider", VRef 19)]).
  { apply lookup_app_l_Some. now rewrite tree_heap_frame by lia. }
  assert (H18 : (tree_heap e sp cwd b1 ++ ext) !! 18 = Some (scan_entries 21 (kept sp))).
  { apply lookup_app_l_Some. apply tree_heap_children. }
  assert (Hbase : heap_path (tree_heap e sp cwd b1 ++ ext) (VRef 19) ["children"] =
                  Some (VRef 18)).
  { apply heap_path_app. tree_path. reflexivity. }
  exists config, (with_heap (st_heap s0 ++ ext) s0), root, droot, 20,
    [("base_collider", VRef 19)], (VRef 19), 18, (scan_entries 21 (kept sp)).
  split.
  { unfold bind. rewrite (build_children_run e sp stdin cwd f b1 rest Hd). exact Hrun. }
  cbn [with_heap st_heap s0].
  repeat (split; [first [assumption | reflexivity]|]).
  split.
  { rewrite map_fst_scan_entries. unfold leaves. now rewrite map_map. }
  pose proof (read_leaves_app _ ext _ _ (read_leaves_tree e sp cwd b1)) as R.
  unfold read_leaves in R. cbn [heap_path] in R, Hbase. rewrite H20 in R.
  cbn [dict_get String.eqb Ascii.eqb Bool.eqb] in R.
  destruct ((tree_heap e sp cwd b1 ++ ext) !! 19) as [d19|]; [|discriminate].
  destruct (dict_get "children" d19) as [v|]; [|discriminate].
  injection Hbase as ->. now rewrite H18 in R.
Qed.

Lemma C5_witness :
  dialog sample_env default_spec sample_cwd sample_stdin = (inr 411%Z, []) /\
  exists config s root droot children dchildren base kids entries,
    (children <- build_children sample_env default_spec ;;
     config_section sample_env children)%script
      (init_state sample_stdin sample_cwd []) = Ok config s /\
    heap_path (st_heap s) config ["root"] = Some (VRef root) /\
    st_heap s !! root = Some droot /\
    dict_get "children" droot = Some (VRef children) /\
    st_heap s !! children = Some dchildren /\
    dict_keys dchildren = ["base_collider"] /\
    dict_get "base_collider" dchildren = Some base /\
    heap_path (st_heap s) base ["children"] = Some (VRef kids) /\
    st_heap s !! kids = Some entries /\
    length entries = 15%nat.
Proof.
  assert (Hd : dialog sample_env default_spec sample_cwd sample_stdin = (inr 411%Z, []))
    by (vm_compute; reflexivity).
  split; [exact Hd|].
  destruct (C5_one_base_node_holds_all_leaves default_spec sample_env sample_stdin
              sample_cwd [] 411%Z []
              [("root", YMap [("setup_env_script", YStr "none"); ("children", YNull)])]
              [("setup_env_script", YStr "none"); ("children", YNull)]
              Hd ltac:(reflexivity) ltac:(reflexivity))
    as (config & s & root & droot & children & dchildren & base & kids & entries &
        H1 & H2 & H3 & H4 & H5 & H6 & H7 & H8 & H9 & H10 & _).
  exists config, s, root, droot, children, dchildren, base, kids, entries.
  repeat (split; [assumption|]).
  rewrite <- (length_map fst), H10. vm_compute. reflexivity.
Defined.

(** C7 (as the code has it): the script has no force flag and refuses
    nothing.  When the folder [scans/example_HL_tunescan] is there, the
    script skips its creation, enters it and calls [initialize] of
    tree_maker on the filesystem as it found it; when that call returns,
    [make_folders] is called in the same folder.  When both calls return
    and have left [tree_maker.json] and [tree_maker.log] there, the run
    ends without an exception and the two files have been moved to
    [tree_maker_example_HL_tunescan.json] and [.log], in place of what was
    under these names; no other path is touched by the script. *)
Theorem C7_an_existing_target_is_entered_not_refused
    (e : env) (config : value) (s : state) :
  let target := resolve (st_cwd s) ("scans/" +:+ study_name) in
  let run := materialize e config s in
  fs_lookup target (st_fs s) = Some Dir ->
  st_cwd (final run) = target /\
  (exists more, st_calls (final run) = st_calls s ++ Initialize config :: more) /\
  (tm_initialize e (st_heap s) config target (st_fs s) = None ->
   raised run = Some (ExternalError "tree_maker") /\ st_fs (final run) = st_fs s) /\
  (forall f1, tm_initialize e (st_heap s) config target (st_fs s) = Some f1 ->
     st_calls (final run) = st_calls s ++ [Initialize config; MakeFolders target]) /\
  (forall f1 f2 k1 k2,
     tm_initialize e (st_heap s) config target (st_fs s) = Some f1 ->
     tm_make_folders e (st_heap s) config target f1 = Some f2 ->
     fs_lookup (target ++ ["tree_maker.json"]) f2 = Some k1 ->
     fs_lookup (target ++ ["tree_maker.log"]) f2 = Some k2 ->
     fs_lookup (target ++ ["tree_maker_example_HL_tunescan.json"]) f2 <> Some Dir ->
     fs_lookup (target ++ ["tree_maker_example_HL_tunescan.log"]) f2 <> Some Dir ->
     raised run = None /\
     fs_lookup (target ++ ["tree_maker_example_HL_tunescan.json"]) (st_fs (final run))
       = Some k1 /\
     fs_lookup (target ++ ["tree_maker_example_HL_tunescan.log"]) (st_fs (final run))
       = Some k2 /\
     fs_lookup (target ++ ["tree_maker.json"]) (st_fs (final run)) = None /\
     fs_lookup (target ++ ["tree_maker.log"]) (st_fs (final run)) = None /\
     forall p,
       ~ In p [target ++ ["tree_maker.json"]; target ++ ["tree_maker.log"];
               target ++ ["tree_maker_example_HL_tunescan.json"];
               target ++ ["tree_maker_example_HL_tunescan.log"]] ->
       fs_lookup p (st_fs (final run)) = fs_lookup p f2).
Proof.
  intros target run Ht. unfold target in *. rewrite resolve_study in *.
  set (target' := st_cwd s ++ ["scans"; study_name]) in *.
  pose proof (materialize_existing e config s Ht) as E. cbv zeta in E. fold target' in E.
  fold run in E.
  destruct (tm_initialize e (st_heap s) config target' (st_fs s)) as [f1|] eqn:E1.
  2:{ rewrite E. cbn [final raised st_cwd st_calls st_fs].
      split; [reflexivity|]. split; [eauto|]. split; [auto|].
      split; intros; discriminate. }
  destruct (tm_make_folders e (st_heap s) config target' f1) as [f2|] eqn:E2.
  2:{ rewrite E. cbn [final raised st_cwd st_calls st_fs].
      split; [reflexivity|]. split; [eauto|]. split; [discriminate|].
      split; [reflexivity|].
      intros f1' f2' k1 k2 H1 H2. injection H1 as <-. congruence. }
  match type of E with _ = ?m ?s1 => set (s2 := s1) in * end.
  destruct (moves_frame "tree_maker.json" ("tree_maker_" +:+ study_name +:+ ".json")
              "tree_maker.log" ("tree_maker_" +:+ study_name +:+ ".log") s2) as [Hc Hl].
  rewrite <- E in Hc, Hl. cbn [s2 st_cwd st_calls] in Hc, Hl.
  split; [exact Hc|]. split; [eauto|]. split; [discriminate|]. split; [auto|].
  intros f1' f2' k1 k2 H1 H2 Hj Hg Hdj Hdg.
  injection H1 as <-. rewrite E2 in H2. injection H2 as <-.
  assert (M1 : move "tree_maker.json" ("tree_maker_" +:+ study_name +:+ ".json") s2 =
               Ok tt {| st_heap := st_heap s2; st_stdin := st_stdin s2; st_cwd := target';
                        st_fs := fs_add (target' ++ ["tree_maker_example_HL_tunescan.json"]) k1
                                   (fs_remove (target' ++ ["tree_maker.json"]) f2);
                        st_calls := st_calls s2 |}).
  { apply (move_run _ _ k1 s2);
      [reflexivity|vm_compute; lia|reflexivity|vm_compute; lia|exact Hj|exact Hdj]. }
  rewrite (bind_Ok _ _ _ _ _ M1) in E.
  rewrite (move_run _ _ k2) in E;
    [ | reflexivity | vm_compute; lia | reflexivity | vm_compute; lia
      | cbn [st_cwd st_fs]; rewrite fs_lookup_add, fs_lookup_remove;
        destruct (decide _) as [D|_]; [now apply child_ne in D|];
        destruct (decide _) as [D|_]; [now apply child_ne in D|]; exact Hg
      | cbn [st_cwd st_fs]; rewrite fs_lookup_add, fs_lookup_remove;
        destruct (decide _) as [D|_]; [now apply child_ne in D|];
        destruct (decide _) as [D|_]; [now apply child_ne in D|]; exact Hdg ].
  subst s2. cbn [st_heap st_stdin st_cwd st_fs st_calls] in E.
  change ("tree_maker_" +:+ study_name +:+ ".json")
    with "tree_maker_example_HL_tunescan.json" in E.
  change ("tree_maker_" +:+ study_name +:+ ".log")
    with "tree_maker_example_HL_tunescan.log" in E.
  rewrite E. cbn [final raised st_fs].
  split; [reflexivity|].
  repeat split;
    try (intros p Hp; cbn [In] in Hp);
    repeat (rewrite fs_lookup_add || rewrite fs_lookup_remove);
    repeat (match goal with
            | |- context [@decide ?P ?dec] => destruct (@decide P dec) as [D|D]
            end;
            [try (now apply child_ne in D); try (exfalso; apply Hp; now auto)
            |first [congruence | clear D]]);
    reflexivity.
Qed.

Lemma C7_witness :
  let s := init_state [] sample_cwd materialized_fs in
  let target := sample_cwd ++ ["scans"; "example_HL_tunescan"] in
  let run := materialize sample_env (VRef 0) s in
  fs_lookup target (st_fs s) = Some Dir /\
  st_cwd (final run) = target /\
  st_calls (final run) = [Initialize (VRef 0); MakeFolders target] /\
  raised run = None /\
  fs_lookup (target ++ ["tree_maker_example_HL_tunescan.json"]) (st_fs (final run))
    = Some File.
Proof.
  intros s target run.
  assert (Ht : fs_lookup (resolve (st_cwd s) ("scans/" +:+ study_name)) (st_fs s) = Some Dir)
    by (vm_compute; reflexivity).
  destruct (C7_an_existing_target_is_entered_not_refused sample_env (VRef 0) s Ht)
    as (H1 & _ & _ & H4 & H5).
  split; [exact Ht|]. split; [exact H1|].
  split; [exact (H4 _ eq_refl)|].
  destruct (H5 _ _ File File eq_refl eq_refl) as (R & J & _);
    try (vm_compute; reflexivity); try (vm_compute; discriminate).
  split; [exact R|exact J].
Defined.

(** The run of the whole script over a study materialized before: it is
    not refused, and tree_maker makes the folders again in the folder of
    the study. *)
Lemma C7_counterexample :
  let target := sample_cwd ++ ["scans"; "example_HL_tunescan"] in
  let run := make_folders sample_env default_spec
               (init_state sample_stdin sample_cwd materialized_fs) in
  fs_lookup target materialized_fs = Some Dir /\
  fs_lookup (target ++ ["base_collider"; "config.yaml"]) materialized_fs = Some File /\
  raised run = None /\
  exists config, st_calls (final run) = [Initialize config; MakeFolders target].
Proof. vm_compute. repeat split; eauto. Qed.

(** ** Further properties of the two scripts *)

(** X1: when the leveling of the base collider is to be skipped and the
    user answers anything but [y], the script stops with the
    [ValueError] of line 119: the line is read, nothing is asked about
    the bunch, the filesystem is as it was and tree_maker is not
    called. *)
Theorem X1_unconfirmed_skip_aborts
    (e : env) (sp : scan_spec) (a : string) (rest : list string) (cwd : path) (f : fs) :
  skip_leveling_base_collider sp = true ->
  a <> "y" ->
  let run := make_folders e sp (init_state (a :: rest) cwd f) in
  raised run =
    Some (ValueError "You did not confirm that you want to skip the leveling in the base collider. Aborting.") /\
  st_stdin (final run) = rest /\
  st_fs (final run) = f /\
  st_calls (final run) = [] /\
  st_cwd (final run) = cwd.
Proof.
  intros Hskip Ha run.
  assert (Hd : dialog e sp cwd (a :: rest) =
               (inl (ValueError "You did not confirm that you want to skip the leveling in the base collider. Aborting."), rest)).
  { unfold dialog, confirm_skip, str_eq. rewrite Hskip.
    destruct (String.eqb a "y") eqn:E; [now apply String.eqb_eq in E|reflexivity]. }
  destruct (make_folders_fail e sp _ cwd f _ _ Hd) as [h E].
  unfold run. rewrite E. cbn [raised final st_stdin st_fs st_calls st_cwd]. auto.
Qed.

Lemma X1_witness :
  let sp := {| n_split := 5; skip_leveling_base_collider := true;
               array_qx := array_qx default_spec; array_qy := array_qy default_spec;
               only_keep_upper_triangle := true; n_turns := 500;
               delta_max := delta_max default_spec |} in
  let run := make_folders sample_env sp (init_state ["n"; "y"] sample_cwd materialized_fs) in
  raised run =
    Some (ValueError "You did not confirm that you want to skip the leveling in the base collider. Aborting.") /\
  st_stdin (final run) = ["y"] /\
  st_fs (final run) = materialized_fs /\
  st_calls (final run) = [].
Proof.
  intros sp run.
  destruct (X1_unconfirmed_skip_aborts sample_env sp "n" ["y"] sample_cwd materialized_fs
              eq_refl ltac:(discriminate)) as (H1 & H2 & H3 & H4 & _).
  auto.
Defined.

(** X2: the question about the bunch of beam 1 (lines 167-179) is asked
    again after every answer that is neither [y] nor [n].  After [y] the
    bunch is the worst bunch of beam 1; after [n] it is the integer read
    on the next line.  The bunch of beam 2 is the worst bunch of beam 2
    and is never asked for.  The lines after the answers are left
    unread. *)
Theorem X2_choice_of_the_bunches
    (e : env) (sp : scan_spec) (junk rest : list string) (cwd : path) (f : fs) :
  skip_leveling_base_collider sp = false ->
  List.Forall (fun a => a <> "y" /\ a <> "n") junk ->
  let worst := get_worst_bunch e (pattern_fname cwd) 26 in
  let mask := ["base_collider"; "config_collider"; "config_beambeam";
               "mask_with_filling_pattern"] in
  let chosen stdin b1 :=
    exists children s,
      build_children e sp (init_state stdin cwd f) = Ok children s /\
      heap_path (st_heap s) children (mask ++ ["pattern_fname"]) =
        Some (VStr (pattern_fname cwd)) /\
      heap_path (st_heap s) children (mask ++ ["i_bunch_b1"]) = Some (VInt b1) /\
      heap_path (st_heap s) children (mask ++ ["i_bunch_b2"]) = Some (VInt (worst "beam_2")) /\
      st_stdin s = rest in
  chosen (junk ++ "y" :: rest) (worst "beam_1") /\
  (forall line z, py_int e line = Some z -> chosen (junk ++ "n" :: line :: rest) z).
Proof.
  intros Hskip Hjunk worst mask chosen.
  assert (Hrun : forall stdin b1,
            dialog e sp cwd stdin = (inr b1, rest) -> chosen stdin b1).
  { intros stdin b1 Hd.
    exists (VRef 20), (Build_state (tree_heap e sp cwd b1) rest cwd f []).
    split; [now apply build_children_run|]. cbn [st_heap st_stdin mask app].
    repeat split; tree_path; reflexivity. }
  split.
  - apply Hrun. unfold dialog, confirm_skip. rewrite Hskip.
    rewrite bunch_dialog_junk by exact Hjunk. reflexivity.
  - intros line z Hz. apply Hrun. unfold dialog, confirm_skip. rewrite Hskip.
    rewrite bunch_dialog_junk by exact Hjunk. cbn [bunch_dialog str_eq String.eqb Ascii.eqb Bool.eqb].
    now rewrite Hz.
Qed.

Lemma X2_witness :
  exists children s,
    build_children sample_env default_spec
      (init_state ["maybe"; "Y"; "n"; "12"; "left"] sample_cwd []) = Ok children s /\
    heap_path (st_heap s) children
      ["base_collider"; "config_collider"; "config_beambeam"; "mask_with_filling_pattern";
       "i_bunch_b1"] = Some (VInt 12) /\
    heap_path (st_heap s) children
      ["base_collider"; "config_collider"; "config_beambeam"; "mask_with_filling_pattern";
       "i_bunch_b2"] = Some (VInt 411) /\
    st_stdin s = ["left"].
Proof.
  destruct (X2_choice_of_the_bunches sample_env default_spec ["maybe"; "Y"] ["left"]
              sample_cwd [] eq_refl) as [_ H].
  { repeat constructor; discriminate. }
  destruct (H "12" 12%Z eq_refl) as (children & s & H1 & _ & H3 & H4 & H5).
  exists children, s. auto.
Defined.

(** X3: the same question, when it cannot be answered.  When the line
    after [n] is not an integer for [int], the script stops with a
    [ValueError]; when the input ends before [y] or [n], or right after
    [n], it stops with [EOFError].  In each case the filesystem is as it
    was and tree_maker is not called. *)
Theorem X3_bunch_dialog_failures
    (e : env) (sp : scan_spec) (junk : list string) (cwd : path) (f : fs) :
  skip_leveling_base_collider sp = false ->
  List.Forall (fun a => a <> "y" /\ a <> "n") junk ->
  let stops stdin ex rest :=
    let run := make_folders e sp (init_state stdin cwd f) in
    raised run = Some ex /\ st_stdin (final run) = rest /\
    st_fs (final run) = f /\ st_calls (final run) = [] in
  stops junk EOFError [] /\
  stops (junk ++ ["n"]) EOFError [] /\
  (forall line rest, py_int e line = None ->
     exists msg, stops (junk ++ "n" :: line :: rest) (ValueError msg) rest).
Proof.
  intros Hskip Hjunk stops.
  assert (Hrun : forall stdin ex rest,
            dialog e sp cwd stdin = (inl ex, rest) -> stops stdin ex rest).
  { intros stdin ex rest Hd. unfold stops.
    destruct (make_folders_fail e sp stdin cwd f ex rest Hd) as [h E].
    rewrite E. cbn [raised final st_stdin st_fs st_calls]. auto. }
  assert (Hd : forall tail, dialog e sp cwd (junk ++ tail) =
                 bunch_dialog e (get_worst_bunch e (pattern_fname cwd) 26 "beam_1") tail).
  { intros tail. unfold dialog, confirm_skip. rewrite Hskip.
    now apply bunch_dialog_junk. }
  split; [|split].
  - apply Hrun. rewrite <- (app_nil_r junk) at 1. rewrite Hd. reflexivity.
  - apply Hrun. rewrite Hd. reflexivity.
  - intros line rest Hz. eexists. apply Hrun. rewrite Hd.
    cbn [bunch_dialog str_eq String.eqb Ascii.eqb Bool.eqb]. rewrite Hz. reflexivity.
Qed.

Lemma X3_witness :
  let run := make_folders sample_env default_spec
               (init_state ["what"; "n"; "twelve"; "y"] sample_cwd materialized_fs) in
  (exists msg, raised run = Some (ValueError msg)) /\
  st_stdin (final run) = ["y"] /\
  st_fs (final run) = materialized_fs /\
  st_calls (final run) = [].
Proof.
  intros run.
  destruct (X3_bunch_dialog_failures sample_env default_spec ["what"] sample_cwd
              materialized_fs eq_refl) as (_ & _ & H).
  { repeat constructor; discriminate. }
  destruct (H "twelve" ["y"] eq_refl) as (msg & H1 & H2 & H3 & H4).
  split; [exists msg; exact H1|]. auto.
Defined.

(** X4: the number of leaves is the number of splits times the number of
    pairs of tunes that pass the test of line 263; without the
    upper-triangle rule it is the product of the lengths of the three
    axes. *)
Theorem X4_number_of_leaves
    (e : env) (sp : scan_spec) (stdin : list string) (cwd : path) (f : fs)
    (b1 : Z) (rest : list string) :
  dialog e sp cwd stdin = (inr b1, rest) ->
  exists children s kids entries,
    build_children e sp (init_state stdin cwd f) = Ok children s /\
    heap_path (st_heap s) children ["base_collider"; "children"] = Some (VRef kids) /\
    st_heap s !! kids = Some entries /\
    length entries =
      (n_split sp *
       length (List.filter
                 (fun q => negb (only_keep_upper_triangle sp &&
                                 below_upper_diagonal (fst q) (snd q)))
                 (list_prod (array_qx sp) (array_qy sp))))%nat /\
    (only_keep_upper_triangle sp = false ->
     length entries = (n_split sp * (length (array_qx sp) * length (array_qy sp)))%nat).
Proof.
  intros Hd.
  exists (VRef 20), (Build_state (tree_heap e sp cwd b1) rest cwd f []), 18,
         (scan_entries 21 (kept sp)).
  split; [now apply build_children_run|]. cbn [st_heap].
  split; [tree_path; reflexivity|]. split; [apply tree_heap_children|].
  assert (L : length (scan_entries 21 (kept sp)) = length (leaves sp)).
  { rewrite <- (length_map fst), map_fst_scan_entries, length_map.
    unfold leaves. now rewrite length_map. }
  rewrite L, length_leaves. split; [reflexivity|].
  intros Hoff. rewrite Hoff. cbn [andb negb]. f_equal.
  rewrite <- length_prod. f_equal.
  induction (list_prod (array_qx sp) (array_qy sp)) as [|q l IH]; [reflexivity|].
  cbn [List.filter]. now rewrite IH.
Qed.

Lemma X4_witness :
  exists children s kids entries,
    build_children sample_env default_spec (init_state sample_stdin sample_cwd []) =
      Ok children s /\
    heap_path (st_heap s) children ["base_collider"; "children"] = Some (VRef kids) /\
    st_heap s !! kids = Some entries /\
    length entries = 15%nat.
Proof.
  destruct (X4_number_of_leaves sample_env default_spec sample_stdin sample_cwd [] 411%Z [])
    as (children & s & kids & entries & H1 & H2 & H3 & H4 & _).
  { vm_compute. reflexivity. }
  exists children, s, kids, entries. repeat (split; [assumption|]).
  rewrite H4. vm_compute. reflexivity.
Defined.

(** X5: no two leaves get the same key, whatever the size of the grid
    (a number of five digits or more is written in full), so that no
    assignment of line 265 replaces an earlier leaf: the keys of the
    children of the base node are pairwise different and every leaf
    written is the one found under its key. *)
Theorem X5_keys_of_the_leaves_are_unique
    (e : env) (sp : scan_spec) (stdin : list string) (cwd : path) (f : fs)
    (b1 : Z) (rest : list string) :
  dialog e sp cwd stdin = (inr b1, rest) ->
  exists children s kids entries,
    build_children e sp (init_state stdin cwd f) = Ok children s /\
    heap_path (st_heap s) children ["base_collider"; "children"] = Some (VRef kids) /\
    st_heap s !! kids = Some entries /\
    List.NoDup (dict_keys entries) /\
    (forall key leaf, In (key, leaf) entries -> dict_get key entries = Some leaf) /\
    (forall i j, leaf_key i = leaf_key j -> i = j).
Proof.
  intros Hd.
  exists (VRef 20), (Build_state (tree_heap e sp cwd b1) rest cwd f []), 18,
         (scan_entries 21 (kept sp)).
  split; [now apply build_children_run|]. cbn [st_heap].
  split; [tree_path; reflexivity|]. split; [apply tree_heap_children|].
  assert (N : List.NoDup (dict_keys (scan_entries 21 (kept sp)))).
  { unfold dict_keys. rewrite map_fst_scan_entries.
    pose proof (NoDup_leaf_keys sp) as N. unfold leaves in N. rewrite map_map in N.
    exact N. }
  split; [exact N|]. split; [|exact leaf_key_inj].
  revert N. unfold dict_keys.
  induction (scan_entries 21 (kept sp)) as [|[k v] d IH]; intros N key leaf Hin;
    [destruct Hin|].
  cbn [map fst] in N. apply List.NoDup_cons_iff in N as [Hk N].
  cbn [dict_get]. destruct Hin as [E|Hin].
  - injection E as -> ->. now rewrite String.eqb_refl.
  - destruct (String.eqb key k) eqn:Ek; [|now apply IH].
    apply String.eqb_eq in Ek. subst k. destruct Hk.
    apply in_map_iff. exists (key, leaf). auto.
Qed.

Lemma X5_witness :
  exists children s kids entries,
    build_children sample_env default_spec (init_state sample_stdin sample_cwd []) =
      Ok children s /\
    st_heap s !! kids = Some entries /\
    List.NoDup (dict_keys entries) /\
    dict_keys entries =
      ["xtrack_0004"; "xtrack_0005"; "xtrack_0011"; "xtrack_0040"; "xtrack_0041";
       "xtrack_0047"; "xtrack_0076"; "xtrack_0077"; "xtrack_0083"; "xtrack_0112";
       "xtrack_0113"; "xtrack_0119"; "xtrack_0148"; "xtrack_0149"; "xtrack_0155"].
Proof.
  assert (Hd : dialog sample_env default_spec sample_cwd sample_stdin = (inr 411%Z, []))
    by (vm_compute; reflexivity).
  destruct (X5_keys_of_the_leaves_are_unique sample_env default_spec sample_stdin sample_cwd
              [] 411%Z [] Hd)
    as (children & s & kids & entries & H1 & H2 & H3 & H4 & _).
  exists children, s, kids, entries. repeat (split; [assumption|]).
  rewrite (build_children_run _ _ _ _ _ _ _ Hd) in H1. injection H1 as <- <-.
  cbn [st_heap] in H2, H3. revert H2. tree_path. intros H2. injection H2 as <-.
  rewrite tree_heap_children in H3. injection H3 as <-.
  vm_compute. reflexivity.
Defined.

(** X6: [config.yaml] is read after the questions have been answered
    and the tree has been built (line 278).  When the file is not there
    the script stops with [FileNotFoundError]; when the document has no
    [root] it stops with [KeyError]; when the document or its [root] is
    not a mapping it stops with [TypeError].  In each case the answers
    have been read, the filesystem is as it was and tree_maker is not
    called. *)
Theorem X6_config_yaml_errors
    (e : env) (sp : scan_spec) (stdin : list string) (cwd : path) (f : fs)
    (b1 : Z) (rest : list string) (ex : exn) :
  dialog e sp cwd stdin = (inr b1, rest) ->
  match config_yaml e with
  | None => Some (OSError "FileNotFoundError")
  | Some (YMap m) =>
      match yaml_get "root" m with
      | None => Some (KeyError "root")
      | Some (YMap _) => None
      | Some _ => Some TypeError
      end
  | Some _ => Some TypeError
  end = Some ex ->
  let run := make_folders e sp (init_state stdin cwd f) in
  raised run = Some ex /\
  st_stdin (final run) = rest /\
  st_fs (final run) = f /\
  st_calls (final run) = [] /\
  st_cwd (final run) = cwd.
Proof.
  intros Hd Hex run.
  set (s := {| st_heap := tree_heap e sp cwd b1; st_stdin := rest; st_cwd := cwd;
               st_fs := f; st_calls := [] |}).
  assert (E : exists ext, config_section e (VRef 20) s =
                          Raise ex (with_heap (st_heap s ++ ext) s)).
  { destruct (config_yaml e) as [y|] eqn:Hy.
    - destruct y as [| | | | | |m];
        try (injection Hex as <-;
             apply (config_section_not_a_mapping e _ _ _ Hy); discriminate).
      destruct (yaml_get "root" m) as [y|] eqn:Hroot.
      + destruct y as [| | | | | |r]; try discriminate;
          injection Hex as <-;
          apply (config_section_root_not_a_mapping e m _ _ _ Hy Hroot); discriminate.
      + injection Hex as <-. now apply (config_section_no_root e m).
    - injection Hex as <-. exists []. rewrite config_section_no_file by exact Hy.
      unfold with_heap. rewrite app_nil_r. reflexivity. }
  destruct E as [ext E].
  assert (R : run = Raise ex (with_heap (st_heap s ++ ext) s)).
  { unfold run, make_folders.
    rewrite (bind_Ok _ _ _ _ _ (build_children_run e sp stdin cwd f b1 rest Hd)).
    now apply bind_Raise. }
  rewrite R. cbn [raised final with_heap s st_stdin st_fs st_calls st_cwd]. auto.
Qed.

Lemma X6_witness :
  let e := {| get_worst_bunch := get_worst_bunch sample_env; py_int := py_int sample_env;
              config_yaml := Some (YMap [("study", YStr "tune scan")]);
              tm_initialize := tm_initialize sample_env;
              tm_make_folders := tm_make_folders sample_env |} in
  let run := make_folders e default_spec (init_state ["y"; "left"] sample_cwd materialized_fs) in
  raised run = Some (KeyError "root") /\
  st_stdin (final run) = ["left"] /\
  st_fs (final run) = materialized_fs /\
  st_calls (final run) = [].
Proof.
  intros e run.
  destruct (X6_config_yaml_errors e default_spec ["y"; "left"] sample_cwd materialized_fs
              411%Z ["left"] (KeyError "root")) as (H1 & H2 & H3 & H4 & _).
  { vm_compute. reflexivity. }
  { reflexivity. }
  auto.
Defined.

(** X7: with a [config.yaml] whose [root] is a mapping, the script
    writes under [root.setup_env_script] the folder it was started in
    followed by [/../miniconda/bin/activate] (line 285), whatever the
    file had there; the folder is the one before the script moves to the
    folder of the study. *)
Theorem X7_setup_env_script
    (e : env) (sp : scan_spec) (stdin : list string) (cwd : path) (f : fs)
    (b1 : Z) (rest : list string) (m r : list (string * yaml)) :
  dialog e sp cwd stdin = (inr b1, rest) ->
  config_yaml e = Some (YMap m) ->
  yaml_get "root" m = Some (YMap r) ->
  exists config s,
    (children <- build_children e sp ;; config_section e children)%script
      (init_state stdin cwd f) = Ok config s /\
    heap_path (st_heap s) config ["root"; "setup_env_script"] =
      Some (VStr (path_str cwd +:+ "/../miniconda/bin/activate")) /\
    st_cwd s = cwd /\ st_fs s = f /\ st_calls s = [].
Proof.
  intros Hd Hy Hroot.
  set (s0 := {| st_heap := tree_heap e sp cwd b1; st_stdin := rest; st_cwd := cwd;
                st_fs := f; st_calls := [] |}).
  destruct (config_section_env e m r (VRef 20) s0 Hy Hroot)
    as (config & root & ext & droot & Hrun & Hr & Hdr & _ & Henv).
  exists config, (with_heap (st_heap s0 ++ ext) s0).
  split.
  { unfold bind. rewrite (build_children_run e sp stdin cwd f b1 rest Hd). exact Hrun. }
  cbn [with_heap st_heap st_cwd st_fs st_calls s0] in *.
  split; [|auto].
  destruct config as [| | | | | |c]; try discriminate.
  cbn [heap_path] in *.
  destruct ((tree_heap e sp cwd b1 ++ ext) !! c) as [dc|]; [|discriminate].
  destruct (dict_get "root" dc) as [v|]; [|discriminate].
  injection Hr as ->. now rewrite Hdr, Henv.
Qed.

Lemma X7_witness :
  exists config s,
    (children <- build_children sample_env default_spec ;;
     config_section sample_env children)%script
      (init_state sample_stdin sample_cwd []) = Ok config s /\
    heap_path (st_heap s) config ["root"; "setup_env_script"] =
      Some (VStr "/home/user/master_study/../miniconda/bin/activate").
Proof.
  destruct (X7_setup_env_script sample_env default_spec sample_stdin sample_cwd [] 411%Z []
              [("root", YMap [("setup_env_script", YStr "none"); ("children", YNull)])]
              [("setup_env_script", YStr "none"); ("children", YNull)])
    as (config & s & H1 & H2 & _).
  { vm_compute. reflexivity. }
  { reflexivity. }
  { reflexivity. }
  exists config, s. split; [exact H1|exact H2].
Defined.

(** X8: on a filesystem where the folder [scans/example_HL_tunescan] is
    not there and [scans] is no file, the script makes the folder, with
    [scans] when it is missing (line 294), changes nothing else, and
    from there does what it does on a filesystem that has the folder. *)
Theorem X8_first_run_makes_the_folder (e : env) (config : value) (s : state) :
  let scans := resolve (st_cwd s) "scans" in
  let target := resolve (st_cwd s) ("scans/" +:+ study_name) in
  fs_lookup target (st_fs s) = None ->
  fs_lookup scans (st_fs s) <> Some File ->
  exists made,
    materialize e config s =
      materialize e config
        {| st_heap := st_heap s; st_stdin := st_stdin s; st_cwd := st_cwd s;
           st_fs := made; st_calls := st_calls s |} /\
    fs_lookup target made = Some Dir /\
    fs_lookup scans made = Some Dir /\
    (forall p, p <> target -> p <> scans -> fs_lookup p made = fs_lookup p (st_fs s)).
Proof.
  intros scans target. unfold scans, target.
  rewrite resolve_study, (resolve_name _ "scans") by (try reflexivity; cbn; lia).
  intros Ht Hs. eexists. split; [exact (materialize_fresh e config s Ht Hs)|].
  split; [|split].
  - rewrite fs_lookup_add.
    match goal with |- context [@decide ?P ?dec] => now destruct (@decide P dec) end.
  - rewrite fs_lookup_add.
    match goal with
    | |- context [@decide ?P ?dec] =>
        destruct (@decide P dec) as [D|_]; [symmetry in D; now apply scans_ne_study in D|]
    end.
    destruct (fs_lookup (st_cwd s ++ ["scans"]) (st_fs s)) as [[|]|] eqn:E.
    + now destruct Hs.
    + exact E.
    + rewrite fs_lookup_add.
      match goal with |- context [@decide ?P ?dec] => now destruct (@decide P dec) end.
  - intros p Hp1 Hp2. rewrite fs_lookup_add.
    match goal with
    | |- context [@decide ?P ?dec] => destruct (@decide P dec) as [D|_]; [now destruct Hp1|]
    end.
    destruct (fs_lookup (st_cwd s ++ ["scans"]) (st_fs s)); [reflexivity|].
    rewrite fs_lookup_add.
    match goal with
    | |- context [@decide ?P ?dec] => destruct (@decide P dec) as [D|_]; [now destruct Hp2|]
    end.
    reflexivity.
Qed.

Lemma X8_witness :
  let s := init_state [] sample_cwd [] in
  exists made,
    materialize sample_env (VRef 0) s =
      materialize sample_env (VRef 0) (init_state [] sample_cwd made) /\
    fs_lookup (sample_cwd ++ ["scans"; "example_HL_tunescan"]) made = Some Dir /\
    fs_lookup (sample_cwd ++ ["scans"]) made = Some Dir /\
    raised (materialize sample_env (VRef 0) s) = None.
Proof.
  intros s.
  destruct (X8_first_run_makes_the_folder sample_env (VRef 0) s eq_refl)
    as (made & H1 & H2 & H3 & _).
  { discriminate. }
  exists made. split; [exact H1|]. split; [exact H2|]. split; [exact H3|].
  vm_compute. reflexivity.
Defined.

(** X9: a file in the place of the folder of the study, or in the place
    of [scans], stops the script with [NotADirectoryError] (lines
    293-298): it makes no folder and does not call tree_maker. *)
Theorem X9_file_in_the_way (e : env) (config : value) (s : state) :
  let scans := resolve (st_cwd s) "scans" in
  let target := resolve (st_cwd s) ("scans/" +:+ study_name) in
  fs_lookup target (st_fs s) = Some File \/
  (fs_lookup target (st_fs s) = None /\ fs_lookup scans (st_fs s) = Some File) ->
  materialize e config s = Raise (OSError "NotADirectoryError") s.
Proof.
  intros scans target. unfold scans, target.
  rewrite resolve_study, (resolve_name _ "scans") by (try reflexivity; cbn; lia).
  intros [Ht|[Ht Hs]].
  - now apply materialize_target_file.
  - now apply materialize_scans_file.
Qed.

Lemma X9_witness :
  let f := [(sample_cwd ++ ["scans"], File)] in
  let run := make_folders sample_env default_spec (init_state sample_stdin sample_cwd f) in
  materialize sample_env (VRef 0) (init_state [] sample_cwd f) =
    Raise (OSError "NotADirectoryError") (init_state [] sample_cwd f) /\
  raised run = Some (OSError "NotADirectoryError") /\
  st_fs (final run) = f /\ st_calls (final run) = [].
Proof.
  intros f run. split.
  - apply (X9_file_in_the_way sample_env (VRef 0) (init_state [] sample_cwd f)).
    right. split; reflexivity.
  - vm_compute. auto.
Defined.

(** X10: a job that completes has written every particle of the
    distribution once, in order: the chunks written, put end to end, are
    the [n_r * n_angles] particles numbered from 0.  There are [n_split]
    chunks; their lengths differ by one at most, the longer ones first
    (lines 37-63). *)
Theorem X10_chunks_partition_the_particles
    (fails : nat -> bool) (m cpm : list (string * yaml)) (nr na n : Z) (tr : trace) :
  yaml_get "config_particles" m = Some (YMap cpm) ->
  yaml_get "n_r" cpm = Some (YInt nr) ->
  yaml_get "n_angles" cpm = Some (YInt na) ->
  yaml_get "n_split" cpm = Some (YInt n) ->
  build_job fails (YMap m) [] = Ok tt tr ->
  let total := (Z.to_nat nr * Z.to_nat na)%nat in
  let k := Z.to_nat n in
  (0 < k)%nat /\
  concat (parquet_chunks tr) = seq 0 total /\
  length (parquet_chunks tr) = k /\
  map (@length nat) (parquet_chunks tr) =
    repeat (total / k + 1)%nat (total mod k) ++ repeat (total / k)%nat (k - total mod k).
Proof.
  intros Hcp Hr Ha Hn H total k.
  destruct (build_job_chunks fails m cpm nr na n tr Hcp Hr Ha Hn H)
    as (Hnr & Hna & Hpos & Hsplit).
  replace (Z.to_nat (na + 2) - 2)%nat with (Z.to_nat na) in Hsplit by lia.
  fold total in Hsplit.
  destruct (array_split_partition _ _ _ _ _ Hsplit) as (_ & _ & Hc & Hl).
  destruct (array_split_Ok _ _ _ _ _ Hsplit) as (_ & Hlen & _).
  rewrite List.length_seq in Hl.
  split; [unfold k; lia|]. auto.
Qed.

Lemma X10_witness :
  let tr := final (build_job never_fails sample_configuration []) in
  build_job never_fails sample_configuration [] = Ok tt tr /\
  concat (parquet_chunks tr) = seq 0 1280 /\
  map (@length nat) (parquet_chunks tr) = [256; 256; 256; 256; 256]%nat.
Proof.
  intros tr.
  assert (Hrun : build_job never_fails (YMap sample_entries) [] = Ok tt tr)
    by (vm_compute; reflexivity).
  destruct (X10_chunks_partition_the_particles never_fails sample_entries
              sample_config_particles 256 5 5 tr eq_refl eq_refl eq_refl eq_refl Hrun)
    as (_ & H2 & _ & H4).
  split; [exact Hrun|]. split; [exact H2|exact H4].
Defined.

(** X11: with a number of splits that is not positive no run completes,
    whatever fails or not: the job stops before it makes the folder of
    the particles, having written no file and recorded at most the tag
    [started].  When the rest of [config_particles] is as the generator
    writes it and nothing fails, the exception is the [ValueError] of
    [np.array_split] (line 54). *)
Theorem X11_no_split_no_run
    (fails : nat -> bool) (m cpm : list (string * yaml)) (n : Z) :
  yaml_get "config_particles" m = Some (YMap cpm) ->
  yaml_get "n_split" cpm = Some (YInt n) ->
  (n <= 0)%Z ->
  let run := build_job fails (YMap m) [] in
  raised run <> None /\
  parquet_files (final run) = [] /\
  json_files (final run) = [] /\
  ~ In (Makedirs "particles") (final run) /\
  (forall tag log_file, In (Tag log_file tag) (final run) -> tag = "started") /\
  (forall r_min r_max nr na cc log_file,
     yaml_get "r_min" cpm = Some (YInt r_min) ->
     yaml_get "r_max" cpm = Some (YInt r_max) ->
     yaml_get "n_r" cpm = Some (YInt nr) -> (0 <= nr)%Z ->
     yaml_get "n_angles" cpm = Some (YInt na) -> (0 <= na + 2)%Z ->
     yaml_get "config_collider" m = Some cc ->
     yaml_get "log_file" m = Some log_file ->
     fails 0%nat = false -> fails 1%nat = false ->
     run = Raise (ValueError "number sections must be larger than 0.")
                 [ReadConfig; Tag log_file "started"]).
Proof.
  intros Hcp Hn Hle run.
  destruct (build_job_bad_split fails m cpm n Hcp Hn Hle) as (ex & tr & E & Htr).
  fold run in E.
  assert (G : raised run <> None /\ parquet_files (final run) = [] /\
              json_files (final run) = [] /\ ~ In (Makedirs "particles") (final run) /\
              (forall tag log_file, In (Tag log_file tag) (final run) -> tag = "started")).
  { rewrite E. cbn [raised final].
    split; [discriminate|].
    destruct Htr as [->|[->|[log_file ->]]];
      (split; [reflexivity|]); (split; [reflexivity|]); split;
      try (intros Hin; cbn [In] in Hin; intuition discriminate);
      intros tag lf Hin; cbn [In] in Hin; intuition (try discriminate).
    congruence. }
  destruct G as (G1 & G2 & G3 & G4 & G5). repeat (split; [assumption|]).
  intros r_min r_max nr na cc log_file H1 H2 H3 Hnr H4 Hna Hcc Hlog F0 F1.
  unfold run, build_job, ymem.
  unfold bind at 1. unfold effect at 1. cbn [length]. rewrite F0.
  unfold yget. rewrite Hcp, Hcc, Hlog.
  unfold bind at 1. unfold ret at 1.
  unfold bind at 1. unfold ret at 1.
  unfold bind at 1. unfold bind at 1. unfold ret at 1.
  unfold effect at 1. cbn [length app]. rewrite F1.
  unfold bind at 1. unfold work. unfold bind at 1.
  now rewrite (build_distribution_bad_split_error fails cpm r_min r_max nr na n _
                 H1 H2 H3 Hnr H4 Hna Hn Hle).
Qed.

Lemma X11_witness :
  let run := build_job never_fails no_split_configuration [] in
  run = Raise (ValueError "number sections must be larger than 0.")
              [ReadConfig; Tag (YStr "tree_maker.log") "started"] /\
  parquet_files (final run) = [].
Proof.
  intros run.
  destruct (X11_no_split_no_run never_fails
              (yaml_set "config_particles"
                 (YMap (yaml_set "n_split" (YInt 0) sample_config_particles)) sample_entries)
              (yaml_set "n_split" (YInt 0) sample_config_particles) 0
              eq_refl eq_refl ltac:(lia)) as (_ & H2 & _ & _ & _ & H6).
  split; [|exact H2].
  eapply (H6 2%Z 10%Z 256%Z 5%Z); try reflexivity; lia.
Defined.

(** X12: the guard of line 30 looks for [log_file] in the configuration,
    the last line does not.  On a configuration without [log_file] the
    job records no tag at all and never completes; a run that gets
    through all its work, the collider saved, ends on the last line with
    [KeyError]. *)
Theorem X12_job_without_log_file
    (fails : nat -> bool) (m : list (string * yaml)) :
  yaml_get "log_file" m = None ->
  let run := build_job fails (YMap m) [] in
  raised run <> None /\
  (forall log_file tag, ~ In (Tag log_file tag) (final run)) /\
  (forall cp cc t1,
     yaml_get "config_particles" m = Some cp ->
     yaml_get "config_collider" m = Some cc ->
     fails 0%nat = false ->
     work fails cp cc [ReadConfig] = Ok tt t1 ->
     run = Raise (KeyError "log_file") t1 /\
     exists pre, t1 = pre ++ [Makedirs "collider"; WriteJson "collider/collider.json"]).
Proof.
  intros Hlog run. split; [|split].
  - destruct run as [[] tr|ex tr] eqn:E; [|discriminate].
    apply build_job_Ok_inv in E as (cp & cc & log_file & t1 & _ & _ & Hlog' & _).
    congruence.
  - intros log_file tag Hin.
    destruct (build_job_untagged fails m Hlog []) as [suffix [E F]].
    fold run in E. rewrite E in Hin. cbn [app] in Hin.
    apply (proj1 (List.Forall_forall _ _) F) in Hin. exact Hin.
  - intros cp cc t1 Hcp Hcc F0 Hw. split.
    + now apply (build_job_no_log_file fails m cp cc).
    + apply work_Ok_inv in Hw
        as (u1 & u2 & u3 & u4 & u5 & u6 & cbb & ckt & _ & _ & _ & _ & _ & _ & _ & _ & ->).
      eauto.
Qed.

Lemma X12_witness :
  let run := build_job never_fails (YMap no_log_entries) [] in
  raised run = Some (KeyError "log_file") /\
  (forall log_file tag, ~ In (Tag log_file tag) (final run)) /\
  In "collider/collider.json" (json_files (final run)).
Proof.
  intros run.
  destruct (X12_job_without_log_file never_fails no_log_entries eq_refl) as (_ & H2 & _).
  split; [vm_compute; reflexivity|]. split; [exact H2|].
  vm_compute. auto.
Defined.

(** X13: in a run that completes, the luminosity leveling is done
    exactly when [config_collider] has [config_lumi_leveling] and its
    [skip_leveling] is not true; [skip_leveling] must then be there, and
    is not looked at when [config_lumi_leveling] is missing (line 173).
    The two lines are tuned, [lhcb1] first, and tuned once more after a
    leveling (lines 149-168 and 182-196). *)
Theorem X13_leveling_rule
    (fails : nat -> bool) (m : list (string * yaml)) (tr : trace) :
  build_job fails (YMap m) [] = Ok tt tr ->
  exists ccm,
    yaml_get "config_collider" m = Some (YMap ccm) /\
    match yaml_get "config_lumi_leveling" ccm with
    | Some _ =>
        exists skip, yaml_get "skip_leveling" ccm = Some skip /\
                     leveling_done tr = negb (truthy skip)
    | None => leveling_done tr = false
    end /\
    tuned_lines tr =
      if leveling_done tr
      then [YStr "lhcb1"; YStr "lhcb2"; YStr "lhcb1"; YStr "lhcb2"]
      else [YStr "lhcb1"; YStr "lhcb2"].
Proof.
  intros H.
  destruct (build_job_leveling fails m tr H) as (ccm & b & Hcc & Hb & Hl & Ht).
  exists ccm. split; [exact Hcc|]. split.
  - destruct (yaml_get "config_lumi_leveling" ccm).
    + destruct Hb as (skip & Hs & ->). eauto.
    + congruence.
  - rewrite Hl, Ht. now destruct b.
Qed.

Lemma X13_witness :
  let tr := final (build_job never_fails sample_configuration []) in
  build_job never_fails sample_configuration [] = Ok tt tr /\
  leveling_done tr = true /\
  tuned_lines tr = [YStr "lhcb1"; YStr "lhcb2"; YStr "lhcb1"; YStr "lhcb2"].
Proof.
  intros tr.
  assert (Hrun : build_job never_fails (YMap sample_entries) [] = Ok tt tr)
    by (vm_compute; reflexivity).
  destruct (X13_leveling_rule never_fails sample_entries tr Hrun) as (ccm & _ & _ & H3).
  assert (L : leveling_done tr = true) by (vm_compute; reflexivity).
  split; [exact Hrun|]. split; [exact L|]. now rewrite L in H3.
Defined.

(** X14: a run that completes has written three json files and no
    other: the two files of the orbit correction, then the collider
    (lines 68-72 and 214-215); saving the collider is the last thing
    done before the tag [completed]. *)
Theorem X14_json_files_of_a_completed_run
    (fails : nat -> bool) (m : list (string * yaml)) (tr : trace) :
  build_job fails (YMap m) [] = Ok tt tr ->
  json_files tr =
    ["correction/corr_co_lhcb1.json"; "correction/corr_co_lhcb2.json";
     "collider/collider.json"] /\
  exists pre log_file,
    yaml_get "log_file" m = Some log_file /\
    tr = pre ++ [Makedirs "collider"; WriteJson "collider/collider.json";
                 Tag log_file "completed"].
Proof.
  intros H. split; [now apply (build_job_json_files fails m)|].
  apply build_job_Ok_inv in H as (cp & cc & log_file & t1 & _ & _ & Hlog & Hw & ->).
  apply work_Ok_inv in Hw
    as (u1 & u2 & u3 & u4 & u5 & u6 & cbb & ckt & _ & _ & _ & _ & _ & _ & _ & _ & ->).
  exists u6, log_file. split; [exact Hlog|]. now rewrite <- app_assoc.
Qed.

Lemma X14_witness :
  let tr := final (build_job never_fails sample_configuration []) in
  build_job never_fails sample_configuration [] = Ok tt tr /\
  json_files tr =
    ["correction/corr_co_lhcb1.json"; "correction/corr_co_lhcb2.json";
     "collider/collider.json"].
Proof.
  intros tr.
  assert (Hrun : build_job never_fails (YMap sample_entries) [] = Ok tt tr)
    by (vm_compute; reflexivity).
  split; [exact Hrun|].
  exact (proj1 (X14_json_files_of_a_completed_run never_fails sample_entries tr Hrun)).
Defined.

(** X15: what the job needs in its [config.yaml].  A run completes only
    on a configuration with [log_file], with the five numbers of
    [config_particles], and with the mappings [config_mad],
    [config_beambeam] and [config_knobs_and_tuning] of [config_collider]
    holding the keys the script reads; the tunes, the chromaticities, the
    knob names and the orbit corrections are there for both lines. *)
Theorem X15_keys_a_completed_run_has_read
    (fails : nat -> bool) (m : list (string * yaml)) (tr : trace) :
  build_job fails (YMap m) [] = Ok tt tr ->
  exists cpm ccm madm bbm ktm ks,
    yaml_get "log_file" m <> None /\
    yaml_get "config_particles" m = Some (YMap cpm) /\
    List.Forall (fun k => yaml_get k cpm <> None)
      ["r_min"; "r_max"; "n_r"; "n_angles"; "n_split"] /\
    yaml_get "config_collider" m = Some (YMap ccm) /\
    yaml_get "config_mad" ccm = Some (YMap madm) /\
    List.Forall (fun k => yaml_get k madm <> None)
      ["links"; "optics_file"; "beam_config"; "enable_imperfections";
       "enable_knob_synthesis"; "rename_coupling_knobs"; "pars_for_imperfections";
       "ver_lhc_run"; "ver_hllhc_optics"] /\
    yaml_get "config_beambeam" ccm = Some (YMap bbm) /\
    List.Forall (fun k => yaml_get k bbm <> None)
      ["num_long_range_encounters_per_side"; "num_slices_head_on";
       "bunch_spacing_buckets"; "sigma_z"] /\
    yaml_get "config_knobs_and_tuning" ccm = Some (YMap ktm) /\
    yaml_get "knob_settings" ktm = Some (YMap ks) /\
    List.Forall
      (fun k => exists d, yaml_get k ktm = Some (YMap d) /\
                          yaml_get "lhcb1" d <> None /\ yaml_get "lhcb2" d <> None)
      ["knob_names"; "qx"; "qy"; "dqx"; "dqy"; "closed_orbit_correction"].
Proof.
  intros H.
  apply build_job_Ok_inv in H as (cp & cc & log_file & t1 & Hcp & Hcc & Hlog & Hw & ->).
  apply work_Ok_inv in Hw
    as (u1 & u2 & u3 & u4 & u5 & u6 & cbb & ckt & W1 & W2 & W3 & W4 & W5 & W6 & W7 & W8 & ->).
  apply yget_Ok_inv in W4 as (ccm & -> & Kbb & _).
  apply yget_Ok in W6 as [Kkt _].
  assert (Hcpm : exists cpm, cp = YMap cpm).
  { unfold build_distribution in W1. apply bind_Ok_inv in W1 as (? & ? & K & _).
    apply yget_Ok_inv in K as (cpm & -> & _). eauto. }
  destruct Hcpm as [cpm ->].
  apply build_distribution_keys in W1.
  apply build_collider_keys in W3 as (madm & Kmad & Fmad).
  apply install_beambeam_keys in W5 as (bbm & -> & Fbb).
  apply knobs_and_tuning_keys in W7 as (ktm & -> & [ks Kks] & Fkt).
  exists cpm, ccm, madm, bbm, ktm, ks.
  split; [congruence|]. auto 12.
Qed.

Lemma X15_witness :
  let tr := final (build_job never_fails sample_configuration []) in
  build_job never_fails sample_configuration [] = Ok tt tr /\
  exists cpm ccm madm,
    yaml_get "config_particles" sample_entries = Some (YMap cpm) /\
    yaml_get "n_split" cpm <> None /\
    yaml_get "config_collider" sample_entries = Some (YMap ccm) /\
    yaml_get "config_mad" ccm = Some (YMap madm) /\
    yaml_get "links" madm <> None.
Proof.
  intros tr.
  assert (Hrun : build_job never_fails (YMap sample_entries) [] = Ok tt tr)
    by (vm_compute; reflexivity).
  split; [exact Hrun|].
  destruct (X15_keys_a_completed_run_has_read never_fails sample_entries tr Hrun)
    as (cpm & ccm & madm & bbm & ktm & ks & _ & H2 & H3 & H4 & H5 & H6 & _).
  exists cpm, ccm, madm.
  rewrite !List.Forall_cons_iff in H3, H6.
  destruct H3 as (_ & _ & _ & _ & Hn & _). destruct H6 as (Hl & _).
  auto.
Defined.

(** X16: a run that completes has set every knob of [knob_settings],
    once, with its value, in the order of the mapping, and has set
    nothing else in [collider.vars] (lines 144-145). *)
Theorem X16_knobs_set_by_a_completed_run
    (fails : nat -> bool) (m ccm ktm ks : list (string * yaml)) (tr : trace) :
  yaml_get "config_collider" m = Some (YMap ccm) ->
  yaml_get "config_knobs_and_tuning" ccm = Some (YMap ktm) ->
  yaml_get "knob_settings" ktm = Some (YMap ks) ->
  build_job fails (YMap m) [] = Ok tt tr ->
  calls_to "collider.vars.__setitem__" tr =
  map (fun kv => [YStr (fst kv); snd kv]) (yaml_items ks).
Proof.
  intros Hcc Hkt Hks H.
  apply build_job_Ok_inv in H as (cp & cc & log_file & t1 & _ & Hcc' & _ & Hw & ->).
  rewrite Hcc in Hcc'. injection Hcc' as <-.
  apply work_Ok_inv in Hw
    as (u1 & u2 & u3 & u4 & u5 & u6 & cbb & ckt & W1 & W2 & W3 & _ & W5 & W6 & W7 & W8 & ->).
  apply yget_Ok in W6 as [W6 _]. rewrite Hkt in W6. injection W6 as <-.
  apply (knobs_and_tuning_knobs fails ktm ks _ _ Hks) in W7.
  rewrite !calls_to_app. cbn [calls_to flat_map app]. rewrite !app_nil_r.
  erewrite calls_to_silent; [|exact W8|unfold leveling; emits_auto].
  rewrite W7, calls_to_app. cbn [calls_to flat_map app String.eqb Ascii.eqb Bool.eqb].
  rewrite app_nil_r.
  erewrite (calls_to_silent _ _ _ _ _ W5); [|unfold install_beambeam; emits_auto].
  erewrite (calls_to_silent _ _ _ _ _ W3); [|unfold build_collider; emits_auto].
  erewrite (calls_to_silent _ _ _ _ _ W2); [|unfold write_correction; emits_auto].
  erewrite (calls_to_silent _ _ _ _ _ W1); [|unfold build_distribution; emits_auto].
  reflexivity.
Qed.

Lemma X16_witness :
  let tr := final (build_job never_fails sample_configuration []) in
  build_job never_fails sample_configuration [] = Ok tt tr /\
  calls_to "collider.vars.__setitem__" tr =
    [[YStr "on_x1"; YInt 250]; [YStr "on_sep1"; YInt 0]; [YStr "i_oct_b1"; YFloat 60.0]].
Proof.
  intros tr.
  assert (Hrun : build_job never_fails (YMap sample_entries) [] = Ok tt tr)
    by (vm_compute; reflexivity).
  split; [exact Hrun|].
  destruct (yaml_get "config_collider" sample_entries) as [[| | | | | |ccm]|] eqn:Hcc;
    try discriminate.
  destruct (yaml_get "config_knobs_and_tuning" ccm) as [[| | | | | |ktm]|] eqn:Hkt;
    try (vm_compute in Hcc; injection Hcc as <-; discriminate).
  destruct (yaml_get "knob_settings" ktm) as [[| | | | | |ks]|] eqn:Hks;
    try (vm_compute in Hcc; injection Hcc as <-; vm_compute in Hkt; injection Hkt as <-;
         discriminate).
  rewrite (X16_knobs_set_by_a_completed_run never_fails sample_entries ccm ktm ks tr
             Hcc Hkt Hks Hrun).
  vm_compute in Hcc. injection Hcc as <-. vm_compute in Hkt. injection Hkt as <-.
  vm_compute in Hks. injection Hks as <-. vm_compute. reflexivity.
Defined.

(** X17: the whole script, from the answers to tree_maker.  When the
    questions are answered, [config.yaml] has a mapping under [root],
    and the folder of the study is there or can be made, the first call
    into tree_maker is [initialize] on the configuration whose
    [root.children] is the tree built by the script, with all its
    leaves; it is made from the folder of the study, and nothing the
    script does afterwards changes the tree. *)
Theorem X17_tree_maker_is_given_the_tree
    (e : env) (sp : scan_spec) (stdin : list string) (cwd : path) (f : fs)
    (b1 : Z) (rest : list string) (m r : list (string * yaml)) :
  dialog e sp cwd stdin = (inr b1, rest) ->
  config_yaml e = Some (YMap m) ->
  yaml_get "root" m = Some (YMap r) ->
  let scans := resolve cwd "scans" in
  let target := resolve cwd ("scans/" +:+ study_name) in
  fs_lookup target f = Some Dir \/
  (fs_lookup target f = None /\ fs_lookup scans f <> Some File) ->
  let run := make_folders e sp (init_state stdin cwd f) in
  exists config more children,
    st_calls (final run) = Initialize config :: more /\
    heap_path (st_heap (final run)) config ["root"; "children"] = Some children /\
    read_leaves (st_heap (final run)) children = Some (leaves sp) /\
    st_stdin (final run) = rest /\
    st_cwd (final run) = target.
Proof.
  intros Hd Hy Hroot scans target. unfold scans, target.
  rewrite resolve_study, (resolve_name _ "scans") by (try reflexivity; cbn; lia).
  intros Hfs.
  set (s0 := {| st_heap := tree_heap e sp cwd b1; st_stdin := rest; st_cwd := cwd;
                st_fs := f; st_calls := [] |}).
  destruct (config_section_env e m r (VRef 20) s0 Hy Hroot)
    as (config & root & ext & droot & Hrun & Hr & Hdr & Hch & _).
  change (st_heap s0) with (tree_heap e sp cwd b1) in Hr, Hdr.
  set (s1 := with_heap (st_heap s0 ++ ext) s0) in Hrun.
  assert (R : make_folders e sp (init_state stdin cwd f) = materialize e config s1).
  { unfold make_folders.
    rewrite (bind_Ok _ _ _ _ _ (build_children_run e sp stdin cwd f b1 rest Hd)).
    now rewrite (bind_Ok _ _ _ _ _ Hrun). }
  cbv zeta. rewrite R. clear R.
  destruct (materialize_frame e config s1) as [Fh Fs].
  change (st_heap s1) with (tree_heap e sp cwd b1 ++ ext) in Fh.
  change (st_stdin s1) with rest in Fs.
  assert (C : st_cwd (final (materialize e config s1)) = cwd ++ ["scans"; study_name] /\
              exists more, st_calls (final (materialize e config s1)) =
                           Initialize config :: more).
  { destruct Hfs as [Ht|[Ht Hs]].
    - exact (materialize_existing_calls e config s1 Ht).
    - rewrite (materialize_fresh e config s1 Ht Hs).
      match goal with
      | |- context [materialize e config ?s2] =>
          apply (materialize_existing_calls e config s2)
      end.
      change (st_cwd s1) with cwd. change (st_fs s1) with f.
      cbn [st_cwd st_fs]. rewrite fs_lookup_add.
      match goal with |- context [@decide ?P ?dec] => now destruct (@decide P dec) end. }
  destruct C as [Hcwd [more Hcalls]].
  exists config, more, (VRef 20).
  rewrite Fh, Fs.
  split; [exact Hcalls|]. split.
  { destruct config as [| | | | | |c]; try discriminate.
    cbn [heap_path] in Hr |- *.
    destruct ((tree_heap e sp cwd b1 ++ ext) !! c) as [dc|]; [|discriminate].
    destruct (dict_get "root" dc) as [v|]; [|discriminate].
    injection Hr as ->. now rewrite Hdr, Hch. }
  split; [apply read_leaves_app, read_leaves_tree|]. auto.
Qed.

Lemma X17_witness :
  let run := make_folders sample_env default_spec
               (init_state sample_stdin sample_cwd materialized_fs) in
  exists config more children,
    st_calls (final run) = Initialize config :: more /\
    heap_path (st_heap (final run)) config ["root"; "children"] = Some children /\
    read_leaves (st_heap (final run)) children = Some (leaves default_spec) /\
    length (leaves default_spec) = 15%nat /\
    st_cwd (final run) = sample_cwd ++ ["scans"; "example_HL_tunescan"].
Proof.
  intros run.
  destruct (X17_tree_maker_is_given_the_tree sample_env default_spec sample_stdin sample_cwd
              materialized_fs 411%Z []
              [("root", YMap [("setup_env_script", YStr "none"); ("children", YNull)])]
              [("setup_env_script", YStr "none"); ("children", YNull)])
    as (config & more & children & H1 & H2 & H3 & _ & H5).
  { vm_compute. reflexivity. }
  { reflexivity. }
  { reflexivity. }
  { left. vm_compute. reflexivity. }
  exists config, more, children.
  split; [exact H1|]. split; [exact H2|]. split; [exact H3|].
  split; [vm_compute; reflexivity|exact H5].
Defined.
